(** * ClaudeForge: the workflow engine, the spec store and the feature registry

    A shallow embedding of [backend/models.py], [backend/db.py],
    [backend/utils.py], the workflow part of [backend/agents.py] and the
    endpoints [approve_spec] and [start_workflow] of [backend/main.py].

    Conventions of the embedding.
    - A Python [str] is a [string]; every character is a code point below
      256, where the only characters matched by the regular expression
      class [\d] are the ten ASCII digits.  The module [CodePoints] has the
      matcher of [validate_feature_id] over sequences of arbitrary code
      points.
    - The SQLite tables are lists of rows in insertion order, each with the
      last rowid handed out by AUTOINCREMENT; the table [feature_counter],
      whose primary key is the date, is a finite map.  A TEXT column that
      only ever receives the [.value] of an enumeration has the type of
      that enumeration.
    - The spec directory tree is a finite map from [pathlib] paths to the
      YAML documents stored there.  A file holds the dictionary passed to
      [yaml.dump]; [yaml.safe_load] returns that dictionary, and
      [datetime.isoformat] / [datetime.fromisoformat] are inverse to each
      other.  Errors of the operating system are not modelled, nor are
      errors of SQLite other than the UNIQUE constraints, nor errors of
      [Agent(...)]: in a run of the workflow the executor is the only
      operation that raises.  What is proved of a run is what it does
      given its outcome, not which errors can end it.
    - Effects are threaded through one state-and-exception monad over the
      record [World]: a Python exception leaves the world as it was when the
      exception was raised.
    - [datetime.utcnow()] reads the field [clock] of the world, which no
      function of the program changes.
    - Each call of [get_next_feature_number] is a SELECT followed by an
      UPDATE or INSERT on a connection of its own; calls that overlap are
      modelled by schedules of these statements.
    - The phase executor (the CrewAI crew) is a parameter of the engine: a
      function from the agent, the task description and the expected output
      to the content it returns or the error it raises. *)

From Stdlib Require Import String Ascii List ZArith Lia Bool DecimalString.
From Stdlib Require Import QArith DecimalN.
From stdpp Require Import gmap strings list fin_maps.

Open Scope string_scope.
Open Scope list_scope.

(** stdpp blocks the unfolding of string concatenation under [simpl]; the
    proofs below compute with concrete prefixes. *)
#[local] Arguments String.append !s1 s2 : simpl nomatch.

(** ** models.py *)

Inductive PhaseStatus :=
| DRAFT | PENDING_APPROVAL | APPROVED | REJECTED | IN_PROGRESS | COMPLETED.

Inductive WorkflowPhase :=
| REQUIREMENTS | DESIGN | TASKS | IMPLEMENTATION | VERIFICATION | REVIEW.

Inductive ProjectStatus := ACTIVE | ARCHIVED | ERROR.

Global Instance PhaseStatus_eq_dec : EqDecision PhaseStatus.
Proof. solve_decision. Defined.
Global Instance WorkflowPhase_eq_dec : EqDecision WorkflowPhase.
Proof. solve_decision. Defined.
Global Instance ProjectStatus_eq_dec : EqDecision ProjectStatus.
Proof. solve_decision. Defined.

(** The [.value] of the string enumerations. *)
Definition PhaseStatus_value (s : PhaseStatus) : string :=
  match s with
  | DRAFT => "draft"
  | PENDING_APPROVAL => "pending_approval"
  | APPROVED => "approved"
  | REJECTED => "rejected"
  | IN_PROGRESS => "in_progress"
  | COMPLETED => "completed"
  end.

Definition WorkflowPhase_value (p : WorkflowPhase) : string :=
  match p with
  | REQUIREMENTS => "requirements"
  | DESIGN => "design"
  | TASKS => "tasks"
  | IMPLEMENTATION => "implementation"
  | VERIFICATION => "verification"
  | REVIEW => "review"
  end.

Definition ProjectStatus_value (s : ProjectStatus) : string :=
  match s with
  | ACTIVE => "active"
  | ARCHIVED => "archived"
  | ERROR => "error"
  end.

(** [list(WorkflowPhase)]: the members in definition order. *)
Definition all_phases : list WorkflowPhase :=
  [REQUIREMENTS; DESIGN; TASKS; IMPLEMENTATION; VERIFICATION; REVIEW].

Definition all_statuses : list PhaseStatus :=
  [DRAFT; PENDING_APPROVAL; APPROVED; REJECTED; IN_PROGRESS; COMPLETED].

(** [PhaseStatus(v)] and [WorkflowPhase(v)]: lookup by value; [None] stands
    for the [ValueError] of an unknown value. *)
Definition PhaseStatus_of_value (v : string) : option PhaseStatus :=
  find (fun s => String.eqb (PhaseStatus_value s) v) all_statuses.

Definition WorkflowPhase_of_value (v : string) : option WorkflowPhase :=
  find (fun p => String.eqb (WorkflowPhase_value p) v) all_phases.

Record datetime := mk_datetime {
  year : N; month : N; day : N;
  hour : N; minute : N; second : N; microsecond : N
}.

Record Approval := mk_Approval {
  approval_user : string;
  approval_timestamp : datetime;
  approval_comment : string
}.

Record SpecPhase := mk_SpecPhase {
  spec_feature_id : string;
  spec_phase : WorkflowPhase;
  spec_status : PhaseStatus;
  spec_content : string;
  spec_approvals : list Approval;
  spec_dependencies : list string;
  spec_created_at : datetime;
  spec_updated_at : datetime
}.

Record Project := mk_Project {
  project_id : nat;
  project_name : string;
  project_path : string;
  project_status : ProjectStatus
}.

(** A row of the table [features]. *)
Record Feature := mk_Feature {
  feature_rowid : nat;
  feature_id : string;
  feature_project_id : nat;
  feature_description : string;
  feature_status : PhaseStatus;
  feature_current_phase : WorkflowPhase;
  feature_created_at : datetime
}.

Record LogEntry := mk_LogEntry {
  log_id : nat;
  log_feature_id : string;
  log_timestamp : datetime;
  log_message_text : string;
  log_level : string
}.

(** ** Strings: decimal formatting and slicing *)

(** [str(n)] for a natural number. *)
Definition str_of_N (n : N) : string :=
  NilEmpty.string_of_uint (N.to_uint n).

Fixpoint zeros (k : nat) : string :=
  match k with
  | O => ""
  | S k' => String "0" (zeros k')
  end.

(** [format(n, "0{w}d")]: zero padding up to a minimum width; a number with
    more digits is printed in full. *)
Definition format_0d (w : nat) (n : N) : string :=
  let s := str_of_N n in
  zeros (w - String.length s) +:+ s.

(** [s[:n]] *)
Definition str_prefix (n : nat) (s : string) : string := substring 0 n s.

(** [strftime("%Y%m%d")], for the years from 1000 on, which have four
    digits. *)
Definition strftime_Ymd (t : datetime) : string :=
  format_0d 4 (year t) +:+ format_0d 2 (month t) +:+ format_0d 2 (day t).

(** ** Regular expressions: the fragment used by [validate_feature_id] *)

Inductive regex :=
| Eps
| Chr (c : ascii)
| Digit
| Bol
| Eol
| Cat (r1 r2 : regex)
| Times (n : nat) (r : regex).

Definition is_digit (c : ascii) : bool :=
  (48 <=? nat_of_ascii c)%nat && (nat_of_ascii c <=? 57)%nat.

Definition newline : ascii := ascii_of_nat 10.

(** Python's [$] (without [re.MULTILINE]) matches at the end of the string
    and also just before a newline that ends the string. *)
Definition at_eol (s : string) : bool :=
  match s with
  | EmptyString => true
  | String c EmptyString => Ascii.eqb c newline
  | _ => false
  end.

(** Backtracking matcher in continuation-passing style: [pos] is the number
    of characters consumed so far, [s] what remains, [k] the rest of the
    pattern. *)
Fixpoint re_run (r : regex) (pos : nat) (s : string)
    (k : nat -> string -> bool) {struct r} : bool :=
  match r with
  | Eps => k pos s
  | Chr c =>
      match s with
      | String x s' => Ascii.eqb x c && k (S pos) s'
      | EmptyString => false
      end
  | Digit =>
      match s with
      | String x s' => is_digit x && k (S pos) s'
      | EmptyString => false
      end
  | Bol => Nat.eqb pos 0 && k pos s
  | Eol => at_eol s && k pos s
  | Cat r1 r2 => re_run r1 pos s (fun p s' => re_run r2 p s' k)
  | Times n r1 =>
      (fix rep (n : nat) (pos : nat) (s : string) : bool :=
         match n with
         | O => k pos s
         | S n' => re_run r1 pos s (fun p s' => rep n' p s')
         end) n pos s
  end.

(** [bool(re.match(r, s))]: the pattern must match at position 0; the
    match need not reach the end of the string. *)
Definition re_match (r : regex) (s : string) : bool :=
  re_run r 0 s (fun _ _ => true).

Fixpoint re_lit (s : string) : regex :=
  match s with
  | EmptyString => Eps
  | String c s' => Cat (Chr c) (re_lit s')
  end.

(** [r"^FEAT-\d{8}-\d{3}$"] *)
Definition feature_id_pattern : regex :=
  Cat Bol (Cat (re_lit "FEAT-") (Cat (Times 8 Digit)
    (Cat (Chr "-") (Cat (Times 3 Digit) Eol)))).

Definition validate_feature_id (feat_id : string) : bool :=
  re_match feature_id_pattern feat_id.

(** ** The same matcher over arbitrary code points

    A Python [str] is a sequence of code points.  The pattern of
    [validate_feature_id] is a [str] pattern compiled without [re.ASCII],
    so [\d] matches every character that the Unicode database of the
    interpreter classes as a decimal digit: the ASCII digits, the
    Arabic-Indic digits U+0660 to U+0669 and many more.  That table is the
    parameter [decimal_digit]; the characters of the pattern itself are
    compared by code point. *)

Module CodePoints.

Section Matcher.

Variable decimal_digit : N -> bool.

Definition at_eol (s : list N) : bool :=
  match s with
  | [] => true
  | [c] => N.eqb c 10
  | _ => false
  end.

Fixpoint re_run (r : regex) (pos : nat) (s : list N)
    (k : nat -> list N -> bool) {struct r} : bool :=
  match r with
  | Eps => k pos s
  | Chr c =>
      match s with
      | x :: s' => N.eqb x (N_of_ascii c) && k (S pos) s'
      | [] => false
      end
  | Digit =>
      match s with
      | x :: s' => decimal_digit x && k (S pos) s'
      | [] => false
      end
  | Bol => Nat.eqb pos 0 && k pos s
  | Eol => at_eol s && k pos s
  | Cat r1 r2 => re_run r1 pos s (fun p s' => re_run r2 p s' k)
  | Times n r1 =>
      (fix rep (n : nat) (pos : nat) (s : list N) : bool :=
         match n with
         | O => k pos s
         | S n' => re_run r1 pos s (fun p s' => rep n' p s')
         end) n pos s
  end.

Definition re_match (r : regex) (s : list N) : bool :=
  re_run r 0 s (fun _ _ => true).

Definition validate_feature_id (feat_id : list N) : bool :=
  re_match feature_id_pattern feat_id.

(** The code points of a string of 8-bit characters. *)
Definition code_points (s : string) : list N :=
  List.map N_of_ascii (list_ascii_of_string s).

(** [FEAT-], eight decimal digits, a dash, three decimal digits. *)
Definition well_formed_feature_id (s : list N) : Prop :=
  exists date seq : list N,
    s = code_points "FEAT-" ++ date ++ code_points "-" ++ seq /\
    length date = 8 /\ forallb decimal_digit date = true /\
    length seq = 3 /\ forallb decimal_digit seq = true.

End Matcher.

End CodePoints.

(** ** pathlib: pure POSIX paths *)

Record Path := mk_Path { path_root : string; path_parts : list string }.

Global Instance Path_eq_dec : EqDecision Path.
Proof. solve_decision. Defined.

Global Instance Path_countable : Countable Path.
Proof.
  refine (inj_countable' (fun p => (path_root p, path_parts p))
            (fun rp => mk_Path (fst rp) (snd rp)) _).
  intros [r ps]; reflexivity.
Defined.

(** Components of a path string, [cur] being the component read so far. *)
Fixpoint split_slash (s : string) (cur : string) : list string :=
  match s with
  | EmptyString => [cur]
  | String c s' =>
      if Ascii.eqb c "/" then cur :: split_slash s' ""
      else split_slash s' (cur +:+ String c "")
  end.

Definition is_part (c : string) : bool :=
  negb (String.eqb c "") && negb (String.eqb c ".").

(** The root of a POSIX path string: exactly two leading slashes are kept,
    any other number of leading slashes is one slash. *)
Definition parse_root (s : string) : string :=
  match s with
  | String "/" (String "/" (String "/" _)) => "/"
  | String "/" (String "/" _) => "//"
  | String "/" _ => "/"
  | _ => ""
  end.

(** [Path(s)]: empty components and [.] are dropped. *)
Definition parse_path (s : string) : Path :=
  mk_Path (parse_root s) (List.filter is_part (split_slash s "")).

(** [p / s]: a rooted right operand replaces the left one. *)
Definition path_join (p : Path) (s : string) : Path :=
  let q := parse_path s in
  if String.eqb (path_root q) "" then
    mk_Path (path_root p) (path_parts p ++ path_parts q)
  else q.

Infix "//" := path_join (at level 40, left associativity).

(** ** The world: database tables, spec files, log queues, clock *)

(** The dictionary written by [yaml.dump] in [write_phase_spec] and
    [update_phase_status]. *)
Record spec_dict := mk_spec_dict {
  d_feature_id : string;
  d_phase : string;
  d_status : string;
  d_content : string;
  d_approvals : list (string * datetime * string);
  d_dependencies : list string;
  d_created_at : datetime;
  d_updated_at : datetime
}.

Record World := mk_World {
  projects : list Project;
  projects_seq : nat;
  features : list Feature;
  features_seq : nat;
  logs : list LogEntry;
  logs_seq : nat;
  feature_counter : gmap string N;
  files : gmap Path spec_dict;
  log_queues : gmap string (list (string * string));
  clock : datetime
}.

Definition set_projects (ps : list Project) (n : nat) (w : World) : World :=
  mk_World ps n (features w) (features_seq w) (logs w) (logs_seq w)
    (feature_counter w) (files w) (log_queues w) (clock w).

Definition set_features (fs : list Feature) (n : nat) (w : World) : World :=
  mk_World (projects w) (projects_seq w) fs n (logs w) (logs_seq w)
    (feature_counter w) (files w) (log_queues w) (clock w).

Definition set_logs (ls : list LogEntry) (n : nat) (w : World) : World :=
  mk_World (projects w) (projects_seq w) (features w) (features_seq w) ls n
    (feature_counter w) (files w) (log_queues w) (clock w).

Definition set_feature_counter (c : gmap string N) (w : World) : World :=
  mk_World (projects w) (projects_seq w) (features w) (features_seq w)
    (logs w) (logs_seq w) c (files w) (log_queues w) (clock w).

Definition set_files (f : gmap Path spec_dict) (w : World) : World :=
  mk_World (projects w) (projects_seq w) (features w) (features_seq w)
    (logs w) (logs_seq w) (feature_counter w) f (log_queues w) (clock w).

Definition set_log_queues (q : gmap string (list (string * string)))
    (w : World) : World :=
  mk_World (projects w) (projects_seq w) (features w) (features_seq w)
    (logs w) (logs_seq w) (feature_counter w) (files w) q (clock w).

(** A database created by [init_db], an empty projects directory, no queue. *)
Definition empty_world (now : datetime) : World :=
  mk_World [] 0 [] 0 [] 0 ∅ ∅ ∅ now.

(** ** The state-and-exception monad *)

Inductive outcome (A : Type) :=
| Return (a : A)
| Raise (msg : string).
Arguments Return {A} a.
Arguments Raise {A} msg.

Definition M (A : Type) : Type := World -> outcome A * World.

Definition ret {A} (a : A) : M A := fun w => (Return a, w).

Definition raise {A} (msg : string) : M A := fun w => (Raise msg, w).

Definition bind {A B} (c : M A) (k : A -> M B) : M B :=
  fun w =>
    match c w with
    | (Return a, w') => k a w'
    | (Raise msg, w') => (Raise msg, w')
    end.

(** [try: c except Exception as e: h(str(e))] *)
Definition try_except {A} (c : M A) (h : string -> M A) : M A :=
  fun w =>
    match c w with
    | (Return a, w') => (Return a, w')
    | (Raise msg, w') => h msg w'
    end.

Definition gets {A} (f : World -> A) : M A := fun w => (Return (f w), w).

Definition modify (f : World -> World) : M unit := fun w => (Return tt, f w).

Notation "x <- c ;; k" := (bind c (fun x => k))
  (at level 100, c at next level, right associativity).
Notation "c ;;; k" := (bind c (fun _ => k))
  (at level 100, right associativity).

(** [datetime.utcnow()] *)
Definition utcnow : M datetime := gets clock.

(** ** db.py *)

Definition register_project (name path : string) : M Project :=
  row <- gets (fun w => find (fun r => String.eqb (project_name r) name) (projects w)) ;;
  match row with
  | Some r =>
      ret (mk_Project (project_id r) (project_name r) (project_path r)
             (project_status r))
  | None =>
      lastrowid <- gets (fun w => S (projects_seq w)) ;;
      modify (fun w =>
        set_projects (projects w ++ [mk_Project lastrowid name path ACTIVE])
          lastrowid w) ;;;
      ret (mk_Project lastrowid name path ACTIVE)
  end.

Definition get_project (name : string) : M (option Project) :=
  gets (fun w => find (fun r => String.eqb (project_name r) name) (projects w)).

Definition get_project_by_id (id : nat) : M (option Project) :=
  gets (fun w => find (fun r => Nat.eqb (project_id r) id) (projects w)).

Definition create_feature (feat_id : string) (proj_id : nat)
    (description : string) : M Feature :=
  dup <- gets (fun w => existsb (fun f => String.eqb (feature_id f) feat_id) (features w)) ;;
  if (dup : bool) then raise "UNIQUE constraint failed: features.feature_id"
  else
    lastrowid <- gets (fun w => S (features_seq w)) ;;
    now <- utcnow ;;
    let row := mk_Feature lastrowid feat_id proj_id description DRAFT
                 REQUIREMENTS now in
    modify (fun w => set_features (features w ++ [row]) lastrowid w) ;;;
    ret row.

(** [Feature(id=row["id"], ..., current_phase=...)]: the object built from
    a row of [features].  The column [created_at] is not read: the field
    takes its default, [datetime.utcnow()] at the time of the call. *)
Definition Feature_of_row (now : datetime) (row : Feature) : Feature :=
  mk_Feature (feature_rowid row) (feature_id row) (feature_project_id row)
    (feature_description row) (feature_status row) (feature_current_phase row)
    now.

Definition get_feature (feat_id : string) : M (option Feature) :=
  row <- gets (fun w => find (fun f => String.eqb (feature_id f) feat_id)
                          (features w)) ;;
  match row with
  | None => ret None
  | Some row => now <- utcnow ;; ret (Some (Feature_of_row now row))
  end.

(** One row under [UPDATE features SET status = ?, current_phase = ?] or
    [UPDATE features SET status = ?], for a row matched by the WHERE clause. *)
Definition update_row (status : PhaseStatus) (phase : option WorkflowPhase)
    (f : Feature) : Feature :=
  match phase with
  | Some p =>
      mk_Feature (feature_rowid f) (feature_id f) (feature_project_id f)
        (feature_description f) status p (feature_created_at f)
  | None =>
      mk_Feature (feature_rowid f) (feature_id f) (feature_project_id f)
        (feature_description f) status (feature_current_phase f)
        (feature_created_at f)
  end.

Definition update_where (feat_id : string) (status : PhaseStatus)
    (phase : option WorkflowPhase) (f : Feature) : Feature :=
  if String.eqb (feature_id f) feat_id then update_row status phase f else f.

(** [cursor.rowcount]: the number of rows matched by the WHERE clause. *)
Definition rowcount (feat_id : string) (fs : list Feature) : nat :=
  List.length (List.filter (fun f => String.eqb (feature_id f) feat_id) fs).

Definition update_feature_status (feat_id : string) (status : PhaseStatus)
    (phase : option WorkflowPhase) : M bool :=
  n <- gets (fun w => rowcount feat_id (features w)) ;;
  modify (fun w =>
    set_features (List.map (update_where feat_id status phase) (features w))
      (features_seq w) w) ;;;
  ret (0 <? n)%nat.

Definition add_log (feat_id message level : string) : M LogEntry :=
  timestamp <- utcnow ;;
  lastrowid <- gets (fun w => S (logs_seq w)) ;;
  let row := mk_LogEntry lastrowid feat_id timestamp message level in
  modify (fun w => set_logs (logs w ++ [row]) lastrowid w) ;;;
  ret row.

(** [get_next_feature_number] is a SELECT followed by an UPDATE or an INSERT
    and a commit; the two statements are separate steps on the database. *)
Definition select_counter (today : string) : M (option N) :=
  gets (fun w => feature_counter w !! today).

Definition store_counter (today : string) (row : option N) : M N :=
  match row with
  | Some counter =>
      let next_num := (counter + 1)%N in
      modify (fun w =>
        set_feature_counter (alter (fun _ => next_num) today (feature_counter w)) w) ;;;
      ret next_num
  | None =>
      let next_num := 1%N in
      present <- gets (fun w => feature_counter w !! today) ;;
      match present with
      | Some _ => raise "UNIQUE constraint failed: feature_counter.date"
      | None =>
          modify (fun w =>
            set_feature_counter (<[today := next_num]> (feature_counter w)) w) ;;;
          ret next_num
      end
  end.

Definition get_next_feature_number : M N :=
  now <- utcnow ;;
  let today := strftime_Ymd now in
  row <- select_counter today ;;
  store_counter today row.

(** ** utils.py *)

(** [os.getenv("PROJECTS_PATH", "/projects")], at its default. *)
Definition PROJECTS_PATH : string := "/projects".

Definition generate_feat_id : M string :=
  now <- utcnow ;;
  let today := strftime_Ymd now in
  number <- get_next_feature_number ;;
  ret ("FEAT-" +:+ today +:+ "-" +:+ format_0d 3 number).

Definition get_spec_dir (project_name feat_id : string) : Path :=
  parse_path PROJECTS_PATH // project_name // ".spec-workflow" // "specs" // feat_id.

Definition get_phase_file (project_name feat_id : string)
    (phase : WorkflowPhase) : Path :=
  get_spec_dir project_name feat_id
    // ("phase-" +:+ WorkflowPhase_value phase +:+ ".yaml").

(** The dictionary built from a [SpecPhase] before [yaml.dump]. *)
Definition spec_to_dict (spec : SpecPhase) : spec_dict :=
  mk_spec_dict
    (spec_feature_id spec)
    (WorkflowPhase_value (spec_phase spec))
    (PhaseStatus_value (spec_status spec))
    (spec_content spec)
    (List.map (fun a => (approval_user a, approval_timestamp a, approval_comment a))
       (spec_approvals spec))
    (spec_dependencies spec)
    (spec_created_at spec)
    (spec_updated_at spec).

(** The [SpecPhase] built from a loaded dictionary; [None] when an
    enumeration constructor raises [ValueError]. *)
Definition spec_of_dict (data : spec_dict) : option SpecPhase :=
  match WorkflowPhase_of_value (d_phase data),
        PhaseStatus_of_value (d_status data) with
  | Some phase, Some status =>
      Some (mk_SpecPhase (d_feature_id data) phase status (d_content data)
              (List.map (fun a => mk_Approval (fst (fst a)) (snd (fst a)) (snd a))
                 (d_approvals data))
              (d_dependencies data) (d_created_at data) (d_updated_at data))
  | _, _ => None
  end.

(** [dependencies or []] *)
Definition or_empty (dependencies : option (list string)) : list string :=
  match dependencies with
  | Some ((_ :: _) as deps) => deps
  | _ => []
  end.

Definition write_phase_spec (project_name feat_id : string)
    (phase : WorkflowPhase) (content : string) (status : PhaseStatus)
    (dependencies : option (list string)) : M SpecPhase :=
  let phase_file := get_phase_file project_name feat_id phase in
  now <- utcnow ;;
  let spec :=
    mk_SpecPhase feat_id phase status content
      [mk_Approval "system" now "Auto-generated"]
      (or_empty dependencies) now now in
  modify (fun w => set_files (<[phase_file := spec_to_dict spec]> (files w)) w) ;;;
  ret spec.

Definition read_phase_spec (project_name feat_id : string)
    (phase : WorkflowPhase) : M (option SpecPhase) :=
  let phase_file := get_phase_file project_name feat_id phase in
  data <- gets (fun w => files w !! phase_file) ;;
  match data with
  | None => ret None
  | Some d =>
      match spec_of_dict d with
      | Some spec => ret (Some spec)
      | None => raise "ValueError"
      end
  end.

Definition update_phase_status (project_name feat_id : string)
    (phase : WorkflowPhase) (status : PhaseStatus) (comment user : string)
    : M (option SpecPhase) :=
  read <- read_phase_spec project_name feat_id phase ;;
  match read with
  | None => ret None
  | Some spec =>
      updated_at <- utcnow ;;
      timestamp <- utcnow ;;
      let spec' :=
        mk_SpecPhase (spec_feature_id spec) (spec_phase spec) status
          (spec_content spec)
          (spec_approvals spec ++ [mk_Approval user timestamp comment])
          (spec_dependencies spec) (spec_created_at spec) updated_at in
      let phase_file := get_phase_file project_name feat_id phase in
      modify (fun w => set_files (<[phase_file := spec_to_dict spec']> (files w)) w) ;;;
      ret (Some spec')
  end.

(** The dictionary returned by [get_all_phase_specs], as its items in
    insertion order. *)
Fixpoint collect_phase_specs (project_name feat_id : string)
    (phases : list WorkflowPhase) : M (list (string * SpecPhase)) :=
  match phases with
  | [] => ret []
  | phase :: rest =>
      spec <- read_phase_spec project_name feat_id phase ;;
      specs <- collect_phase_specs project_name feat_id rest ;;
      match spec with
      | Some sp => ret ((WorkflowPhase_value phase, sp) :: specs)
      | None => ret specs
      end
  end.

Definition get_all_phase_specs (project_name feat_id : string)
    : M (list (string * SpecPhase)) :=
  collect_phase_specs project_name feat_id all_phases.

(** ** agents.py *)

(** The six agents built by the [create_*] functions. *)
Inductive Agent :=
| RequirementsAnalyst | SoftwareArchitect | TaskPlanner
| SoftwareDeveloper | QAEngineer | CodeReviewer.

Definition create_requirements_analyst : Agent := RequirementsAnalyst.
Definition create_architect : Agent := SoftwareArchitect.
Definition create_task_planner : Agent := TaskPlanner.
Definition create_developer : Agent := SoftwareDeveloper.
Definition create_qa_engineer : Agent := QAEngineer.
Definition create_reviewer : Agent := CodeReviewer.

(** What [run_workflow] returns: the success dictionary with its
    [feat_id], [status] and [phases], or the failure dictionary with its
    [feat_id] and [error]. *)
Inductive WorkflowResult :=
| WorkflowSuccess (feat_id : string) (status : string)
    (phases : list (string * string))
| WorkflowFailure (feat_id : string) (error : string).

(** The lines of a triple-quoted template, joined by newlines. *)
Fixpoint join_lines (ls : list string) : string :=
  match ls with
  | [] => ""
  | [l] => l
  | l :: rest => l +:+ String newline (join_lines rest)
  end.

Definition get_log_queue (feat_id : string) : M (list (string * string)) :=
  q <- gets (fun w => log_queues w !! feat_id) ;;
  match q with
  | Some q => ret q
  | None =>
      modify (fun w => set_log_queues (<[feat_id := []]> (log_queues w)) w) ;;;
      ret []
  end.

(** [queue.put(item)] on the queue of [feat_id]. *)
Definition queue_put (feat_id : string) (item : string * string) : M unit :=
  modify (fun w =>
    set_log_queues (alter (fun q => (q ++ [item])%list) feat_id (log_queues w)) w).

Definition log_message (feat_id message level : string) : M unit :=
  add_log feat_id message level ;;;
  get_log_queue feat_id ;;;
  queue_put feat_id (message, level).

Definition requirements_desc (feat_id project_name description : string) : string :=
  join_lines [
    "Analyze the following feature request and create comprehensive requirements:";
    "";
    "Feature: " +:+ description;
    "Project: " +:+ project_name;
    "Feature ID: " +:+ feat_id;
    "";
    "Create a requirements specification that includes:";
    "1. Functional requirements (what the feature should do)";
    "2. Non-functional requirements (performance, security, etc.)";
    "3. User stories or use cases";
    "4. Acceptance criteria";
    "5. Dependencies and constraints";
    "6. Out of scope items";
    "";
    "Output the requirements as a structured YAML-compatible specification." ].

Definition design_desc (feat_id project_name description requirements : string)
    : string :=
  join_lines [
    "Based on the requirements, create an architectural design:";
    "";
    "Feature: " +:+ description;
    "Feature ID: " +:+ feat_id;
    "Project: " +:+ project_name;
    "";
    "Previous Phase - Requirements:";
    str_prefix 2000 requirements;
    "";
    "The design should include:";
    "1. High-level architecture overview";
    "2. Component diagram (in Mermaid format)";
    "3. Data models and schemas";
    "4. API contracts (if applicable)";
    "5. Integration points with existing code";
    "6. Technology decisions and rationale";
    "";
    "Output as a structured design document." ].

Definition tasks_desc (feat_id project_name design : string) : string :=
  join_lines [
    "Break down the design into implementation tasks:";
    "";
    "Feature ID: " +:+ feat_id;
    "Project: " +:+ project_name;
    "";
    "Previous Phase - Design:";
    str_prefix 2000 design;
    "";
    "Create a task list that includes:";
    "1. Task ID and title";
    "2. Description and acceptance criteria";
    "3. Files to create or modify";
    "4. Dependencies on other tasks";
    "5. Estimated complexity (low/medium/high)";
    "6. Test requirements";
    "";
    "Output as a structured task list." ].

Definition impl_desc (feat_id project_name tasks : string) : string :=
  join_lines [
    "Implement the feature according to the task breakdown:";
    "";
    "Feature ID: " +:+ feat_id;
    "Project: " +:+ project_name;
    "Project Path: /projects/" +:+ project_name;
    "";
    "Previous Phase - Tasks:";
    str_prefix 2000 tasks;
    "";
    "For each task:";
    "1. Read existing code to understand context";
    "2. Write or modify code as needed";
    "3. Write tests for new functionality";
    "4. Commit changes with clear messages";
    "5. Document any deviations from the plan";
    "";
    "Follow coding standards and best practices." ].

Definition verify_desc (feat_id project_name requirements implementation : string)
    : string :=
  join_lines [
    "Verify the implementation:";
    "";
    "Feature ID: " +:+ feat_id;
    "Project: " +:+ project_name;
    "Project Path: /projects/" +:+ project_name;
    "";
    "Original Requirements:";
    str_prefix 1000 requirements;
    "";
    "Implementation Summary:";
    str_prefix 1000 implementation;
    "";
    "Verification steps:";
    "1. Run all tests and report results";
    "2. Verify each requirement is met";
    "3. Check for edge cases";
    "4. Identify any bugs or issues";
    "5. Validate code quality";
    "";
    "Report findings with pass/fail status for each item." ].

Definition review_desc (feat_id project_name implementation verification : string)
    : string :=
  join_lines [
    "Review the implementation:";
    "";
    "Feature ID: " +:+ feat_id;
    "Project: " +:+ project_name;
    "";
    "Implementation Summary:";
    str_prefix 1000 implementation;
    "";
    "Verification Results:";
    str_prefix 1000 verification;
    "";
    "Review for:";
    "1. Code quality and maintainability";
    "2. Adherence to design patterns";
    "3. Security considerations";
    "4. Performance implications";
    "5. Documentation completeness";
    "6. Improvement suggestions";
    "";
    "Provide constructive feedback with specific recommendations." ].

Section Workflow.

(** The phase executor [Crew(agents=[agent], tasks=[task]).kickoff()],
    followed by the extraction of the text of its result: given the agent,
    the task description and the expected output it returns the content or
    raises.  It is opaque to the engine and does not touch the registry or
    the spec store. *)
Variable kickoff : Agent -> string -> string -> outcome string.

Definition run_crew (agent : Agent) (description expected_output : string)
    : M string :=
  fun w => (kickoff agent description expected_output, w).

Definition execute_phase (feat_id project_name : string)
    (phase : WorkflowPhase) (agent : Agent)
    (description context_content : string) (auto_approve : bool) : M string :=
  log_message feat_id ("Executing phase: " +:+ WorkflowPhase_value phase) "info" ;;;
  content <- run_crew agent description
    ("Structured " +:+ WorkflowPhase_value phase +:+ " specification") ;;
  log_message feat_id
    ("Phase " +:+ WorkflowPhase_value phase +:+ " generated "
       +:+ str_of_N (N.of_nat (String.length content)) +:+ " characters of output")
    "info" ;;;
  let status := if auto_approve then COMPLETED else PENDING_APPROVAL in
  write_phase_spec project_name feat_id phase content status None ;;;
  log_message feat_id
    ("Wrote spec file for phase: " +:+ WorkflowPhase_value phase) "info" ;;;
  update_feature_status feat_id IN_PROGRESS (Some phase) ;;;
  (if auto_approve then
     update_phase_status project_name feat_id phase COMPLETED
       "Auto-approved" "system" ;;;
     ret tt
   else ret tt) ;;;
  ret content.

Definition phase_result (auto_approve : bool) : string :=
  if auto_approve then "completed" else "pending_approval".

(** The body of the [try] block of [run_workflow]. *)
Definition run_workflow_body (feat_id project_name description : string)
    (proj_id : nat) (auto_approve : bool) : M WorkflowResult :=
  let analyst := create_requirements_analyst in
  let architect := create_architect in
  let planner := create_task_planner in
  let developer := create_developer in
  let qa := create_qa_engineer in
  let reviewer := create_reviewer in
  update_feature_status feat_id IN_PROGRESS (Some REQUIREMENTS) ;;;
  log_message feat_id "Phase 1/6: Gathering requirements" "info" ;;;
  out_requirements <-
    execute_phase feat_id project_name REQUIREMENTS analyst
      (requirements_desc feat_id project_name description) "" auto_approve ;;
  log_message feat_id "Phase 2/6: Creating architectural design" "info" ;;;
  out_design <-
    execute_phase feat_id project_name DESIGN architect
      (design_desc feat_id project_name description out_requirements)
      out_requirements auto_approve ;;
  log_message feat_id "Phase 3/6: Breaking down into tasks" "info" ;;;
  out_tasks <-
    execute_phase feat_id project_name TASKS planner
      (tasks_desc feat_id project_name out_design) out_design auto_approve ;;
  log_message feat_id "Phase 4/6: Implementing feature" "info" ;;;
  out_implementation <-
    execute_phase feat_id project_name IMPLEMENTATION developer
      (impl_desc feat_id project_name out_tasks) out_tasks auto_approve ;;
  log_message feat_id "Phase 5/6: Verifying implementation" "info" ;;;
  out_verification <-
    execute_phase feat_id project_name VERIFICATION qa
      (verify_desc feat_id project_name out_requirements out_implementation)
      out_implementation auto_approve ;;
  log_message feat_id "Phase 6/6: Reviewing implementation" "info" ;;;
  out_review <-
    execute_phase feat_id project_name REVIEW reviewer
      (review_desc feat_id project_name out_implementation out_verification)
      out_verification auto_approve ;;
  let final_status := if auto_approve then COMPLETED else PENDING_APPROVAL in
  update_feature_status feat_id final_status (Some REVIEW) ;;;
  log_message feat_id
    ("Workflow completed successfully with status: "
       +:+ PhaseStatus_value final_status) "info" ;;;
  ret (WorkflowSuccess feat_id (PhaseStatus_value final_status)
         (List.map (fun p => (WorkflowPhase_value p, phase_result auto_approve))
            all_phases)).

(** The [except Exception as e] block of [run_workflow]. *)
Definition run_workflow_handler (feat_id : string) (e : string)
    : M WorkflowResult :=
  let error_msg := "Workflow error: " +:+ e in
  log_message feat_id error_msg "error" ;;;
  update_feature_status feat_id REJECTED None ;;;
  ret (WorkflowFailure feat_id error_msg).

Definition run_workflow (feat_id project_name description : string)
    (proj_id : nat) (auto_approve : bool) : M WorkflowResult :=
  log_message feat_id
    ("Starting workflow for " +:+ feat_id +:+ ": " +:+ description) "info" ;;;
  try_except
    (run_workflow_body feat_id project_name description proj_id auto_approve)
    (run_workflow_handler feat_id).

End Workflow.

(** ** Overlapping calls of [get_next_feature_number]

    Each call runs on a database connection of its own.  The SELECT takes
    no lock that outlives it, and the UPDATE or INSERT is committed at
    once, so the statements of different calls may interleave; a call in
    progress remembers the row it read. *)

Inductive call :=
| Ready
| Selected (today : string) (row : option N)
| Finished (result : outcome N).

Definition call_step (c : call) (w : World) : call * World :=
  match c with
  | Ready =>
      let today := strftime_Ymd (clock w) in
      match select_counter today w with
      | (Return row, w') => (Selected today row, w')
      | (Raise e, w') => (Finished (Raise e), w')
      end
  | Selected today row =>
      let (r, w') := store_counter today row w in (Finished r, w')
  | Finished r => (Finished r, w)
  end.

(** A schedule names, step by step, the call that executes its next
    statement. *)
Fixpoint run_schedule (schedule : list nat) (calls : list call) (w : World)
    : list call * World :=
  match schedule with
  | [] => (calls, w)
  | i :: rest =>
      match calls !! i with
      | Some c =>
          let (c', w') := call_step c w in
          run_schedule rest (<[i := c']> calls) w'
      | None => run_schedule rest calls w
      end
  end.

(** [n] calls made one after another, each finished before the next. *)
Fixpoint sequential_calls (n : nat) : M (list N) :=
  match n with
  | O => ret []
  | S k =>
      x <- get_next_feature_number ;;
      xs <- sequential_calls k ;;
      ret (x :: xs)
  end.

(** The numbers [a + 1, ..., a + n]. *)
Fixpoint numbers_after (a : N) (n : nat) : list N :=
  match n with
  | O => []
  | S k => (a + 1)%N :: numbers_after (a + 1)%N k
  end.

(** ** The identifier format in the words of the specification *)

Fixpoint all_digits (s : string) : bool :=
  match s with
  | EmptyString => true
  | String c s' => is_digit c && all_digits s'
  end.

(** [FEAT-YYYYMMDD-NNN]: the prefix, eight digits, a dash, three digits and
    nothing else; seventeen characters. *)
Definition well_formed_feature_id (s : string) : Prop :=
  exists date seq : string,
    s = "FEAT-" +:+ date +:+ "-" +:+ seq /\
    String.length date = 8 /\ all_digits date = true /\
    String.length seq = 3 /\ all_digits seq = true.

(** ** Sample data *)

Definition sample_now : datetime := mk_datetime 2026 1 29 10 30 0 0.

(** The world after [register_project("demo", "/projects/demo")] and
    [create_feature("FEAT-20260129-001", 1, "add login")] on a fresh
    database. *)
Definition sample_world : World :=
  snd ((register_project "demo" "/projects/demo" ;;;
        create_feature "FEAT-20260129-001" 1 "add login")
         (empty_world sample_now)).

(** A database whose counter row for the day of [sample_now] holds [c]. *)
Definition counter_world (c : N) : World :=
  set_feature_counter {[ strftime_Ymd sample_now := c ]} (empty_world sample_now).

(** An executor that always answers, and one whose architect fails. *)
Definition sample_executor (a : Agent) (description expected_output : string)
    : outcome string :=
  Return ("Output: " +:+ expected_output).

Definition failing_executor (a : Agent) (description expected_output : string)
    : outcome string :=
  match a with
  | SoftwareArchitect => Raise "LLM request failed"
  | _ => Return ("Output: " +:+ expected_output)
  end.

(** ** Reading the registry and the spec store *)

(** The stored row of a feature, the one [get_feature] selects. *)
Definition lookup_feature (feat_id : string) (w : World) : option Feature :=
  find (fun f => String.eqb (feature_id f) feat_id) (features w).

(** The spec that [execute_phase] leaves in the store for a phase whose
    content is [content]: written with one "Auto-generated" approval and,
    under auto-approval, updated with an "Auto-approved" one. *)
Definition phase_spec (auto_approve : bool) (feat_id : string)
    (phase : WorkflowPhase) (content : string) (now : datetime) : SpecPhase :=
  mk_SpecPhase feat_id phase
    (if auto_approve then COMPLETED else PENDING_APPROVAL)
    content
    (if auto_approve then
       [mk_Approval "system" now "Auto-generated";
        mk_Approval "system" now "Auto-approved"]
     else [mk_Approval "system" now "Auto-generated"])
    [] now now.

(** The phases that [run_workflow] executes before a given phase, and the
    phase in which the feature record stands while the given phase runs:
    the phase last completed, REQUIREMENTS at the start. *)
Definition phases_before (p : WorkflowPhase) : list WorkflowPhase :=
  match p with
  | REQUIREMENTS => []
  | DESIGN => [REQUIREMENTS]
  | TASKS => [REQUIREMENTS; DESIGN]
  | IMPLEMENTATION => [REQUIREMENTS; DESIGN; TASKS]
  | VERIFICATION => [REQUIREMENTS; DESIGN; TASKS; IMPLEMENTATION]
  | REVIEW => [REQUIREMENTS; DESIGN; TASKS; IMPLEMENTATION; VERIFICATION]
  end.

Definition phase_reached (p : WorkflowPhase) : WorkflowPhase :=
  match p with
  | REQUIREMENTS => REQUIREMENTS
  | DESIGN => REQUIREMENTS
  | TASKS => DESIGN
  | IMPLEMENTATION => TASKS
  | VERIFICATION => IMPLEMENTATION
  | REVIEW => VERIFICATION
  end.

(** The store of [w] holds, for phase [p] of the feature, the spec that
    [execute_phase] leaves there. *)
Definition stored (project_name feat_id : string) (auto_approve : bool)
    (now : datetime) (w : World) (p : WorkflowPhase) : Prop :=
  exists content,
    files w !! get_phase_file project_name feat_id p =
    Some (spec_to_dict (phase_spec auto_approve feat_id p content now)).

(** Every file of [w'] other than the spec files of the phases [ps] of the
    feature is as in [w]. *)
Definition other_files_kept (project_name feat_id : string)
    (ps : list WorkflowPhase) (w w' : World) : Prop :=
  forall path : Path,
    (forall q, In q ps -> path <> get_phase_file project_name feat_id q) ->
    files w' !! path = files w !! path.

(** The state after a run that went through all six phases: every phase has
    a spec that can be read back, with the given status and approval
    history; [get_all_phase_specs] lists the six phases; the feature record
    has the given status and stands in the phase REVIEW. *)
Definition run_completed (project_name feat_id : string) (status : PhaseStatus)
    (approvals : datetime -> list Approval) (w w' : World) : Prop :=
  (forall p : WorkflowPhase,
     exists spec,
       read_phase_spec project_name feat_id p w' = (Return (Some spec), w') /\
       spec_phase spec = p /\
       spec_status spec = status /\
       spec_approvals spec = approvals (clock w)) /\
  (exists specs,
     get_all_phase_specs project_name feat_id w' = (Return specs, w') /\
     List.map fst specs = List.map WorkflowPhase_value all_phases) /\
  (exists f',
     get_feature feat_id w' = (Return (Some f'), w') /\
     feature_status f' = status /\
     feature_current_phase f' = REVIEW).

(** The state after a run whose body raised [e] in the world [w1]: the run
    returns the failure dictionary; the feature row of [w1] has become
    REJECTED and is otherwise as in [w1]; the error is the last entry of
    the log table, at level "error", and the last item of the queue of the
    feature; the files are those of [w1], among them the specs of the
    phases that ran before the failing phase [p]; no file that existed
    before the run is gone. *)
Definition run_rejected (result : outcome WorkflowResult)
    (project_name feat_id : string) (auto_approve : bool) (e : string)
    (w w1 w' : World) : Prop :=
  result = Return (WorkflowFailure feat_id ("Workflow error: " +:+ e)) /\
  (exists f1 p,
     lookup_feature feat_id w1 = Some f1 /\
     feature_current_phase f1 = phase_reached p /\
     lookup_feature feat_id w' = Some (update_row REJECTED None f1) /\
     feature_status (update_row REJECTED None f1) = REJECTED /\
     feature_current_phase (update_row REJECTED None f1) = feature_current_phase f1 /\
     Forall (stored project_name feat_id auto_approve (clock w) w')
       (phases_before p)) /\
  logs w' = logs w1 ++
    [mk_LogEntry (S (logs_seq w1)) feat_id (clock w1)
       ("Workflow error: " +:+ e) "error"] /\
  (exists q,
     log_queues w' !! feat_id = Some (q ++ [("Workflow error: " +:+ e, "error")])) /\
  files w' = files w1 /\
  (forall path : Path, is_Some (files w !! path) -> is_Some (files w' !! path)).

(** Three runs for the feature of [sample_world]. *)
Definition sample_auto_run : outcome WorkflowResult * World :=
  run_workflow sample_executor "FEAT-20260129-001" "demo" "add login" 1 true
    sample_world.

Definition sample_manual_run : outcome WorkflowResult * World :=
  run_workflow sample_executor "FEAT-20260129-001" "demo" "add login" 1 false
    sample_world.

Definition sample_failed_run : outcome WorkflowResult * World :=
  run_workflow failing_executor "FEAT-20260129-001" "demo" "add login" 1 true
    sample_world.

(** The failed run in two parts: the world after the first log message of
    [run_workflow], and the body of the [try] block run from there. *)
Definition sample_failed_start : World :=
  snd (log_message "FEAT-20260129-001"
         "Starting workflow for FEAT-20260129-001: add login" "info"
         sample_world).

Definition sample_failed_body : outcome WorkflowResult * World :=
  run_workflow_body failing_executor "FEAT-20260129-001" "demo" "add login" 1
    true sample_failed_start.

Definition sample_phases (status : string) : list (string * string) :=
  List.map (fun p => (WorkflowPhase_value p, status)) all_phases.

(** ** Auxiliary predicates of the statements *)

(** What [UPDATE features SET status = ?] leaves of a row. *)
Definition only_status_changed (feat_id : string) (status : PhaseStatus)
    (f f' : Feature) : Prop :=
  feature_rowid f' = feature_rowid f /\
  feature_id f' = feature_id f /\
  feature_project_id f' = feature_project_id f /\
  feature_description f' = feature_description f /\
  feature_current_phase f' = feature_current_phase f /\
  feature_created_at f' = feature_created_at f /\
  feature_status f' =
    if String.eqb (feature_id f) feat_id then status else feature_status f.

Definition named (name : string) (r : Project) : bool :=
  String.eqb (project_name r) name.

(** The numbers [a, a + 1, ..., a + k - 1]. *)
Fixpoint N_range (a : N) (k : nat) : list N :=
  match k with
  | O => []
  | S k' => a :: N_range (N.succ a) k'
  end.

Definition padded_digits (w : nat) (n : N) : bool :=
  Nat.eqb (String.length (format_0d w n)) w && all_digits (format_0d w n).

(** The dates [datetime] can hold. *)
Definition valid_date (t : datetime) : Prop :=
  (1000 <= year t <= 9999)%N /\ (1 <= month t <= 12)%N /\ (1 <= day t <= 31)%N.

(** The state in which the body of [run_workflow] ends. *)
Definition body_post (kickoff : Agent -> string -> string -> outcome string)
    (project_name feat_id : string) (auto_approve : bool)
    (w : World) (r : outcome WorkflowResult) (w' : World) : Prop :=
  match r with
  | Return res =>
      let final := if auto_approve then COMPLETED else PENDING_APPROVAL in
      res = WorkflowSuccess feat_id (PhaseStatus_value final)
              (List.map (fun p => (WorkflowPhase_value p, phase_result auto_approve))
                 all_phases) /\
      Forall (stored project_name feat_id auto_approve (clock w) w') all_phases /\
      other_files_kept project_name feat_id all_phases w w' /\
      lookup_feature feat_id w' =
        option_map (update_row final (Some REVIEW)) (lookup_feature feat_id w) /\
      clock w' = clock w
  | Raise e =>
      exists (p : WorkflowPhase) (agent : Agent) (description : string),
        kickoff agent description
          ("Structured " +:+ WorkflowPhase_value p +:+ " specification") = Raise e /\
        Forall (stored project_name feat_id auto_approve (clock w) w')
          (phases_before p) /\
        other_files_kept project_name feat_id (phases_before p) w w' /\
        lookup_feature feat_id w' =
          option_map (update_row IN_PROGRESS (Some (phase_reached p)))
            (lookup_feature feat_id w) /\
        clock w' = clock w
  end.

(** ** utils.py: progress and backups *)

(** The loop of [calculate_progress]: [completed] is the sum so far.  The
    summands 1, 0.5 and 0.75 and all their sums up to 6 are exact in binary
    floating point, so the sum is the rational number held here. *)
Fixpoint progress_loop (feat_id project_name : string)
    (phases : list WorkflowPhase) (completed : Q) : M Q :=
  match phases with
  | [] => ret completed
  | phase :: rest =>
      spec <- read_phase_spec project_name feat_id phase ;;
      progress_loop feat_id project_name rest
        (match spec with
         | Some sp =>
             match spec_status sp with
             | COMPLETED => completed + 1
             | IN_PROGRESS => completed + (1 # 2)
             | APPROVED => completed + (3 # 4)
             | _ => completed
             end
         | None => completed
         end)%Q
  end.

(** [calculate_progress(feat_id, project_name)]; the value is the exact
    quotient, of which Python returns the nearest float (0 and 1 exactly). *)
Definition calculate_progress (feat_id project_name : string) : M Q :=
  let phases := all_phases in
  let total := List.length phases in
  completed <- progress_loop feat_id project_name phases 0%Q ;;
  ret (completed / inject_Z (Z.of_nat total))%Q.

(** [strftime("%Y%m%d_%H%M%S")] *)
Definition strftime_backup (t : datetime) : string :=
  strftime_Ymd t +:+ "_" +:+ format_0d 2 (hour t) +:+ format_0d 2 (minute t)
    +:+ format_0d 2 (second t).

(** [backup_spec]: [shutil.copy2] stores under the backup path the document
    of the phase file. *)
Definition backup_spec (project_name feat_id : string) (phase : WorkflowPhase)
    : M (option Path) :=
  let phase_file := get_phase_file project_name feat_id phase in
  data <- gets (fun w => files w !! phase_file) ;;
  match data with
  | None => ret None
  | Some d =>
      let backup_dir := get_spec_dir project_name feat_id // ".backups" in
      now <- utcnow ;;
      let timestamp := strftime_backup now in
      let backup_file :=
        backup_dir // ("phase-" +:+ WorkflowPhase_value phase +:+ "_"
                         +:+ timestamp +:+ ".yaml") in
      modify (fun w => set_files (<[backup_file := d]> (files w)) w) ;;;
      ret (Some backup_file)
  end.

(** ** agents.py: the workflow manager *)

(** A value of the dictionary [_workflows]. *)
Record workflow_marker := mk_workflow_marker {
  marker_status : string;
  marker_project : string;
  marker_description : string
}.

(** [d[key] = value] on a dictionary kept as its items in insertion order:
    an existing key keeps its place. *)
Fixpoint dict_set {V : Type} (key : string) (value : V)
    (d : list (string * V)) : list (string * V) :=
  match d with
  | [] => [(key, value)]
  | (k, v) :: rest =>
      if String.eqb k key then (k, value) :: rest
      else (k, v) :: dict_set key value rest
  end.

(** The attribute [_workflows] of a [WorkflowManager]. *)
Definition WorkflowManager : Type := list (string * workflow_marker).

(** [WorkflowManager()] *)
Definition new_manager : WorkflowManager := [].

Definition list_running (self : WorkflowManager) : list string :=
  List.map fst
    (List.filter (fun item => String.eqb (marker_status (snd item)) "running") self).

(** [WorkflowManager.get_status]: the dictionary with [feat_id], [status]
    and [current_phase], read from the registry. *)
Definition get_status (feat_id : string) : M (option (string * string * string)) :=
  feature <- get_feature feat_id ;;
  match feature with
  | None => ret None
  | Some f =>
      ret (Some (feat_id, PhaseStatus_value (feature_status f),
                 WorkflowPhase_value (feature_current_phase f)))
  end.

(** ** main.py: the endpoints that start a workflow and approve a spec *)

(** What an endpoint answers: its response, or the [HTTPException] it
    raises. *)
Inductive http (A : Type) :=
| Response (a : A)
| HTTPException (status_code : nat) (detail : string).
Arguments Response {A} a.
Arguments HTTPException {A} status_code detail.

Record ApproveSpecResponse := mk_ApproveSpecResponse {
  response_success : bool;
  response_message : string
}.

Record StartWorkflowResponse := mk_StartWorkflowResponse {
  response_feat_id : string;
  response_start_message : string
}.

(** The status an action of [approve_spec] stands for. *)
Definition action_status (action : string) : option PhaseStatus :=
  if String.eqb action "approve" then Some APPROVED
  else if String.eqb action "reject" then Some REJECTED
  else None.

Definition approve_spec (feat_id : string) (phase : WorkflowPhase)
    (action comment : string) : M (http ApproveSpecResponse) :=
  feature <- get_feature feat_id ;;
  match feature with
  | None => ret (HTTPException 404 "Feature not found")
  | Some feature =>
      project <- get_project_by_id (feature_project_id feature) ;;
      match project with
      | None => ret (HTTPException 404 "Project not found")
      | Some project =>
          match action_status action with
          | None => ret (HTTPException 400 "Invalid action")
          | Some new_status =>
              spec <- update_phase_status (project_name project) feat_id phase
                        new_status comment "dashboard" ;;
              match spec with
              | None => ret (HTTPException 404 "Phase spec not found")
              | Some _ =>
                  add_log feat_id
                    ("Phase " +:+ WorkflowPhase_value phase +:+ " " +:+ action
                       +:+ "d: " +:+ comment) "info" ;;;
                  ret (Response (mk_ApproveSpecResponse true
                         ("Phase " +:+ WorkflowPhase_value phase +:+ " "
                            +:+ action +:+ "d successfully")))
              end
          end
      end
  end.

Section Server.

Variable kickoff : Agent -> string -> string -> outcome string.

(** [WorkflowManager.start]: the marker is set, then
    [start_workflow_async] hands [run_workflow] to a new thread; the call
    returns the manager and the computation the thread will run. *)
Definition manager_start (self : WorkflowManager)
    (feat_id project_name description : string) (proj_id : nat)
    (auto_approve : bool) : WorkflowManager * M WorkflowResult :=
  (dict_set feat_id (mk_workflow_marker "running" project_name description) self,
   run_workflow kickoff feat_id project_name description proj_id auto_approve).

(** The endpoint [start_workflow]; [auto_approve] is the value of
    [os.getenv("AUTO_APPROVE", "true").lower() == "true"]. *)
Definition start_workflow (manager : WorkflowManager)
    (project feature_desc : string) (auto_approve : bool)
    : M (WorkflowManager * M WorkflowResult * StartWorkflowResponse) :=
  found <- get_project project ;;
  proj <- (match found with
           | Some p => ret p
           | None => register_project project ("/projects/" +:+ project)
           end) ;;
  feat_id <- generate_feat_id ;;
  create_feature feat_id (project_id proj) feature_desc ;;;
  let (manager', thread) :=
    manager_start manager feat_id project feature_desc (project_id proj)
      auto_approve in
  ret (manager', thread,
       mk_StartWorkflowResponse feat_id ("Workflow started for " +:+ project)).

End Server.

(** ** Invariants and frames of the further statements *)

(** The table [projects] respects its UNIQUE and AUTOINCREMENT columns. *)
Definition projects_wf (w : World) : Prop :=
  NoDup (List.map project_name (projects w)) /\
  NoDup (List.map project_id (projects w)) /\
  Forall (fun r => project_id r <= projects_seq w) (projects w).

(** What a run for [feat_id] leaves alone: the projects, the day counters,
    the clock, the identifiers of the features and the rows of the other
    features, the queues of the other features; the log table only grows. *)
Definition run_frame (feat_id : string) (w w' : World) : Prop :=
  projects w' = projects w /\
  projects_seq w' = projects_seq w /\
  feature_counter w' = feature_counter w /\
  clock w' = clock w /\
  List.map feature_id (features w') = List.map feature_id (features w) /\
  (forall g, g <> feat_id -> lookup_feature g w' = lookup_feature g w) /\
  (forall g, g <> feat_id -> log_queues w' !! g = log_queues w !! g) /\
  (exists new, logs w' = logs w ++ new).

(** A name that is one path component: not empty, not [.], no slash. *)
Fixpoint no_slash (s : string) : bool :=
  match s with
  | EmptyString => true
  | String c s' => negb (Ascii.eqb c "/") && no_slash s'
  end.

Definition simple_name (s : string) : bool := is_part s && no_slash s.

(** The number a zero-padded decimal stands for. *)
Definition parse_decimal (s : string) : option N :=
  option_map N.of_uint (NilEmpty.uint_of_string s).

(** ** Sample data of the further statements *)

(** [sample_world] after a Requirements spec was written for its feature. *)
Definition sample_spec : SpecPhase :=
  mk_SpecPhase "FEAT-20260129-001" REQUIREMENTS PENDING_APPROVAL
    "## Requirements" [mk_Approval "system" sample_now "Auto-generated"] []
    sample_now sample_now.

Definition sample_spec_world : World :=
  set_files
    (<[get_phase_file "demo" "FEAT-20260129-001" REQUIREMENTS :=
         spec_to_dict sample_spec]> (files sample_world))
    sample_world.

(** The phases of a feature that have a spec file. *)
Definition generated_phases (project_name feat_id : string) (w : World)
    : list WorkflowPhase :=
  List.filter
    (fun p => bool_decide (is_Some (files w !! get_phase_file project_name feat_id p)))
    all_phases.

(** A computation keeps the relation [R] between the world it starts in
    and the world it ends in, whatever its outcome. *)
Definition preserves (R : World -> World -> Prop) {A} (c : M A) : Prop :=
  forall w, R w (snd (c w)).

(** The number that the next call of [get_next_feature_number] returns. *)
Definition next_number (w : World) : N :=
  match feature_counter w !! strftime_Ymd (clock w) with
  | Some counter => (counter + 1)%N
  | None => 1%N
  end.

(** The identifier that the next call of [generate_feat_id] returns. *)
Definition next_feat_id (w : World) : string :=
  "FEAT-" +:+ strftime_Ymd (clock w) +:+ "-" +:+ format_0d 3 (next_number w).

(** A workflow started through the endpoint on a fresh database, and the
    run of its thread in the world the endpoint left. *)
Definition sample_started
    : outcome (WorkflowManager * M WorkflowResult * StartWorkflowResponse) * World :=
  start_workflow sample_executor new_manager "demo" "add login" true
    (empty_world sample_now).

Definition sample_started_run : outcome WorkflowResult * World :=
  run_workflow sample_executor "FEAT-20260129-001" "demo" "add login" 1 true
    (snd sample_started).

(** The world [w] seen at a later time. *)
Definition set_clock (now : datetime) (w : World) : World :=
  mk_World (projects w) (projects_seq w) (features w) (features_seq w)
    (logs w) (logs_seq w) (feature_counter w) (files w) (log_queues w) now.

Definition sample_later : datetime := mk_datetime 2027 6 1 9 0 0 0.

(** [sample_world] on 2027-06-01: the row of the feature was created on
    2026-01-29. *)
Definition sample_world_later : World := set_clock sample_later sample_world.

(** * Properties *)

(** ** The monad *)

Lemma bind_Return {A B} (c : M A) (k : A -> M B) w b w' :
  bind c k w = (Return b, w') ->
  exists a w1, c w = (Return a, w1) /\ k a w1 = (Return b, w').
Proof.
  unfold bind. destruct (c w) as [[a|msg] w1]; intros H.
  - exists a, w1. split; [reflexivity | exact H].
  - discriminate H.
Qed.

Lemma bind_Raise {A B} (c : M A) (k : A -> M B) w e w' :
  bind c k w = (Raise e, w') ->
  c w = (Raise e, w') \/
  exists a w1, c w = (Return a, w1) /\ k a w1 = (Raise e, w').
Proof.
  unfold bind. destruct (c w) as [[a|msg] w1]; intros H.
  - right. exists a, w1. split; [reflexivity | exact H].
  - left. injection H as -> ->. reflexivity.
Qed.

Lemma bind_eq {A B} (c : M A) (k : A -> M B) w a w1 :
  c w = (Return a, w1) -> bind c k w = k a w1.
Proof. unfold bind. intros ->. reflexivity. Qed.

(** [get_feature] selects the stored row and stamps the object it builds
    with the time of the call; it writes nothing. *)
Lemma get_feature_eq (feat_id : string) (w : World) :
  get_feature feat_id w =
  (Return (option_map (Feature_of_row (clock w)) (lookup_feature feat_id w)), w).
Proof.
  unfold get_feature, bind, gets, utcnow, ret, lookup_feature.
  destruct (find _ (features w)); reflexivity.
Qed.

(** ** Enumerations and documents *)

Lemma WorkflowPhase_of_value_value (p : WorkflowPhase) :
  WorkflowPhase_of_value (WorkflowPhase_value p) = Some p.
Proof. destruct p; reflexivity. Qed.

Lemma PhaseStatus_of_value_value (s : PhaseStatus) :
  PhaseStatus_of_value (PhaseStatus_value s) = Some s.
Proof. destruct s; reflexivity. Qed.

Lemma approvals_of_dict_to_dict (l : list Approval) :
  List.map (fun a => mk_Approval (fst (fst a)) (snd (fst a)) (snd a))
    (List.map (fun a => (approval_user a, approval_timestamp a, approval_comment a)) l)
  = l.
Proof.
  induction l as [|[u t c] l IH]; simpl; [reflexivity | now rewrite IH].
Qed.

Lemma spec_of_dict_to_dict (spec : SpecPhase) :
  spec_of_dict (spec_to_dict spec) = Some spec.
Proof.
  destruct spec as [fid p s c apps deps ca ua].
  unfold spec_of_dict, spec_to_dict; simpl.
  rewrite WorkflowPhase_of_value_value, PhaseStatus_of_value_value.
  now rewrite approvals_of_dict_to_dict.
Qed.

(** ** Paths *)

Lemma get_phase_file_parts project_name feat_id phase :
  get_phase_file project_name feat_id phase =
  mk_Path (path_root (get_spec_dir project_name feat_id))
    (path_parts (get_spec_dir project_name feat_id)
       ++ ["phase-" +:+ WorkflowPhase_value phase +:+ ".yaml"]).
Proof. unfold get_phase_file. destruct phase; reflexivity. Qed.

(** The files of two different phases of one feature are different files. *)
Lemma get_phase_file_inj project_name feat_id p q :
  get_phase_file project_name feat_id p = get_phase_file project_name feat_id q ->
  p = q.
Proof.
  rewrite !get_phase_file_parts. intros H.
  injection H as H. apply app_inv_head in H.
  destruct p, q; (reflexivity || discriminate H).
Qed.

(** ** The spec store *)

Lemma or_empty_Some (deps : list string) : or_empty (Some deps) = deps.
Proof. destruct deps; reflexivity. Qed.

Lemma write_phase_spec_eq project_name feat_id phase content status deps w :
  let spec :=
    mk_SpecPhase feat_id phase status content
      [mk_Approval "system" (clock w) "Auto-generated"]
      (or_empty deps) (clock w) (clock w) in
  write_phase_spec project_name feat_id phase content status deps w =
  (Return spec,
   set_files (<[get_phase_file project_name feat_id phase := spec_to_dict spec]>
                (files w)) w).
Proof. reflexivity. Qed.

Lemma read_phase_spec_stored project_name feat_id phase spec w :
  files w !! get_phase_file project_name feat_id phase = Some (spec_to_dict spec) ->
  read_phase_spec project_name feat_id phase w = (Return (Some spec), w).
Proof.
  intros H. unfold read_phase_spec, bind, gets. rewrite H.
  now rewrite spec_of_dict_to_dict.
Qed.

Lemma read_phase_spec_absent project_name feat_id phase w :
  files w !! get_phase_file project_name feat_id phase = None ->
  read_phase_spec project_name feat_id phase w = (Return None, w).
Proof. intros H. unfold read_phase_spec, bind, gets. now rewrite H. Qed.

(** [read_phase_spec] never changes the world. *)
Lemma read_phase_spec_pure project_name feat_id phase w :
  snd (read_phase_spec project_name feat_id phase w) = w.
Proof.
  unfold read_phase_spec, bind, gets.
  destruct (files w !! _) as [d|]; [|reflexivity].
  destruct (spec_of_dict d); reflexivity.
Qed.

(** C6. Writing a phase spec and reading it back with the same project
    name, feature id and phase returns a spec with the content, the status
    and the dependency list that were written; the spec read is the very
    spec that [write_phase_spec] returned. *)
Theorem write_then_read_phase_spec
    (project_name feat_id : string) (phase : WorkflowPhase)
    (content : string) (status : PhaseStatus) (dependencies : list string)
    (w : World) :
  exists written w1 spec,
    write_phase_spec project_name feat_id phase content status (Some dependencies) w
      = (Return written, w1) /\
    read_phase_spec project_name feat_id phase w1 = (Return (Some spec), w1) /\
    spec = written /\
    spec_content spec = content /\
    spec_status spec = status /\
    spec_dependencies spec = dependencies.
Proof.
  pose proof (write_phase_spec_eq project_name feat_id phase content status
                (Some dependencies) w) as Hw.
  cbv zeta in Hw. rewrite or_empty_Some in Hw.
  eexists _, _, _. split; [exact Hw|].
  split; [apply read_phase_spec_stored; simpl; apply lookup_insert_eq|].
  repeat split.
Qed.

(** C7. When no spec document is stored for the phase,
    [update_phase_status] returns [None] and leaves the world, and with it
    the set of stored spec documents, as it was. *)
Theorem update_phase_status_absent
    (project_name feat_id : string) (phase : WorkflowPhase)
    (status : PhaseStatus) (comment user : string) (w : World) :
  files w !! get_phase_file project_name feat_id phase = None ->
  update_phase_status project_name feat_id phase status comment user w
    = (Return None, w).
Proof.
  intros H. unfold update_phase_status.
  rewrite (bind_eq _ _ _ _ _ (read_phase_spec_absent _ _ _ _ H)). reflexivity.
Qed.

(** C7 at a concrete input: no spec was ever written in [sample_world]. *)
Lemma update_phase_status_absent_witness :
  files sample_world !! get_phase_file "demo" "FEAT-20260129-001" REQUIREMENTS = None /\
  update_phase_status "demo" "FEAT-20260129-001" REQUIREMENTS APPROVED
    "looks good" "dashboard" sample_world = (Return None, sample_world).
Proof.
  split; [reflexivity|].
  apply (update_phase_status_absent "demo" "FEAT-20260129-001" REQUIREMENTS
           APPROVED "looks good" "dashboard" sample_world).
  reflexivity.
Defined.

(** ** The feature registry *)

Lemma rowcount_pos_iff feat_id (fs : list Feature) :
  (0 <? rowcount feat_id fs)%nat = true <-> In feat_id (List.map feature_id fs).
Proof.
  unfold rowcount. induction fs as [|f fs IH]; simpl.
  - split; [discriminate | intros []].
  - destruct (String.eqb_spec (feature_id f) feat_id) as [E|E]; simpl.
    + split; [intros _; now left | reflexivity].
    + rewrite IH. split; [now right | intros [H|H]; [contradiction | exact H]].
Qed.

Lemma update_where_None_rows feat_id status (fs : list Feature) :
  Forall2 (only_status_changed feat_id status) fs
    (List.map (update_where feat_id status None) fs).
Proof.
  induction fs as [|f fs IH]; simpl; constructor; [|exact IH].
  unfold only_status_changed, update_where.
  destruct (String.eqb (feature_id f) feat_id); simpl; repeat split.
Qed.

(** C9. With the phase omitted, [update_feature_status] returns normally;
    its result is [true] exactly when a row with the feature id exists;
    every row keeps all its columns except that the rows with this feature
    id get the new status; no other table, file or queue changes. *)
Theorem update_feature_status_phase_omitted
    (feat_id : string) (status : PhaseStatus) (w : World) :
  exists b w',
    update_feature_status feat_id status None w = (Return b, w') /\
    (b = true <-> In feat_id (List.map feature_id (features w))) /\
    (b = false <-> ~ In feat_id (List.map feature_id (features w))) /\
    Forall2 (only_status_changed feat_id status) (features w) (features w') /\
    features_seq w' = features_seq w /\
    projects w' = projects w /\ projects_seq w' = projects_seq w /\
    logs w' = logs w /\ logs_seq w' = logs_seq w /\
    feature_counter w' = feature_counter w /\
    files w' = files w /\ log_queues w' = log_queues w /\ clock w' = clock w.
Proof.
  eexists _, _. split; [reflexivity|].
  split; [apply rowcount_pos_iff|].
  split.
  - rewrite <- rowcount_pos_iff.
    destruct (0 <? rowcount feat_id (features w))%nat; split; congruence.
  - split; [apply update_where_None_rows|]. simpl. repeat split.
Qed.

(** ** Projects *)

Lemma find_named_app_new name ps id path :
  find (named name) ps = None ->
  find (named name) (ps ++ [mk_Project id name path ACTIVE])
    = Some (mk_Project id name path ACTIVE).
Proof.
  induction ps as [|r ps IH]; simpl; intros H.
  - unfold named; simpl. now rewrite String.eqb_refl.
  - destruct (named name r); [discriminate | now apply IH].
Qed.

Lemma filter_named_none name ps :
  find (named name) ps = None -> List.filter (named name) ps = [].
Proof.
  induction ps as [|r ps IH]; simpl; intros H; [reflexivity|].
  destruct (named name r); [discriminate | now apply IH].
Qed.

(** Registering a name that is already stored returns the stored row and
    writes nothing, whatever path is passed. *)
Lemma register_project_existing name path w r :
  find (named name) (projects w) = Some r ->
  register_project name path w = (Return r, w).
Proof.
  intros H. unfold register_project, bind, gets.
  fold (named name). rewrite H. destruct r; reflexivity.
Qed.

(** C10. For a name not yet registered, [register_project name p1] followed
    by [register_project name p2] stores exactly one row with that name; the
    second call returns the project returned by the first, with path [p1]
    and status ACTIVE, and writes nothing. *)
Theorem register_project_idempotent (name p1 p2 : string) (w : World) :
  find (named name) (projects w) = None ->
  exists proj w1,
    register_project name p1 w = (Return proj, w1) /\
    register_project name p2 w1 = (Return proj, w1) /\
    project_name proj = name /\
    project_path proj = p1 /\
    project_status proj = ACTIVE /\
    projects w1 = projects w ++ [proj] /\
    List.filter (named name) (projects w1) = [proj].
Proof.
  intros H.
  exists (mk_Project (S (projects_seq w)) name p1 ACTIVE).
  eexists. split.
  - unfold register_project, bind, gets. fold (named name). rewrite H. reflexivity.
  - split.
    + apply register_project_existing. simpl. now apply find_named_app_new.
    + simpl. repeat split.
      rewrite List.filter_app, (filter_named_none _ _ H). simpl.
      unfold named; simpl. now rewrite String.eqb_refl.
Qed.

Lemma register_project_idempotent_witness :
  find (named "demo") (projects (empty_world sample_now)) = None /\
  exists proj w1,
    register_project "demo" "/projects/demo" (empty_world sample_now)
      = (Return proj, w1) /\
    register_project "demo" "/srv/other" w1 = (Return proj, w1) /\
    project_name proj = "demo" /\
    project_path proj = "/projects/demo" /\
    project_status proj = ACTIVE /\
    projects w1 = projects (empty_world sample_now) ++ [proj] /\
    List.filter (named "demo") (projects w1) = [proj].
Proof.
  split; [reflexivity|].
  apply (register_project_idempotent "demo" "/projects/demo" "/srv/other"
           (empty_world sample_now)).
  reflexivity.
Defined.

(** ** Feature identifiers *)

Lemma length_append (s1 s2 : string) :
  String.length (s1 +:+ s2) = String.length s1 + String.length s2.
Proof. induction s1 as [|c s1 IH]; simpl; [reflexivity | now rewrite IH]. Qed.

Lemma append_empty_r (s : string) : s +:+ "" = s.
Proof. induction s as [|c s IH]; simpl; [reflexivity | now rewrite IH]. Qed.

Lemma well_formed_feature_id_length s :
  well_formed_feature_id s -> String.length s = 17.
Proof.
  intros (date & seq & -> & Hd & _ & Hs & _).
  rewrite !length_append, Hd, Hs. reflexivity.
Qed.

Lemma well_formed_of_chars x1 x2 x3 x4 x5 x6 x7 x8 y1 y2 y3 :
  is_digit x1 = true -> is_digit x2 = true -> is_digit x3 = true ->
  is_digit x4 = true -> is_digit x5 = true -> is_digit x6 = true ->
  is_digit x7 = true -> is_digit x8 = true -> is_digit y1 = true ->
  is_digit y2 = true -> is_digit y3 = true ->
  well_formed_feature_id
    (String "F" (String "E" (String "A" (String "T" (String "-"
      (String x1 (String x2 (String x3 (String x4 (String x5
      (String x6 (String x7 (String x8 (String "-"
      (String y1 (String y2 (String y3 ""))))))))))))))))).
Proof.
  intros H1 H2 H3 H4 H5 H6 H7 H8 K1 K2 K3.
  exists (String x1 (String x2 (String x3 (String x4 (String x5
           (String x6 (String x7 (String x8 "")))))))),
         (String y1 (String y2 (String y3 ""))).
  cbn [all_digits String.length].
  rewrite H1, H2, H3, H4, H5, H6, H7, H8, K1, K2, K3.
  repeat split.
Qed.

Ltac next_char H s :=
  destruct s as [|? s]; simpl in H; [discriminate H|];
  apply andb_true_iff in H; destruct H as [? H].

(** What [validate_feature_id] accepts: the well-formed identifiers, and
    the well-formed identifiers followed by one newline. *)
Lemma validate_feature_id_accepts (s : string) :
  validate_feature_id s = true <->
  well_formed_feature_id s \/
  exists s0, well_formed_feature_id s0 /\ s = s0 +:+ String newline "".
Proof.
  split.
  - unfold validate_feature_id, re_match. intros H. simpl in H.
    do 5 next_char H s.
    repeat match goal with
           | E : Ascii.eqb _ _ = true |- _ => apply Ascii.eqb_eq in E; subst
           end.
    do 8 next_char H s.
    next_char H s.
    match goal with
    | E : Ascii.eqb _ _ = true |- _ => apply Ascii.eqb_eq in E; subst
    end.
    do 3 next_char H s.
    apply andb_true_iff in H. destruct H as [H _].
    pose proof (well_formed_of_chars _ _ _ _ _ _ _ _ _ _ _
                  H0 H1 H2 H3 H4 H5 H6 H7 H8 H9 H10) as Hwf.
    destruct s as [|c [|c' s]]; simpl in H.
    + left. exact Hwf.
    + right. apply Ascii.eqb_eq in H. subst c.
      eexists. split; [exact Hwf | reflexivity].
    + discriminate H.
  - assert (Hok : forall s0 tl, well_formed_feature_id s0 -> at_eol tl = true ->
                validate_feature_id (s0 +:+ tl) = true).
    { intros s0 tl (date & seq & -> & Hd & Hdd & Hs & Hsd) Htl.
      do 9 (destruct date as [|? date]; try discriminate Hd).
      do 4 (destruct seq as [|? seq]; try discriminate Hs).
      simpl in Hdd, Hsd.
      repeat match goal with
             | E : _ && _ = true |- _ =>
                 apply andb_true_iff in E; destruct E as [? E]
             end.
      unfold validate_feature_id, re_match. simpl.
      repeat match goal with
             | E : is_digit _ = true |- _ => rewrite E; clear E
             end.
      simpl. rewrite Htl. reflexivity. }
    intros [Hwf | (s0 & Hwf & ->)].
    + rewrite <- (append_empty_r s). apply Hok; [assumption | reflexivity].
    + apply Hok; [assumption | reflexivity].
Qed.

(** The identifiers named by the specification as malformed are rejected,
    and well-formed ones are accepted. *)
Lemma validate_feature_id_examples :
  validate_feature_id "INVALID" = false /\
  validate_feature_id "FEAT-2026-001" = false /\
  validate_feature_id "FEAT-20260129-1" = false /\
  validate_feature_id "" = false /\
  validate_feature_id "FEAT-20260129-001" = true /\
  validate_feature_id "FEAT-20260129-999" = true.
Proof. repeat split. Qed.

(** C4, at the failing input: a well-formed identifier followed by a
    newline has eighteen characters, is not of the form
    [FEAT-YYYYMMDD-NNN], and is accepted by [validate_feature_id]. *)
Theorem validate_feature_id_trailing_newline :
  let s := "FEAT-20260129-001" +:+ String newline "" in
  String.length s = 18 /\
  ~ well_formed_feature_id s /\
  validate_feature_id s = true.
Proof.
  cbv zeta. split; [reflexivity|]. split; [|reflexivity].
  intros H. apply well_formed_feature_id_length in H. discriminate H.
Qed.

(** ** The per-day counter *)

(** The two steps of one call, taken without interruption, are
    [get_next_feature_number]. *)
Lemma call_step_twice (w : World) :
  let (c1, w1) := call_step Ready w in
  call_step c1 w1 =
  (Finished (fst (get_next_feature_number w)), snd (get_next_feature_number w)).
Proof.
  unfold call_step, get_next_feature_number, select_counter, bind, utcnow, gets.
  simpl. destruct (store_counter _ _ w) as [r w']. reflexivity.
Qed.

Lemma get_next_feature_number_row (w : World) (c : N) :
  feature_counter w !! strftime_Ymd (clock w) = Some c ->
  get_next_feature_number w =
  (Return (c + 1)%N,
   set_feature_counter
     (<[strftime_Ymd (clock w) := (c + 1)%N]> (feature_counter w)) w).
Proof.
  intros H.
  unfold get_next_feature_number, select_counter, store_counter, bind, utcnow,
    gets, modify, ret. simpl. rewrite H. do 2 f_equal.
  apply map_eq. intros k. rewrite lookup_alter, lookup_insert.
  destruct (decide (strftime_Ymd (clock w) = k)) as [<-|]; [|reflexivity].
  rewrite H. reflexivity.
Qed.

Lemma get_next_feature_number_fresh (w : World) :
  feature_counter w !! strftime_Ymd (clock w) = None ->
  get_next_feature_number w =
  (Return 1%N,
   set_feature_counter (<[strftime_Ymd (clock w) := 1%N]> (feature_counter w)) w).
Proof.
  intros H.
  unfold get_next_feature_number, select_counter, store_counter, bind, utcnow,
    gets, modify, ret. simpl. rewrite H. simpl. rewrite H. reflexivity.
Qed.

Lemma sequential_calls_from (n : nat) : forall (w : World) (c : N),
  feature_counter w !! strftime_Ymd (clock w) = Some c ->
  fst (sequential_calls n w) = Return (numbers_after c n).
Proof.
  induction n as [|n IH]; intros w c H; [reflexivity|].
  simpl. unfold bind at 1. rewrite (get_next_feature_number_row w c H).
  unfold bind at 1.
  specialize (IH (set_feature_counter
                    (<[strftime_Ymd (clock w) := (c + 1)%N]> (feature_counter w)) w)
                 (c + 1)%N).
  simpl in IH. rewrite lookup_insert_eq in IH. specialize (IH eq_refl).
  destruct (sequential_calls n _) as [[xs|e] w']; simpl in IH;
    [injection IH as -> | discriminate IH].
  reflexivity.
Qed.

(** Calls that do not overlap: on a day that has no counter row yet, [n]
    calls made one after another return the numbers 1, 2, ..., [n]. *)
Theorem sequential_calls_consecutive (n : nat) (w : World) :
  feature_counter w !! strftime_Ymd (clock w) = None ->
  fst (sequential_calls n w) = Return (numbers_after 0 n).
Proof.
  intros H. destruct n as [|n]; [reflexivity|].
  simpl. unfold bind at 1. rewrite (get_next_feature_number_fresh w H).
  unfold bind at 1.
  pose proof (sequential_calls_from n
                (set_feature_counter
                   (<[strftime_Ymd (clock w) := 1%N]> (feature_counter w)) w) 1%N) as IH.
  simpl in IH. rewrite lookup_insert_eq in IH. specialize (IH eq_refl).
  destruct (sequential_calls n _) as [[xs|e] w']; simpl in IH;
    [injection IH as -> | discriminate IH].
  reflexivity.
Qed.

Lemma sequential_calls_consecutive_witness :
  feature_counter (empty_world sample_now) !! strftime_Ymd (clock (empty_world sample_now))
    = None /\
  fst (sequential_calls 3 (empty_world sample_now)) = Return [1%N; 2%N; 3%N].
Proof.
  split; [reflexivity|].
  apply (sequential_calls_consecutive 3 (empty_world sample_now)).
  reflexivity.
Defined.

(** C3. The code breaks the claim: [get_next_feature_number] is a SELECT
    followed by an UPDATE with nothing that keeps another call from running
    between the two.  Three calls on a fresh day, the first one finished
    before the other two start, the other two overlapping (both SELECTs
    before either UPDATE), return 1, 2 and 2: two calls return the same
    number, so [generate_feat_id] hands out one identifier twice. *)
Lemma overlapping_calls_same_number :
  fst (run_schedule [0; 0; 1; 2; 1; 2] [Ready; Ready; Ready]
         (empty_world sample_now))
  = [Finished (Return 1%N); Finished (Return 2%N); Finished (Return 2%N)]
  /\ ~ NoDup [1%N; 2%N; 2%N].
Proof.
  split; [vm_compute; reflexivity|].
  intros H. inversion H as [|x l Hnotin Hrest]; subst.
  inversion Hrest as [|y l' Hnotin' _]; subst.
  apply Hnotin'. constructor.
Qed.

(** Two calls that overlap on a day without a counter row: both read no
    row, one inserts, the INSERT of the other violates the primary key. *)
Lemma overlapping_calls_fresh_day :
  fst (run_schedule [0; 1; 0; 1] [Ready; Ready] (empty_world sample_now))
  = [Finished (Return 1%N);
     Finished (Raise "UNIQUE constraint failed: feature_counter.date")].
Proof. vm_compute. reflexivity. Qed.

(** ** Generated identifiers *)

Lemma N_range_In (k : nat) : forall a n : N,
  (a <= n)%N -> (n < a + N.of_nat k)%N -> In n (N_range a k).
Proof.
  induction k as [|k IH]; intros a n Hlo Hhi.
  - simpl in Hhi. lia.
  - simpl. destruct (N.eq_dec a n) as [->|Hne]; [now left|].
    right. apply IH; lia.
Qed.

Lemma padded_digits_below (w : nat) (bound : N) :
  forallb (padded_digits w) (N_range 0 (N.to_nat bound)) = true ->
  forall n : N, (n < bound)%N ->
    String.length (format_0d w n) = w /\ all_digits (format_0d w n) = true.
Proof.
  intros Hall n Hn.
  rewrite forallb_forall in Hall.
  assert (Hin : In n (N_range 0 (N.to_nat bound))).
  { apply N_range_In; [lia | rewrite N2Nat.id; lia]. }
  specialize (Hall n Hin).
  unfold padded_digits in Hall. apply andb_true_iff in Hall.
  destruct Hall as [Hlen Hdig]. apply Nat.eqb_eq in Hlen. now split.
Qed.

Lemma format_0d_2 (n : N) :
  (n < 100)%N ->
  String.length (format_0d 2 n) = 2 /\ all_digits (format_0d 2 n) = true.
Proof.
  intros H. apply (padded_digits_below 2 100); [vm_compute; reflexivity | lia].
Qed.

Lemma format_0d_3 (n : N) :
  (n < 1000)%N ->
  String.length (format_0d 3 n) = 3 /\ all_digits (format_0d 3 n) = true.
Proof.
  intros H. apply (padded_digits_below 3 1000); [vm_compute; reflexivity | lia].
Qed.

Lemma format_0d_4 (n : N) :
  (n < 10000)%N ->
  String.length (format_0d 4 n) = 4 /\ all_digits (format_0d 4 n) = true.
Proof.
  intros H. apply (padded_digits_below 4 10000); [vm_compute; reflexivity | lia].
Qed.

Lemma all_digits_append (s1 s2 : string) :
  all_digits (s1 +:+ s2) = all_digits s1 && all_digits s2.
Proof.
  induction s1 as [|c s1 IH]; simpl; [reflexivity|].
  now rewrite IH, andb_assoc.
Qed.

Lemma strftime_Ymd_digits (t : datetime) :
  valid_date t ->
  String.length (strftime_Ymd t) = 8 /\ all_digits (strftime_Ymd t) = true.
Proof.
  intros (Hy & Hm & Hd). unfold strftime_Ymd.
  destruct (format_0d_4 (year t)) as [L4 D4]; [lia|].
  destruct (format_0d_2 (month t)) as [L2 D2]; [lia|].
  destruct (format_0d_2 (day t)) as [L2' D2']; [lia|].
  rewrite !length_append, !all_digits_append, L4, L2, L2', D4, D2, D2'.
  now split.
Qed.

Lemma generate_feat_id_eq (w : World) :
  generate_feat_id w =
  match get_next_feature_number w with
  | (Return number, w') =>
      (Return ("FEAT-" +:+ strftime_Ymd (clock w) +:+ "-" +:+ format_0d 3 number), w')
  | (Raise e, w') => (Raise e, w')
  end.
Proof.
  unfold generate_feat_id, bind, utcnow, gets, ret. simpl.
  destruct (get_next_feature_number w) as [[n|e] w']; reflexivity.
Qed.

(** While the counter of the day stays below 1000, the generated
    identifier is well formed: seventeen characters, accepted by
    [validate_feature_id], with the new counter value as its last three
    digits. *)
Lemma generate_feat_id_well_formed (w : World) (c : N) :
  valid_date (clock w) ->
  feature_counter w !! strftime_Ymd (clock w) = Some c ->
  (c + 1 < 1000)%N ->
  exists feat_id w',
    generate_feat_id w = (Return feat_id, w') /\
    feat_id = "FEAT-" +:+ strftime_Ymd (clock w) +:+ "-" +:+ format_0d 3 (c + 1) /\
    well_formed_feature_id feat_id /\
    String.length feat_id = 17 /\
    validate_feature_id feat_id = true.
Proof.
  intros Hdate Hrow Hc.
  rewrite generate_feat_id_eq, (get_next_feature_number_row w c Hrow).
  eexists _, _. split; [reflexivity|]. split; [reflexivity|].
  assert (Hwf : well_formed_feature_id
            ("FEAT-" +:+ strftime_Ymd (clock w) +:+ "-" +:+ format_0d 3 (c + 1))).
  { exists (strftime_Ymd (clock w)), (format_0d 3 (c + 1)).
    destruct (strftime_Ymd_digits _ Hdate) as [L D].
    destruct (format_0d_3 (c + 1) Hc) as [L3 D3].
    repeat split; assumption. }
  split; [exact Hwf|]. split; [now apply well_formed_feature_id_length|].
  apply validate_feature_id_accepts. now left.
Qed.

(** C8, at the failing input: the day's counter stands at 999.  The next
    identifier has a four-digit sequence number and eighteen characters; it
    is not of the form [FEAT-YYYYMMDD-NNN] and [validate_feature_id]
    rejects it. *)
Theorem generate_feat_id_after_999 :
  exists w',
    generate_feat_id (counter_world 999) = (Return "FEAT-20260129-1000", w') /\
    String.length "FEAT-20260129-1000" = 18 /\
    ~ well_formed_feature_id "FEAT-20260129-1000" /\
    validate_feature_id "FEAT-20260129-1000" = false.
Proof.
  eexists. split; [vm_compute; reflexivity|].
  split; [reflexivity|]. split; [|reflexivity].
  intros H. apply well_formed_feature_id_length in H. discriminate H.
Qed.

(** ** The workflow engine: single steps *)

Lemma log_message_eq feat_id message level w :
  exists w',
    log_message feat_id message level w = (Return tt, w') /\
    files w' = files w /\ features w' = features w /\ clock w' = clock w /\
    features_seq w' = features_seq w /\
    logs w' = logs w ++ [mk_LogEntry (S (logs_seq w)) feat_id (clock w) message level] /\
    exists q, log_queues w' !! feat_id = Some (q ++ [(message, level)]).
Proof.
  unfold log_message, add_log, get_log_queue, queue_put, bind, utcnow, gets,
    modify, ret. simpl.
  destruct (log_queues w !! feat_id) as [q|] eqn:Hq; simpl.
  - eexists. split; [reflexivity|]. simpl. repeat split.
    exists q. rewrite lookup_alter_eq, Hq. reflexivity.
  - eexists. split; [reflexivity|]. simpl. repeat split.
    exists []. rewrite lookup_alter_eq, lookup_insert_eq. reflexivity.
Qed.

Lemma update_feature_status_eq feat_id status phase w :
  update_feature_status feat_id status phase w =
  (Return (0 <? rowcount feat_id (features w))%nat,
   set_features (List.map (update_where feat_id status phase) (features w))
     (features_seq w) w).
Proof. reflexivity. Qed.

Lemma update_phase_status_stored project_name feat_id phase status comment user
    spec w :
  files w !! get_phase_file project_name feat_id phase = Some (spec_to_dict spec) ->
  let spec' :=
    mk_SpecPhase (spec_feature_id spec) (spec_phase spec) status
      (spec_content spec)
      (spec_approvals spec ++ [mk_Approval user (clock w) comment])
      (spec_dependencies spec) (spec_created_at spec) (clock w) in
  update_phase_status project_name feat_id phase status comment user w =
  (Return (Some spec'),
   set_files (<[get_phase_file project_name feat_id phase := spec_to_dict spec']>
                (files w)) w).
Proof.
  intros H spec'. unfold update_phase_status.
  rewrite (bind_eq _ _ _ _ _ (read_phase_spec_stored _ _ _ _ _ H)).
  reflexivity.
Qed.

Lemma lookup_feature_map feat_id status phase (fs : list Feature) :
  find (fun f => String.eqb (feature_id f) feat_id)
    (List.map (update_where feat_id status phase) fs)
  = option_map (update_row status phase)
      (find (fun f => String.eqb (feature_id f) feat_id) fs).
Proof.
  induction fs as [|f fs IH]; simpl; [reflexivity|].
  unfold update_where in *.
  destruct (String.eqb (feature_id f) feat_id) eqn:E.
  - destruct phase; simpl; rewrite E; reflexivity.
  - rewrite E. exact IH.
Qed.

Lemma lookup_feature_updated feat_id status phase w w' :
  features w' = List.map (update_where feat_id status phase) (features w) ->
  lookup_feature feat_id w' =
  option_map (update_row status phase) (lookup_feature feat_id w).
Proof. unfold lookup_feature. intros ->. apply lookup_feature_map. Qed.

Lemma lookup_feature_same feat_id w w' :
  features w' = features w -> lookup_feature feat_id w' = lookup_feature feat_id w.
Proof. unfold lookup_feature. now intros ->. Qed.

Section WorkflowSteps.

Variable kickoff : Agent -> string -> string -> outcome string.

(** [execute_phase] either returns the content produced by the executor,
    having stored the spec of the phase and set the feature to IN_PROGRESS
    in this phase, or raises the error of the executor, having written
    nothing but log entries. *)
Lemma execute_phase_cases feat_id project_name phase agent description
    context_content auto_approve w :
  (exists content w',
     execute_phase kickoff feat_id project_name phase agent description
       context_content auto_approve w = (Return content, w') /\
     files w' =
       <[get_phase_file project_name feat_id phase :=
           spec_to_dict (phase_spec auto_approve feat_id phase content (clock w))]>
         (files w) /\
     features w' =
       List.map (update_where feat_id IN_PROGRESS (Some phase)) (features w) /\
     clock w' = clock w)
  \/
  (exists e w',
     execute_phase kickoff feat_id project_name phase agent description
       context_content auto_approve w = (Raise e, w') /\
     kickoff agent description
       ("Structured " +:+ WorkflowPhase_value phase +:+ " specification") = Raise e /\
     files w' = files w /\ features w' = features w /\ clock w' = clock w).
Proof.
  unfold execute_phase.
  destruct (log_message_eq feat_id
              ("Executing phase: " +:+ WorkflowPhase_value phase) "info" w)
    as (w1 & E1 & F1 & T1 & C1 & _).
  rewrite (bind_eq _ _ _ _ _ E1).
  unfold bind at 1, run_crew.
  destruct (kickoff agent description _) as [content|e]; cbv beta iota.
  2:{ right. exists e, w1. repeat split; assumption. }
  left. exists content.
  lazymatch goal with
  | |- context [bind (log_message feat_id ?m "info") _ ?w0] =>
      destruct (log_message_eq feat_id m "info" w0) as (w2 & E2 & F2 & T2 & C2 & _)
  end.
  rewrite (bind_eq _ _ _ _ _ E2).
  rewrite (bind_eq _ _ _ _ _ (write_phase_spec_eq _ _ _ _ _ _ w2)).
  lazymatch goal with
  | |- context [bind (log_message feat_id ?m "info") _ ?w0] =>
      destruct (log_message_eq feat_id m "info" w0) as (w4 & E4 & F4 & T4 & C4 & _)
  end.
  rewrite (bind_eq _ _ _ _ _ E4).
  rewrite (bind_eq _ _ _ _ _ (update_feature_status_eq _ _ _ w4)).
  simpl in F4, T4, C4.
  destruct auto_approve.
  - pose proof (update_phase_status_stored project_name feat_id phase COMPLETED
        "Auto-approved" "system"
        (mk_SpecPhase feat_id phase COMPLETED content
           [mk_Approval "system" (clock w2) "Auto-generated"] (or_empty None)
           (clock w2) (clock w2))
        (set_features
           (List.map (update_where feat_id IN_PROGRESS (Some phase)) (features w4))
           (features_seq w4) w4)) as E6.
    simpl in E6. rewrite F4 in E6. rewrite lookup_insert_eq in E6.
    specialize (E6 eq_refl).
    unfold bind at 1. unfold bind at 1. rewrite E6.
    unfold bind, ret. simpl.
    eexists. split; [reflexivity|]. simpl.
    rewrite ?F4, ?insert_insert_eq, ?F2, ?F1, ?T4, ?T2, ?T1, ?C4, ?C2, ?C1.
    repeat split.
  - unfold bind, ret. simpl.
    eexists. split; [reflexivity|]. simpl.
    rewrite ?F4, ?F2, ?F1, ?T4, ?T2, ?T1, ?C4, ?C2, ?C1.
    repeat split.
Qed.

End WorkflowSteps.

(** ** The workflow engine: a whole run *)

Ltac chase_files :=
  repeat match goal with
         | H : files ?x = _ |- context [files ?x] => rewrite H
         end.

Ltac chase_clock :=
  repeat match goal with
         | H : clock ?x = _ |- context [clock ?x] => rewrite H
         end.

Ltac chase_features :=
  repeat match goal with
         | H : features ?x = _ |- context [features ?x] => rewrite H
         end.

Ltac other_phase_file :=
  let E := fresh in
  intro E; apply get_phase_file_inj in E; discriminate E.

Ltac find_phase_file :=
  repeat first
    [ rewrite lookup_insert_eq
    | rewrite lookup_insert_ne by other_phase_file ].

Ltac solve_stored :=
  repeat constructor;
  unfold stored; eexists; chase_files; chase_clock; find_phase_file;
  reflexivity.

Ltac solve_other_files :=
  let path := fresh "path" in
  let Hpath := fresh "Hpath" in
  unfold other_files_kept; intros path Hpath; chase_files;
  repeat (rewrite lookup_insert_ne
            by (apply not_eq_sym, Hpath; simpl; tauto));
  reflexivity.

Ltac solve_feature :=
  unfold lookup_feature; chase_features; rewrite ?lookup_feature_map;
  match goal with
  | |- context [find ?f ?l] => destruct (find f l); reflexivity
  end.

Section WorkflowRun.

Variable kickoff : Agent -> string -> string -> outcome string.

Ltac log_step :=
  lazymatch goal with
  | |- context [bind (log_message ?f ?m ?l) _ ?w0] =>
      let w1 := fresh "w" in
      let E := fresh "E" in
      let F := fresh "F" in
      let T := fresh "T" in
      let C := fresh "C" in
      destruct (log_message_eq f m l w0) as (w1 & E & F & T & C & _);
      rewrite (bind_eq _ _ _ _ _ E); clear E
  end.

Ltac status_step :=
  lazymatch goal with
  | |- context [bind (update_feature_status ?f ?s ?p) _ ?w0] =>
      let w1 := fresh "w" in
      let F := fresh "F" in
      let T := fresh "T" in
      let C := fresh "C" in
      rewrite (bind_eq _ _ _ _ _ (update_feature_status_eq f s p w0));
      match goal with
      | |- context [set_features ?l ?n w0] =>
          assert (F : files (set_features l n w0) = files w0) by reflexivity;
          assert (T : features (set_features l n w0) = l) by reflexivity;
          assert (C : clock (set_features l n w0) = clock w0) by reflexivity;
          generalize dependent (set_features l n w0); intros w1 F T C
      end
  end.

Ltac phase_step p :=
  lazymatch goal with
  | |- context [bind (execute_phase kickoff ?f ?pn ?ph ?a ?d ?c ?au) _ ?w0] =>
      let content := fresh "content" in
      let e := fresh "e" in
      let w1 := fresh "w" in
      let E := fresh "E" in
      let K := fresh "K" in
      let F := fresh "F" in
      let T := fresh "T" in
      let C := fresh "C" in
      destruct (execute_phase_cases kickoff f pn ph a d c au w0)
        as [(content & w1 & E & F & T & C) | (e & w1 & E & K & F & T & C)];
      [ rewrite (bind_eq _ _ _ _ _ E); clear E
      | unfold bind at 1; rewrite E; clear E;
        eexists _, _; split; [reflexivity|];
        exists p, a, d; split; [exact K|]; clear K;
        split; [solve_stored|]; split; [solve_other_files|];
        split; [solve_feature|]; chase_clock; reflexivity ]
  end.

Lemma run_workflow_body_post feat_id project_name description proj_id
    auto_approve w :
  exists r w',
    run_workflow_body kickoff feat_id project_name description proj_id
      auto_approve w = (r, w') /\
    body_post kickoff project_name feat_id auto_approve w r w'.
Proof.
  unfold run_workflow_body. cbv zeta.
  status_step.
  log_step. phase_step REQUIREMENTS.
  log_step. phase_step DESIGN.
  log_step. phase_step TASKS.
  log_step. phase_step IMPLEMENTATION.
  log_step. phase_step VERIFICATION.
  log_step. phase_step REVIEW.
  status_step. log_step.
  eexists _, _. split; [reflexivity|].
  split; [reflexivity|].
  split; [solve_stored|]. split; [solve_other_files|].
  split; [solve_feature|]. chase_clock. reflexivity.
Qed.

End WorkflowRun.

Section WorkflowOutcome.

Variable kickoff : Agent -> string -> string -> outcome string.

Lemma run_workflow_unfold feat_id project_name description proj_id auto_approve
    w w0 :
  log_message feat_id
    ("Starting workflow for " +:+ feat_id +:+ ": " +:+ description) "info" w
    = (Return tt, w0) ->
  run_workflow kickoff feat_id project_name description proj_id auto_approve w =
  match run_workflow_body kickoff feat_id project_name description proj_id
          auto_approve w0 with
  | (Return r, w1) => (Return r, w1)
  | (Raise e, w1) => run_workflow_handler feat_id e w1
  end.
Proof.
  intros E. unfold run_workflow. rewrite (bind_eq _ _ _ _ _ E). reflexivity.
Qed.

(** The [except] block: the error is logged at level "error" in the log
    table and in the queue of the feature, the rows of the feature get the
    status REJECTED and keep their phase, and no file is touched. *)
Lemma run_workflow_handler_eq feat_id e w1 :
  exists w',
    run_workflow_handler feat_id e w1 =
      (Return (WorkflowFailure feat_id ("Workflow error: " +:+ e)), w') /\
    files w' = files w1 /\
    features w' = List.map (update_where feat_id REJECTED None) (features w1) /\
    clock w' = clock w1 /\
    logs w' = logs w1 ++
      [mk_LogEntry (S (logs_seq w1)) feat_id (clock w1)
         ("Workflow error: " +:+ e) "error"] /\
    exists q,
      log_queues w' !! feat_id = Some (q ++ [("Workflow error: " +:+ e, "error")]).
Proof.
  unfold run_workflow_handler.
  destruct (log_message_eq feat_id ("Workflow error: " +:+ e) "error" w1)
    as (w2 & E & F & T & C & _ & L & Q).
  rewrite (bind_eq _ _ _ _ _ E).
  rewrite (bind_eq _ _ _ _ _ (update_feature_status_eq _ _ _ w2)).
  eexists. split; [reflexivity|]. simpl. rewrite T. repeat split; assumption.
Qed.

(** [run_workflow] always returns a result dictionary. *)
Lemma run_workflow_returns feat_id project_name description proj_id auto_approve w :
  exists res w',
    run_workflow kickoff feat_id project_name description proj_id auto_approve w
      = (Return res, w').
Proof.
  destruct (log_message_eq feat_id
              ("Starting workflow for " +:+ feat_id +:+ ": " +:+ description)
              "info" w) as (w0 & E & _).
  rewrite (run_workflow_unfold _ _ _ _ _ _ _ E).
  destruct (run_workflow_body _ _ _ _ _ _ w0) as [[r|e] w1].
  - eauto.
  - destruct (run_workflow_handler_eq feat_id e w1) as (w' & H & _). eauto.
Qed.

(** A run that returns the success dictionary has stored the spec of each
    of the six phases, has touched no other file, and has set the feature
    to the final status in the phase REVIEW. *)
Lemma successful_run feat_id project_name description proj_id auto_approve
    w fid status phases w' :
  run_workflow kickoff feat_id project_name description proj_id auto_approve w
    = (Return (WorkflowSuccess fid status phases), w') ->
  Forall (stored project_name feat_id auto_approve (clock w) w') all_phases /\
  other_files_kept project_name feat_id all_phases w w' /\
  lookup_feature feat_id w' =
    option_map
      (update_row (if auto_approve then COMPLETED else PENDING_APPROVAL)
         (Some REVIEW))
      (lookup_feature feat_id w).
Proof.
  destruct (log_message_eq feat_id
              ("Starting workflow for " +:+ feat_id +:+ ": " +:+ description)
              "info" w) as (w0 & E & F & T & C & _).
  rewrite (run_workflow_unfold _ _ _ _ _ _ _ E).
  destruct (run_workflow_body_post kickoff feat_id project_name description
              proj_id auto_approve w0) as (r & w1 & Hb & Hpost).
  rewrite Hb. destruct r as [res|e].
  - intros H. injection H as -> ->.
    destruct Hpost as (_ & Hst & Hother & Hf & _).
    rewrite C in Hst. split; [exact Hst|]. split.
    + intros path Hpath. rewrite (Hother path Hpath). now rewrite F.
    + rewrite Hf. now rewrite (lookup_feature_same _ _ _ T).
  - destruct (run_workflow_handler_eq feat_id e w1) as (w2 & H & _).
    rewrite H. intros H'. discriminate H'.
Qed.

End WorkflowOutcome.

(** Reading back what a run has stored. *)
Lemma stored_read project_name feat_id auto_approve now w p :
  stored project_name feat_id auto_approve now w p ->
  exists content,
    read_phase_spec project_name feat_id p w =
    (Return (Some (phase_spec auto_approve feat_id p content now)), w).
Proof.
  intros (content & H). exists content. now apply read_phase_spec_stored.
Qed.

Lemma stored_all_phase_specs project_name feat_id auto_approve now w :
  Forall (stored project_name feat_id auto_approve now w) all_phases ->
  exists specs,
    get_all_phase_specs project_name feat_id w = (Return specs, w) /\
    List.map fst specs = List.map WorkflowPhase_value all_phases.
Proof.
  intros H. unfold get_all_phase_specs.
  induction H as [|p ps Hp _ IH]; simpl.
  - eexists. split; reflexivity.
  - destruct (stored_read _ _ _ _ _ _ Hp) as (content & Hr).
    destruct IH as (specs & Hs & Hfst).
    rewrite (bind_eq _ _ _ _ _ Hr), (bind_eq _ _ _ _ _ Hs).
    eexists. split; [reflexivity|]. simpl. now rewrite Hfst.
Qed.

Lemma successful_run_completed kickoff feat_id project_name description proj_id
    auto_approve w f fid status phases w' :
  lookup_feature feat_id w = Some f ->
  run_workflow kickoff feat_id project_name description proj_id auto_approve w
    = (Return (WorkflowSuccess fid status phases), w') ->
  run_completed project_name feat_id
    (if auto_approve then COMPLETED else PENDING_APPROVAL)
    (fun now => spec_approvals (phase_spec auto_approve feat_id REQUIREMENTS "" now))
    w w'.
Proof.
  intros Hf Hrun.
  destruct (successful_run _ _ _ _ _ _ _ _ _ _ _ Hrun) as (Hst & _ & Hfeat).
  split; [|split].
  - intros p.
    assert (Hp : stored project_name feat_id auto_approve (clock w) w' p).
    { rewrite List.Forall_forall in Hst. apply Hst. destruct p; simpl; tauto. }
    destruct (stored_read _ _ _ _ _ _ Hp) as (content & Hr).
    eexists. split; [exact Hr|]. destruct auto_approve; repeat split.
  - exact (stored_all_phase_specs _ _ _ _ _ Hst).
  - rewrite Hf in Hfeat. simpl in Hfeat.
    eexists. split; [rewrite get_feature_eq, Hfeat; reflexivity|].
    split; reflexivity.
Qed.

(** C1, amended. After a run with [auto_approve = true] that returns the
    success dictionary, for a registered feature: each of the six phases has
    a spec with status COMPLETED whose approval history is two records by
    "system", "Auto-generated" from [write_phase_spec] followed by
    "Auto-approved" from [update_phase_status]; the feature has status
    COMPLETED and current phase REVIEW. *)
Theorem auto_approve_run_completed kickoff feat_id project_name description
    proj_id w f fid status phases w' :
  lookup_feature feat_id w = Some f ->
  run_workflow kickoff feat_id project_name description proj_id true w
    = (Return (WorkflowSuccess fid status phases), w') ->
  run_completed project_name feat_id COMPLETED
    (fun now => [mk_Approval "system" now "Auto-generated";
                 mk_Approval "system" now "Auto-approved"])
    w w'.
Proof.
  intros Hf Hrun.
  exact (successful_run_completed kickoff feat_id project_name description
           proj_id true w f fid status phases w' Hf Hrun).
Qed.

Lemma sample_auto_run_eq :
  sample_auto_run =
  (Return (WorkflowSuccess "FEAT-20260129-001" "completed" (sample_phases "completed")),
   snd sample_auto_run).
Proof.
  apply (eq_trans (surjective_pairing sample_auto_run)).
  apply (f_equal (fun r => (r, snd sample_auto_run))).
  vm_compute. reflexivity.
Defined.

Lemma auto_approve_run_completed_witness :
  lookup_feature "FEAT-20260129-001" sample_world =
    Some (mk_Feature 1 "FEAT-20260129-001" 1 "add login" DRAFT REQUIREMENTS sample_now) /\
  sample_auto_run =
    (Return (WorkflowSuccess "FEAT-20260129-001" "completed" (sample_phases "completed")),
     snd sample_auto_run) /\
  run_completed "demo" "FEAT-20260129-001" COMPLETED
    (fun now => [mk_Approval "system" now "Auto-generated";
                 mk_Approval "system" now "Auto-approved"])
    sample_world (snd sample_auto_run).
Proof.
  split; [reflexivity|]. split; [exact sample_auto_run_eq|].
  exact (auto_approve_run_completed sample_executor "FEAT-20260129-001" "demo"
           "add login" 1 sample_world
           (mk_Feature 1 "FEAT-20260129-001" 1 "add login" DRAFT REQUIREMENTS
              sample_now)
           "FEAT-20260129-001" "completed" (sample_phases "completed")
           (snd sample_auto_run) eq_refl sample_auto_run_eq).
Defined.

(** C1, as stated, fails: the auto-approved run for the project "demo" and
    the description "add login" returns the success dictionary, and it is
    not the case that every phase spec is COMPLETED with exactly one
    approval record by "system": the Requirements spec has two. *)
Lemma auto_approve_run_two_approvals :
  fst sample_auto_run =
    Return (WorkflowSuccess "FEAT-20260129-001" "completed" (sample_phases "completed")) /\
  ~ (forall p : WorkflowPhase,
       exists spec,
         read_phase_spec "demo" "FEAT-20260129-001" p (snd sample_auto_run)
           = (Return (Some spec), snd sample_auto_run) /\
         spec_status spec = COMPLETED /\
         exists a, spec_approvals spec = [a] /\ approval_user a = "system").
Proof.
  split; [vm_compute; reflexivity|].
  intros H. destruct (H REQUIREMENTS) as (spec & Hr & _ & a & Ha & _).
  assert (Hlen : option_map (fun sp => List.length (spec_approvals sp))
                   (match fst (read_phase_spec "demo" "FEAT-20260129-001"
                                 REQUIREMENTS (snd sample_auto_run)) with
                    | Return o => o
                    | Raise _ => None
                    end) = Some 2) by (vm_compute; reflexivity).
  rewrite Hr in Hlen. cbn [fst option_map] in Hlen. rewrite Ha in Hlen.
  discriminate Hlen.
Qed.

(** C2, amended. After a run with [auto_approve = false] that returns the
    success dictionary, for a registered feature: each of the six phases,
    Design and the later ones included, has a spec with status
    PENDING_APPROVAL and the single approval record "Auto-generated" by
    "system"; the feature has status PENDING_APPROVAL and current phase
    REVIEW. *)
Theorem manual_run_completed kickoff feat_id project_name description
    proj_id w f fid status phases w' :
  lookup_feature feat_id w = Some f ->
  run_workflow kickoff feat_id project_name description proj_id false w
    = (Return (WorkflowSuccess fid status phases), w') ->
  run_completed project_name feat_id PENDING_APPROVAL
    (fun now => [mk_Approval "system" now "Auto-generated"])
    w w'.
Proof.
  intros Hf Hrun.
  exact (successful_run_completed kickoff feat_id project_name description
           proj_id false w f fid status phases w' Hf Hrun).
Qed.

Lemma sample_manual_run_eq :
  sample_manual_run =
  (Return (WorkflowSuccess "FEAT-20260129-001" "pending_approval"
             (sample_phases "pending_approval")),
   snd sample_manual_run).
Proof.
  apply (eq_trans (surjective_pairing sample_manual_run)).
  apply (f_equal (fun r => (r, snd sample_manual_run))).
  vm_compute. reflexivity.
Defined.

Lemma manual_run_completed_witness :
  lookup_feature "FEAT-20260129-001" sample_world =
    Some (mk_Feature 1 "FEAT-20260129-001" 1 "add login" DRAFT REQUIREMENTS sample_now) /\
  sample_manual_run =
    (Return (WorkflowSuccess "FEAT-20260129-001" "pending_approval"
               (sample_phases "pending_approval")),
     snd sample_manual_run) /\
  run_completed "demo" "FEAT-20260129-001" PENDING_APPROVAL
    (fun now => [mk_Approval "system" now "Auto-generated"])
    sample_world (snd sample_manual_run).
Proof.
  split; [reflexivity|]. split; [exact sample_manual_run_eq|].
  exact (manual_run_completed sample_executor "FEAT-20260129-001" "demo"
           "add login" 1 sample_world
           (mk_Feature 1 "FEAT-20260129-001" 1 "add login" DRAFT REQUIREMENTS
              sample_now)
           "FEAT-20260129-001" "pending_approval"
           (sample_phases "pending_approval") (snd sample_manual_run)
           eq_refl sample_manual_run_eq).
Defined.

(** C2, as stated, fails: after the run without auto-approval the store
    holds a Design spec, and [get_all_phase_specs] does not consist of the
    Requirements spec alone. *)
Lemma manual_run_generates_design :
  (exists spec,
     read_phase_spec "demo" "FEAT-20260129-001" DESIGN (snd sample_manual_run)
       = (Return (Some spec), snd sample_manual_run) /\
     spec_status spec = PENDING_APPROVAL) /\
  ~ (exists spec,
       get_all_phase_specs "demo" "FEAT-20260129-001" (snd sample_manual_run)
         = (Return [("requirements", spec)], snd sample_manual_run)).
Proof.
  destruct (successful_run_completed sample_executor "FEAT-20260129-001" "demo"
              "add login" 1 false sample_world
              (mk_Feature 1 "FEAT-20260129-001" 1 "add login" DRAFT REQUIREMENTS
                 sample_now)
              "FEAT-20260129-001" "pending_approval"
              (sample_phases "pending_approval") (snd sample_manual_run)
              eq_refl sample_manual_run_eq)
    as (Hspecs & (specs & Hall & Hfst) & _).
  split.
  - destruct (Hspecs DESIGN) as (spec & Hr & _ & Hs & _). eauto.
  - intros (spec & H). rewrite H in Hall.
    assert (E : Return [("requirements", spec)] = Return specs)
      by exact (f_equal fst Hall).
    injection E as <-. discriminate Hfst.
Qed.

(** ** A failed run *)

Lemma stored_or_kept project_name feat_id auto_approve now ps w w' path :
  Forall (stored project_name feat_id auto_approve now w') ps ->
  other_files_kept project_name feat_id ps w w' ->
  is_Some (files w !! path) -> is_Some (files w' !! path).
Proof.
  intros Hst Hkept Hsome.
  destruct (decide (Exists (fun q => path = get_phase_file project_name feat_id q) ps))
    as [Hex|Hnex].
  - apply Exists_exists in Hex. destruct Hex as (q & Hq & ->).
    rewrite Forall_forall in Hst. destruct (Hst q Hq) as (content & ->). eauto.
  - rewrite Hkept; [exact Hsome|].
    intros q Hq ->. apply Hnex. apply Exists_exists. exists q. split; [|reflexivity].
    now apply list_elem_of_In.
Qed.

(** C5. When the body of [run_workflow] raises [e], leaving the world [w1],
    the run returns the failure dictionary with the message
    "Workflow error: e"; the feature row is REJECTED with the phase and all
    other columns it had in [w1]; the message is appended to the log table
    and to the queue of the feature at level "error"; the files are exactly
    those of [w1], so the specs written by the phases before the failing one
    are still stored, and no file that existed before the run is gone. *)
Theorem failed_run_rejected kickoff feat_id project_name description proj_id
    auto_approve w f w0 e w1 :
  lookup_feature feat_id w = Some f ->
  log_message feat_id
    ("Starting workflow for " +:+ feat_id +:+ ": " +:+ description) "info" w
    = (Return tt, w0) ->
  run_workflow_body kickoff feat_id project_name description proj_id
    auto_approve w0 = (Raise e, w1) ->
  run_rejected
    (fst (run_workflow kickoff feat_id project_name description proj_id
            auto_approve w))
    project_name feat_id auto_approve e w w1
    (snd (run_workflow kickoff feat_id project_name description proj_id
            auto_approve w)).
Proof.
  intros Hf Hlog Hbody.
  rewrite (run_workflow_unfold _ _ _ _ _ _ _ _ Hlog), Hbody.
  destruct (log_message_eq feat_id
              ("Starting workflow for " +:+ feat_id +:+ ": " +:+ description)
              "info" w) as (w0' & E0 & F0 & T0 & C0 & _).
  rewrite Hlog in E0. injection E0 as <-.
  destruct (run_workflow_body_post kickoff feat_id project_name description
              proj_id auto_approve w0) as (r & w1' & Hb & Hpost).
  rewrite Hbody in Hb. injection Hb as <- <-.
  destruct Hpost as (p & agent & d & _ & Hst & Hkept & Hfeat & Hclock).
  destruct (run_workflow_handler_eq feat_id e w1) as (w' & H & F & T & C & L & Q).
  rewrite H. cbn [fst snd].
  rewrite (lookup_feature_same _ _ _ T0), Hf in Hfeat. cbn [option_map] in Hfeat.
  assert (Hst' : Forall (stored project_name feat_id auto_approve (clock w) w')
                   (phases_before p)).
  { rewrite <- C0. eapply List.Forall_impl; [|exact Hst].
    intros q (content & Hq). exists content. now rewrite F. }
  split; [reflexivity|]. split; [|split; [exact L|split; [exact Q|split; [exact F|]]]].
  - eexists _, p. split; [exact Hfeat|]. split; [reflexivity|].
    split; [rewrite (lookup_feature_updated _ _ _ _ _ T), Hfeat; reflexivity|].
    split; [reflexivity|]. split; [reflexivity|]. exact Hst'.
  - intros path Hsome.
    apply (stored_or_kept project_name feat_id auto_approve (clock w)
             (phases_before p) w w' path Hst'); [|exact Hsome].
    intros path' Hpath'. rewrite F, (Hkept path' Hpath'). now rewrite F0.
Qed.

Lemma sample_failed_start_eq :
  log_message "FEAT-20260129-001"
    ("Starting workflow for " +:+ "FEAT-20260129-001" +:+ ": " +:+ "add login")
    "info" sample_world
  = (Return tt, sample_failed_start).
Proof.
  apply (eq_trans (surjective_pairing _)).
  apply (f_equal (fun r => (r, sample_failed_start))).
  vm_compute. reflexivity.
Defined.

Lemma sample_failed_body_eq :
  sample_failed_body = (Raise "LLM request failed", snd sample_failed_body).
Proof.
  apply (eq_trans (surjective_pairing sample_failed_body)).
  apply (f_equal (fun r => (r, snd sample_failed_body))).
  vm_compute. reflexivity.
Defined.

Lemma failed_run_rejected_witness :
  lookup_feature "FEAT-20260129-001" sample_world =
    Some (mk_Feature 1 "FEAT-20260129-001" 1 "add login" DRAFT REQUIREMENTS sample_now) /\
  log_message "FEAT-20260129-001"
    ("Starting workflow for " +:+ "FEAT-20260129-001" +:+ ": " +:+ "add login")
    "info" sample_world
  = (Return tt, sample_failed_start) /\
  sample_failed_body = (Raise "LLM request failed", snd sample_failed_body) /\
  run_rejected (fst sample_failed_run) "demo" "FEAT-20260129-001" true
    "LLM request failed" sample_world (snd sample_failed_body)
    (snd sample_failed_run).
Proof.
  split; [reflexivity|]. split; [exact sample_failed_start_eq|].
  split; [exact sample_failed_body_eq|].
  exact (failed_run_rejected failing_executor "FEAT-20260129-001" "demo"
           "add login" 1 true sample_world
           (mk_Feature 1 "FEAT-20260129-001" 1 "add login" DRAFT REQUIREMENTS
              sample_now)
           sample_failed_start "LLM request failed" (snd sample_failed_body)
           eq_refl sample_failed_start_eq sample_failed_body_eq).
Defined.

(** The failed sample run: the architect fails, so the Requirements spec is
    stored and completed, no Design spec exists, and the feature is
    REJECTED in the phase REQUIREMENTS. *)
Lemma sample_failed_run_state :
  fst sample_failed_run =
    Return (WorkflowFailure "FEAT-20260129-001" "Workflow error: LLM request failed") /\
  option_map (fun f => (feature_status f, feature_current_phase f))
    (lookup_feature "FEAT-20260129-001" (snd sample_failed_run))
    = Some (REJECTED, REQUIREMENTS) /\
  List.map fst
    (match fst (get_all_phase_specs "demo" "FEAT-20260129-001" (snd sample_failed_run)) with
     | Return specs => specs
     | Raise _ => []
     end) = ["requirements"].
Proof. repeat split; vm_compute; reflexivity. Qed.

(** * Further properties *)

(** ** Spec files of different features *)

Lemma split_slash_no_slash (s : string) : forall cur,
  no_slash s = true -> split_slash s cur = [cur +:+ s].
Proof.
  induction s as [|c s IH]; intros cur H; simpl in *.
  - now rewrite append_empty_r.
  - apply andb_true_iff in H. destruct H as [Hc Hs].
    apply negb_true_iff in Hc. rewrite Hc, (IH _ Hs).
    f_equal. clear. induction cur as [|d cur IH]; simpl; [reflexivity|].
    now rewrite IH.
Qed.

Lemma parse_root_no_slash (s : string) : no_slash s = true -> parse_root s = "".
Proof.
  destruct s as [|c s]; [reflexivity|]. simpl. intros H.
  apply andb_true_iff in H. destruct H as [Hc _]. apply negb_true_iff in Hc.
  destruct c as [[] [] [] [] [] [] [] []]; try reflexivity.
  vm_compute in Hc. discriminate Hc.
Qed.

Lemma parse_path_simple (s : string) :
  simple_name s = true -> parse_path s = mk_Path "" [s].
Proof.
  unfold simple_name, parse_path. intros H.
  apply andb_true_iff in H. destruct H as [Hp Hs].
  rewrite (parse_root_no_slash s Hs), (split_slash_no_slash s "" Hs).
  simpl. now rewrite Hp.
Qed.

Lemma path_join_simple (p : Path) (s : string) :
  simple_name s = true ->
  p // s = mk_Path (path_root p) (path_parts p ++ [s]).
Proof. intros H. unfold path_join. now rewrite (parse_path_simple s H). Qed.

Lemma get_spec_dir_simple project_name feat_id :
  simple_name project_name = true -> simple_name feat_id = true ->
  get_spec_dir project_name feat_id =
  mk_Path "/" ["projects"; project_name; ".spec-workflow"; "specs"; feat_id].
Proof.
  intros Hp Hf. unfold get_spec_dir.
  rewrite (path_join_simple _ feat_id Hf).
  change (parse_path PROJECTS_PATH // project_name // ".spec-workflow" // "specs")
    with ((parse_path PROJECTS_PATH // project_name) // ".spec-workflow" // "specs").
  rewrite (path_join_simple _ project_name Hp). reflexivity.
Qed.

Lemma all_digits_no_slash (s : string) : all_digits s = true -> no_slash s = true.
Proof.
  induction s as [|c s IH]; simpl; [reflexivity|]. intros H.
  apply andb_true_iff in H. destruct H as [Hc Hs]. rewrite (IH Hs), andb_true_r.
  destruct (Ascii.eqb_spec c "/") as [->|]; [discriminate Hc | reflexivity].
Qed.

Lemma no_slash_append (s1 s2 : string) :
  no_slash (s1 +:+ s2) = no_slash s1 && no_slash s2.
Proof.
  induction s1 as [|c s1 IH]; simpl; [reflexivity|].
  now rewrite IH, andb_assoc.
Qed.

Lemma well_formed_simple (s : string) :
  well_formed_feature_id s -> simple_name s = true.
Proof.
  intros (date & seq & -> & _ & Hd & _ & Hs). unfold simple_name.
  apply andb_true_iff. split; [reflexivity|].
  rewrite !no_slash_append, (all_digits_no_slash _ Hd), (all_digits_no_slash _ Hs).
  reflexivity.
Qed.

(** Every identifier accepted by [validate_feature_id] is one path
    component. *)
Lemma validate_feature_id_simple (s : string) :
  validate_feature_id s = true -> simple_name s = true.
Proof.
  intros H. apply validate_feature_id_accepts in H.
  destruct H as [H | (s0 & H & ->)]; [now apply well_formed_simple|].
  apply well_formed_simple in H. unfold simple_name in *.
  apply andb_true_iff in H. destruct H as [Hp Hn].
  apply andb_true_iff. split.
  - clear. unfold is_part. destruct s0 as [|c s0]; [reflexivity|].
    simpl. destruct (Ascii.eqb c "."); [destruct s0; reflexivity | reflexivity].
  - rewrite no_slash_append, Hn. reflexivity.
Qed.

Lemma get_phase_file_simple_inj p1 f1 ph1 p2 f2 ph2 :
  simple_name p1 = true -> simple_name f1 = true ->
  simple_name p2 = true -> simple_name f2 = true ->
  get_phase_file p1 f1 ph1 = get_phase_file p2 f2 ph2 ->
  (p1, f1, ph1) = (p2, f2, ph2).
Proof.
  intros Hp1 Hf1 Hp2 Hf2. rewrite !get_phase_file_parts.
  rewrite (get_spec_dir_simple p1 f1 Hp1 Hf1), (get_spec_dir_simple p2 f2 Hp2 Hf2).
  simpl. intros H. injection H as -> -> H.
  destruct ph1, ph2; (reflexivity || discriminate H).
Qed.

(** X1. Project names and feature identifiers that are single path
    components name different spec files whenever the project, the feature
    or the phase differ: such specs never overwrite each other. *)
Theorem get_phase_file_distinct p1 f1 ph1 p2 f2 ph2 :
  simple_name p1 = true -> simple_name f1 = true ->
  simple_name p2 = true -> simple_name f2 = true ->
  (p1, f1, ph1) <> (p2, f2, ph2) ->
  get_phase_file p1 f1 ph1 <> get_phase_file p2 f2 ph2.
Proof.
  intros Hp1 Hf1 Hp2 Hf2 Hne E. apply Hne.
  now apply get_phase_file_simple_inj.
Qed.

Lemma get_phase_file_distinct_witness :
  simple_name "demo" = true /\ simple_name "FEAT-20260129-001" = true /\
  simple_name "demo" = true /\ simple_name "FEAT-20260129-002" = true /\
  ("demo", "FEAT-20260129-001", DESIGN) <> ("demo", "FEAT-20260129-002", DESIGN) /\
  get_phase_file "demo" "FEAT-20260129-001" DESIGN
    <> get_phase_file "demo" "FEAT-20260129-002" DESIGN.
Proof.
  assert (Hne : ("demo", "FEAT-20260129-001", DESIGN)
                <> ("demo", "FEAT-20260129-002", DESIGN)) by discriminate.
  do 4 (split; [reflexivity|]). split; [exact Hne|].
  exact (get_phase_file_distinct "demo" "FEAT-20260129-001" DESIGN
           "demo" "FEAT-20260129-002" DESIGN
           eq_refl eq_refl eq_refl eq_refl Hne).
Defined.

(** ** Updating and listing specs *)

Lemma read_phase_spec_inv project_name feat_id phase spec w w' :
  read_phase_spec project_name feat_id phase w = (Return (Some spec), w') ->
  w' = w /\
  exists d, files w !! get_phase_file project_name feat_id phase = Some d /\
            spec_of_dict d = Some spec.
Proof.
  unfold read_phase_spec, bind, gets, ret, raise.
  destruct (files w !! _) as [d|]; [|discriminate].
  destruct (spec_of_dict d) as [sp|] eqn:E; [|discriminate].
  intros H. injection H as -> ->. split; [reflexivity|]. now exists d.
Qed.

Lemma read_phase_spec_same_file project_name feat_id phase w w' :
  files w' !! get_phase_file project_name feat_id phase
    = files w !! get_phase_file project_name feat_id phase ->
  fst (read_phase_spec project_name feat_id phase w')
    = fst (read_phase_spec project_name feat_id phase w).
Proof.
  intros H. unfold read_phase_spec, bind, gets, ret, raise. rewrite H.
  destruct (files w !! _) as [d|]; [|reflexivity].
  destruct (spec_of_dict d); reflexivity.
Qed.

Lemma sample_spec_world_read :
  read_phase_spec "demo" "FEAT-20260129-001" REQUIREMENTS sample_spec_world
    = (Return (Some sample_spec), sample_spec_world).
Proof. apply read_phase_spec_stored. apply lookup_insert_eq. Defined.

(** X2. On a phase whose spec can be read, [update_phase_status] returns
    the spec with the new status, the old approval history followed by one
    record for the acting user, and the update time; feature id, phase,
    content, dependencies and creation time are kept.  The spec read back
    afterwards is the spec returned; the specs of the other phases, the
    feature table and the log table are untouched. *)
Theorem update_phase_status_appends project_name feat_id phase status comment
    user spec w :
  read_phase_spec project_name feat_id phase w = (Return (Some spec), w) ->
  exists spec' w',
    update_phase_status project_name feat_id phase status comment user w
      = (Return (Some spec'), w') /\
    read_phase_spec project_name feat_id phase w' = (Return (Some spec'), w') /\
    spec' =
      mk_SpecPhase (spec_feature_id spec) (spec_phase spec) status
        (spec_content spec)
        (spec_approvals spec ++ [mk_Approval user (clock w) comment])
        (spec_dependencies spec) (spec_created_at spec) (clock w) /\
    features w' = features w /\ logs w' = logs w /\
    forall q, q <> phase ->
      files w' !! get_phase_file project_name feat_id q
        = files w !! get_phase_file project_name feat_id q.
Proof.
  intros H. unfold update_phase_status. rewrite (bind_eq _ _ _ _ _ H).
  eexists _, _. split; [reflexivity|].
  split; [apply read_phase_spec_stored; simpl; apply lookup_insert_eq|].
  split; [reflexivity|]. split; [reflexivity|]. split; [reflexivity|].
  intros q Hq. simpl. apply lookup_insert_ne.
  intros E. apply get_phase_file_inj in E. congruence.
Qed.

Lemma update_phase_status_appends_witness :
  read_phase_spec "demo" "FEAT-20260129-001" REQUIREMENTS sample_spec_world
    = (Return (Some sample_spec), sample_spec_world) /\
  exists spec' w',
    update_phase_status "demo" "FEAT-20260129-001" REQUIREMENTS APPROVED
      "looks good" "dashboard" sample_spec_world = (Return (Some spec'), w') /\
    read_phase_spec "demo" "FEAT-20260129-001" REQUIREMENTS w'
      = (Return (Some spec'), w') /\
    spec' =
      mk_SpecPhase (spec_feature_id sample_spec) (spec_phase sample_spec) APPROVED
        (spec_content sample_spec)
        (spec_approvals sample_spec
           ++ [mk_Approval "dashboard" (clock sample_spec_world) "looks good"])
        (spec_dependencies sample_spec) (spec_created_at sample_spec)
        (clock sample_spec_world) /\
    features w' = features sample_spec_world /\ logs w' = logs sample_spec_world /\
    forall q, q <> REQUIREMENTS ->
      files w' !! get_phase_file "demo" "FEAT-20260129-001" q
        = files sample_spec_world !! get_phase_file "demo" "FEAT-20260129-001" q.
Proof.
  split; [exact sample_spec_world_read|].
  exact (update_phase_status_appends "demo" "FEAT-20260129-001" REQUIREMENTS
           APPROVED "looks good" "dashboard" sample_spec sample_spec_world
           sample_spec_world_read).
Defined.

(** X3. [write_phase_spec] changes one file only: for single-component
    names, the spec read for any other project, feature or phase is the
    same before and after, and the registry, the log table and the queues
    are untouched. *)
Theorem write_phase_spec_frame p1 f1 ph1 content status deps p2 f2 ph2 w :
  simple_name p1 = true -> simple_name f1 = true ->
  simple_name p2 = true -> simple_name f2 = true ->
  (p1, f1, ph1) <> (p2, f2, ph2) ->
  let w' := snd (write_phase_spec p1 f1 ph1 content status deps w) in
  fst (read_phase_spec p2 f2 ph2 w') = fst (read_phase_spec p2 f2 ph2 w) /\
  features w' = features w /\ projects w' = projects w /\
  logs w' = logs w /\ log_queues w' = log_queues w /\
  feature_counter w' = feature_counter w.
Proof.
  intros Hp1 Hf1 Hp2 Hf2 Hne w'. split; [|repeat split].
  apply read_phase_spec_same_file. subst w'. simpl.
  apply lookup_insert_ne.
  intros E. apply Hne. now apply get_phase_file_simple_inj.
Qed.

Lemma write_phase_spec_frame_witness :
  simple_name "demo" = true /\ simple_name "FEAT-20260129-002" = true /\
  simple_name "demo" = true /\ simple_name "FEAT-20260129-001" = true /\
  ("demo", "FEAT-20260129-002", REQUIREMENTS)
    <> ("demo", "FEAT-20260129-001", REQUIREMENTS) /\
  let w' := snd (write_phase_spec "demo" "FEAT-20260129-002" REQUIREMENTS
                   "other" DRAFT None sample_spec_world) in
  fst (read_phase_spec "demo" "FEAT-20260129-001" REQUIREMENTS w')
    = fst (read_phase_spec "demo" "FEAT-20260129-001" REQUIREMENTS sample_spec_world) /\
  features w' = features sample_spec_world /\
  projects w' = projects sample_spec_world /\
  logs w' = logs sample_spec_world /\
  log_queues w' = log_queues sample_spec_world /\
  feature_counter w' = feature_counter sample_spec_world.
Proof.
  assert (Hne : ("demo", "FEAT-20260129-002", REQUIREMENTS)
                <> ("demo", "FEAT-20260129-001", REQUIREMENTS)) by discriminate.
  do 4 (split; [reflexivity|]). split; [exact Hne|].
  exact (write_phase_spec_frame "demo" "FEAT-20260129-002" REQUIREMENTS "other"
           DRAFT None "demo" "FEAT-20260129-001" REQUIREMENTS sample_spec_world
           eq_refl eq_refl eq_refl eq_refl Hne).
Defined.

Lemma collect_phase_specs_lists project_name feat_id w (phases : list WorkflowPhase) :
  (forall p d, files w !! get_phase_file project_name feat_id p = Some d ->
               is_Some (spec_of_dict d)) ->
  exists specs,
    collect_phase_specs project_name feat_id phases w = (Return specs, w) /\
    List.map fst specs =
      List.map WorkflowPhase_value
        (List.filter
           (fun p => bool_decide
                       (is_Some (files w !! get_phase_file project_name feat_id p)))
           phases) /\
    forall name sp, In (name, sp) specs ->
      exists p, name = WorkflowPhase_value p /\
                read_phase_spec project_name feat_id p w = (Return (Some sp), w).
Proof.
  intros Hok. induction phases as [|p ps IH]; simpl.
  - exists []. repeat split. intros name sp [].
  - destruct IH as (specs & Hs & Hfst & Hin).
    destruct (files w !! get_phase_file project_name feat_id p) as [d|] eqn:Hd.
    + destruct (Hok p d Hd) as [sp Hsp].
      assert (Hr : read_phase_spec project_name feat_id p w = (Return (Some sp), w)).
      { unfold read_phase_spec, bind, gets. rewrite Hd, Hsp. reflexivity. }
      rewrite (bind_eq _ _ _ _ _ Hr), (bind_eq _ _ _ _ _ Hs).
      eexists. split; [reflexivity|]. split.
      * rewrite bool_decide_eq_true_2 by eauto. simpl. now rewrite Hfst.
      * intros name sp' [E|Hi]; [injection E as <- <-; eauto | eauto].
    + rewrite (bind_eq _ _ _ _ _ (read_phase_spec_absent _ _ _ _ Hd)),
        (bind_eq _ _ _ _ _ Hs).
      eexists. split; [reflexivity|]. split; [|exact Hin].
      rewrite bool_decide_eq_false_2 by (intros [? ?]; discriminate). exact Hfst.
Qed.

(** X4. When every spec file of the feature holds known phase and status
    values, [get_all_phase_specs] returns, in the order of the phases,
    exactly the phases that have a spec file, each with the spec that
    [read_phase_spec] returns; phases without a file are left out, and the
    world is not changed. *)
Theorem get_all_phase_specs_lists project_name feat_id w :
  (forall p d, files w !! get_phase_file project_name feat_id p = Some d ->
               is_Some (spec_of_dict d)) ->
  exists specs,
    get_all_phase_specs project_name feat_id w = (Return specs, w) /\
    List.map fst specs =
      List.map WorkflowPhase_value (generated_phases project_name feat_id w) /\
    forall name sp, In (name, sp) specs ->
      exists p, name = WorkflowPhase_value p /\
                read_phase_spec project_name feat_id p w = (Return (Some sp), w).
Proof. intros H. exact (collect_phase_specs_lists _ _ _ all_phases H). Qed.

Lemma sample_spec_world_parses p d :
  files sample_spec_world !! get_phase_file "demo" "FEAT-20260129-001" p = Some d ->
  is_Some (spec_of_dict d).
Proof.
  simpl. rewrite lookup_insert. destruct (decide _) as [_|_].
  - intros H. injection H as <-. rewrite spec_of_dict_to_dict. eauto.
  - intros H. exfalso. revert H. change (files sample_world) with (∅ : gmap Path spec_dict).
    rewrite lookup_empty. discriminate.
Defined.

Lemma get_all_phase_specs_lists_witness :
  (forall p d,
     files sample_spec_world !! get_phase_file "demo" "FEAT-20260129-001" p = Some d ->
     is_Some (spec_of_dict d)) /\
  exists specs,
    get_all_phase_specs "demo" "FEAT-20260129-001" sample_spec_world
      = (Return specs, sample_spec_world) /\
    List.map fst specs =
      List.map WorkflowPhase_value
        (generated_phases "demo" "FEAT-20260129-001" sample_spec_world) /\
    forall name sp, In (name, sp) specs ->
      exists p, name = WorkflowPhase_value p /\
                read_phase_spec "demo" "FEAT-20260129-001" p sample_spec_world
                  = (Return (Some sp), sample_spec_world).
Proof.
  split; [exact sample_spec_world_parses|].
  exact (get_all_phase_specs_lists "demo" "FEAT-20260129-001" sample_spec_world
           sample_spec_world_parses).
Defined.

(** ** Progress *)

Lemma progress_loop_bounds feat_id project_name (phases : list WorkflowPhase) :
  forall (completed : Q) (w : World),
    match progress_loop feat_id project_name phases completed w with
    | (Return q, w') =>
        w' = w /\ (completed <= q)%Q /\
        (q <= completed + inject_Z (Z.of_nat (List.length phases)))%Q
    | (Raise _, w') => w' = w
    end.
Proof.
  induction phases as [|p ps IH]; intros completed w.
  - simpl. unfold ret. split; [reflexivity|]. split; [apply Qle_refl|].
    rewrite Qplus_0_r. apply Qle_refl.
  - cbn [progress_loop]. unfold bind at 1.
    pose proof (read_phase_spec_pure project_name feat_id p w) as Hw.
    destruct (read_phase_spec project_name feat_id p w) as [[spec|e] w1];
      simpl in Hw; subst w1; [|reflexivity].
    match goal with
    | |- context [progress_loop _ _ ps ?c w] =>
        specialize (IH c w); remember c as c' eqn:Hc;
        destruct (progress_loop feat_id project_name ps c' w) as [[q|e] w2];
        [|exact IH]
    end.
    destruct IH as (-> & Hlo & Hhi). split; [reflexivity|].
    assert (Hstep : (completed <= c')%Q /\ (c' <= completed + 1)%Q).
    { subst c'. destruct spec as [sp|]; [destruct (spec_status sp)|];
        split; unfold Qle; simpl; lia. }
    destruct Hstep as [H1 H2].
    split; [eapply Qle_trans; eassumption|].
    eapply Qle_trans; [exact Hhi|].
    cbn [List.length]. rewrite Nat2Z.inj_succ, <- Z.add_1_l, inject_Z_plus.
    rewrite Qplus_assoc. apply Qplus_le_l. exact H2.
Qed.

(** X5. [calculate_progress] never changes the world, and the progress it
    returns lies between 0 and 1. *)
Theorem calculate_progress_bounds feat_id project_name w :
  match calculate_progress feat_id project_name w with
  | (Return q, w') => w' = w /\ (0 <= q)%Q /\ (q <= 1)%Q
  | (Raise _, w') => w' = w
  end.
Proof.
  unfold calculate_progress. cbv zeta. unfold bind.
  pose proof (progress_loop_bounds feat_id project_name all_phases 0%Q w) as H.
  destruct (progress_loop feat_id project_name all_phases 0%Q w) as [[q|e] w'];
    [|exact H].
  destruct H as (-> & Hlo & Hhi). unfold ret. split; [reflexivity|].
  simpl in Hhi. rewrite Qplus_0_l in Hhi.
  split.
  - apply Qle_shift_div_l; [reflexivity|]. rewrite Qmult_0_l. exact Hlo.
  - apply Qle_shift_div_r; [reflexivity|]. rewrite Qmult_1_l. exact Hhi.
Qed.

Lemma progress_loop_stored feat_id project_name auto_approve now w
    (phases : list WorkflowPhase) :
  Forall (stored project_name feat_id auto_approve now w) phases ->
  forall completed,
  exists q,
    progress_loop feat_id project_name phases completed w = (Return q, w) /\
    (q == completed +
          (if auto_approve then inject_Z (Z.of_nat (List.length phases)) else 0))%Q.
Proof.
  induction 1 as [|p ps Hp _ IH]; intros completed.
  - exists completed. split; [reflexivity|].
    destruct auto_approve; simpl; rewrite Qplus_0_r; reflexivity.
  - destruct (stored_read _ _ _ _ _ _ Hp) as (content & Hr).
    cbn [progress_loop]. rewrite (bind_eq _ _ _ _ _ Hr).
    destruct auto_approve; cbn [phase_spec spec_status].
    + destruct (IH (completed + 1)%Q) as (q & Hq & E). exists q.
      split; [exact Hq|]. rewrite E.
      cbn [List.length]. rewrite Nat2Z.inj_succ, <- Z.add_1_l, inject_Z_plus.
      rewrite Qplus_assoc. reflexivity.
    + destruct (IH completed) as (q & Hq & E). exists q. split; assumption.
Qed.

(** X6. After a run that returned the success dictionary,
    [calculate_progress] reports 1 when the run was auto-approved and 0
    when it was not: six specs that wait for approval count as no
    progress. *)
Theorem calculate_progress_after_run kickoff feat_id project_name description
    proj_id auto_approve w fid status phases w' :
  run_workflow kickoff feat_id project_name description proj_id auto_approve w
    = (Return (WorkflowSuccess fid status phases), w') ->
  exists q,
    calculate_progress feat_id project_name w' = (Return q, w') /\
    (q == if auto_approve then 1 else 0)%Q.
Proof.
  intros Hrun.
  destruct (successful_run _ _ _ _ _ _ _ _ _ _ _ Hrun) as (Hst & _ & _).
  destruct (progress_loop_stored feat_id project_name auto_approve (clock w) w'
              all_phases Hst 0%Q) as (q & Hq & E).
  unfold calculate_progress. cbv zeta. rewrite (bind_eq _ _ _ _ _ Hq).
  eexists. split; [reflexivity|]. rewrite E.
  destruct auto_approve; reflexivity.
Qed.

Lemma calculate_progress_after_run_witness :
  sample_manual_run =
    (Return (WorkflowSuccess "FEAT-20260129-001" "pending_approval"
               (sample_phases "pending_approval")),
     snd sample_manual_run) /\
  exists q,
    calculate_progress "FEAT-20260129-001" "demo" (snd sample_manual_run)
      = (Return q, snd sample_manual_run) /\
    (q == 0)%Q.
Proof.
  split; [exact sample_manual_run_eq|].
  exact (calculate_progress_after_run sample_executor "FEAT-20260129-001" "demo"
           "add login" 1 false sample_world "FEAT-20260129-001"
           "pending_approval" (sample_phases "pending_approval")
           (snd sample_manual_run) sample_manual_run_eq).
Defined.

(** ** Backups *)

Lemma string_of_uint_digits (d : Decimal.uint) :
  all_digits (NilEmpty.string_of_uint d) = true.
Proof. induction d; simpl; [reflexivity | assumption ..]. Qed.

Lemma zeros_digits (k : nat) : all_digits (zeros k) = true.
Proof. induction k as [|k IH]; simpl; [reflexivity | assumption]. Qed.

Lemma format_0d_digits (w : nat) (n : N) : all_digits (format_0d w n) = true.
Proof.
  unfold format_0d, str_of_N. cbv zeta.
  now rewrite all_digits_append, zeros_digits, string_of_uint_digits.
Qed.

Lemma backup_name_simple (phase : WorkflowPhase) (t : datetime) :
  simple_name ("phase-" +:+ WorkflowPhase_value phase +:+ "_"
                 +:+ strftime_backup t +:+ ".yaml") = true.
Proof.
  unfold simple_name. apply andb_true_iff. split.
  - destruct phase; reflexivity.
  - unfold strftime_backup, strftime_Ymd.
    rewrite !no_slash_append.
    rewrite !(all_digits_no_slash _ (format_0d_digits _ _)).
    destruct phase; reflexivity.
Qed.

(** X7. [backup_spec] returns [None] and changes nothing when the phase has
    no spec file.  Otherwise it stores the document of the phase file under
    a path that is the spec file of no phase of the feature, so every spec
    of the feature reads as before, and it leaves the registry alone. *)
Theorem backup_spec_keeps_specs project_name feat_id phase w :
  match files w !! get_phase_file project_name feat_id phase with
  | None => backup_spec project_name feat_id phase w = (Return None, w)
  | Some d =>
      exists backup_file w',
        backup_spec project_name feat_id phase w = (Return (Some backup_file), w') /\
        files w' = <[backup_file := d]> (files w) /\
        (forall q, backup_file <> get_phase_file project_name feat_id q) /\
        (forall q, fst (read_phase_spec project_name feat_id q w')
                   = fst (read_phase_spec project_name feat_id q w)) /\
        features w' = features w /\ logs w' = logs w
  end.
Proof.
  destruct (files w !! get_phase_file project_name feat_id phase) as [d|] eqn:Hd.
  - assert (Hne : forall q,
              get_spec_dir project_name feat_id // ".backups"
                // ("phase-" +:+ WorkflowPhase_value phase +:+ "_"
                      +:+ strftime_backup (clock w) +:+ ".yaml")
              <> get_phase_file project_name feat_id q).
    { intros q. rewrite get_phase_file_parts.
      rewrite (path_join_simple _ _ (backup_name_simple phase (clock w))).
      rewrite (path_join_simple _ ".backups" eq_refl). simpl.
      intros E. injection E as E. rewrite <- app_assoc in E.
      apply app_inv_head in E. discriminate E. }
    eexists _, _. split.
    + unfold backup_spec, bind, gets, utcnow, modify, ret. rewrite Hd. reflexivity.
    + split; [reflexivity|]. split; [exact Hne|]. split; [|split; reflexivity].
      intros q. apply read_phase_spec_same_file. simpl.
      apply lookup_insert_ne. apply Hne.
  - unfold backup_spec, bind, gets, ret. rewrite Hd. reflexivity.
Qed.

(** ** The feature table *)

Lemma existsb_find {A} (f : A -> bool) (l : list A) :
  existsb f l = match find f l with Some _ => true | None => false end.
Proof.
  induction l as [|x l IH]; simpl; [reflexivity|].
  destruct (f x); [reflexivity | exact IH].
Qed.

Lemma find_app_new {A} (f : A -> bool) (l : list A) (x : A) :
  find f (l ++ [x]) =
  match find f l with
  | Some y => Some y
  | None => if f x then Some x else None
  end.
Proof.
  induction l as [|y l IH]; simpl; [reflexivity|].
  destruct (f y); [reflexivity | exact IH].
Qed.

(** X8. For an identifier without a row, [create_feature] inserts a row
    with status DRAFT and phase REQUIREMENTS, which [get_feature] then
    returns; the rows of all other identifiers, the projects and the spec
    files are unchanged. *)
Theorem create_feature_then_get feat_id proj_id description w :
  lookup_feature feat_id w = None ->
  exists row w',
    create_feature feat_id proj_id description w = (Return row, w') /\
    get_feature feat_id w' = (Return (Some row), w') /\
    row = mk_Feature (S (features_seq w)) feat_id proj_id description DRAFT
            REQUIREMENTS (clock w) /\
    (forall g, g <> feat_id -> lookup_feature g w' = lookup_feature g w) /\
    projects w' = projects w /\ files w' = files w.
Proof.
  intros H. unfold lookup_feature in H.
  eexists _, _. split.
  - unfold create_feature, bind, gets, utcnow. rewrite existsb_find, H. reflexivity.
  - split.
    + rewrite get_feature_eq. unfold lookup_feature. simpl.
      rewrite find_app_new, H. simpl. now rewrite String.eqb_refl.
    + split; [reflexivity|]. split; [|split; reflexivity].
      intros g Hg. unfold lookup_feature. simpl. rewrite find_app_new.
      destruct (find (fun f0 => String.eqb (feature_id f0) g) (features w));
        [reflexivity|]. simpl.
      destruct (String.eqb_spec feat_id g); [congruence | reflexivity].
Qed.

Lemma create_feature_then_get_witness :
  lookup_feature "FEAT-20260129-002" sample_world = None /\
  exists row w',
    create_feature "FEAT-20260129-002" 1 "add logout" sample_world = (Return row, w') /\
    get_feature "FEAT-20260129-002" w' = (Return (Some row), w') /\
    row = mk_Feature (S (features_seq sample_world)) "FEAT-20260129-002" 1
            "add logout" DRAFT REQUIREMENTS (clock sample_world) /\
    (forall g, g <> "FEAT-20260129-002" ->
               lookup_feature g w' = lookup_feature g sample_world) /\
    projects w' = projects sample_world /\ files w' = files sample_world.
Proof.
  split; [reflexivity|].
  exact (create_feature_then_get "FEAT-20260129-002" 1 "add logout" sample_world
           eq_refl).
Defined.

(** X9. [create_feature] for an identifier that already has a row raises
    the error of the UNIQUE constraint and leaves the world as it was. *)
Theorem create_feature_duplicate feat_id proj_id description w f :
  lookup_feature feat_id w = Some f ->
  create_feature feat_id proj_id description w =
  (Raise "UNIQUE constraint failed: features.feature_id", w).
Proof.
  intros H. unfold lookup_feature in H.
  unfold create_feature, bind, gets. rewrite existsb_find, H. reflexivity.
Qed.

Lemma create_feature_duplicate_witness :
  lookup_feature "FEAT-20260129-001" sample_world =
    Some (mk_Feature 1 "FEAT-20260129-001" 1 "add login" DRAFT REQUIREMENTS sample_now) /\
  create_feature "FEAT-20260129-001" 1 "again" sample_world =
  (Raise "UNIQUE constraint failed: features.feature_id", sample_world).
Proof.
  split; [reflexivity|].
  exact (create_feature_duplicate "FEAT-20260129-001" 1 "again" sample_world _
           eq_refl).
Defined.

Lemma update_where_feature_id feat_id status phase f :
  feature_id (update_where feat_id status phase f) = feature_id f.
Proof.
  unfold update_where. destruct (String.eqb (feature_id f) feat_id); [|reflexivity].
  destruct phase; reflexivity.
Qed.

Lemma update_where_other feat_id status phase f :
  feature_id f <> feat_id -> update_where feat_id status phase f = f.
Proof.
  intros H. unfold update_where.
  destruct (String.eqb_spec (feature_id f) feat_id); [contradiction | reflexivity].
Qed.

Lemma lookup_feature_map_other feat_id status phase g (fs : list Feature) :
  g <> feat_id ->
  find (fun f => String.eqb (feature_id f) g)
    (List.map (update_where feat_id status phase) fs)
  = find (fun f => String.eqb (feature_id f) g) fs.
Proof.
  intros Hg. induction fs as [|f fs IH]; simpl; [reflexivity|].
  rewrite update_where_feature_id.
  destruct (String.eqb_spec (feature_id f) g) as [E|E]; [|exact IH].
  rewrite update_where_other by congruence. reflexivity.
Qed.

Lemma rowcount_found feat_id (fs : list Feature) f :
  find (fun f => String.eqb (feature_id f) feat_id) fs = Some f ->
  (0 <? rowcount feat_id fs)%nat = true.
Proof.
  intros H. apply rowcount_pos_iff. apply find_some in H. destruct H as [Hin E].
  apply String.eqb_eq in E. rewrite <- E. now apply in_map.
Qed.

(** X10. For a registered feature, [update_feature_status] with a phase
    returns [true]; the stored row then has the new status and the new
    phase and keeps all its other columns, [created_at] among them;
    [get_feature] returns an object with the columns of that row, except
    that its [created_at] is the time of the read and not the stored one;
    the rows of the other features are unchanged. *)
Theorem update_feature_status_then_get feat_id status phase w f :
  lookup_feature feat_id w = Some f ->
  exists w',
    update_feature_status feat_id status (Some phase) w = (Return true, w') /\
    lookup_feature feat_id w' =
      Some (mk_Feature (feature_rowid f) (feature_id f) (feature_project_id f)
              (feature_description f) status phase (feature_created_at f)) /\
    get_feature feat_id w' =
      (Return (Some (mk_Feature (feature_rowid f) (feature_id f)
                       (feature_project_id f) (feature_description f) status phase
                       (clock w))), w') /\
    (forall g, g <> feat_id -> lookup_feature g w' = lookup_feature g w) /\
    files w' = files w.
Proof.
  intros H. rewrite update_feature_status_eq.
  unfold lookup_feature in H. rewrite (rowcount_found _ _ _ H).
  eexists. split; [reflexivity|].
  assert (Hrow : lookup_feature feat_id
                   (set_features
                      (List.map (update_where feat_id status (Some phase)) (features w))
                      (features_seq w) w)
                 = Some (mk_Feature (feature_rowid f) (feature_id f)
                           (feature_project_id f) (feature_description f) status
                           phase (feature_created_at f))).
  { unfold lookup_feature. simpl. rewrite lookup_feature_map, H. reflexivity. }
  split; [exact Hrow|]. split.
  - rewrite get_feature_eq, Hrow. reflexivity.
  - split; [|reflexivity]. intros g Hg. unfold lookup_feature. simpl.
    now apply lookup_feature_map_other.
Qed.

Lemma update_feature_status_then_get_witness :
  lookup_feature "FEAT-20260129-001" sample_world_later =
    Some (mk_Feature 1 "FEAT-20260129-001" 1 "add login" DRAFT REQUIREMENTS sample_now) /\
  exists w',
    update_feature_status "FEAT-20260129-001" IN_PROGRESS (Some DESIGN)
      sample_world_later = (Return true, w') /\
    lookup_feature "FEAT-20260129-001" w' =
      Some (mk_Feature 1 "FEAT-20260129-001" 1 "add login" IN_PROGRESS DESIGN
              sample_now) /\
    get_feature "FEAT-20260129-001" w' =
      (Return (Some (mk_Feature 1 "FEAT-20260129-001" 1 "add login" IN_PROGRESS
                       DESIGN sample_later)), w') /\
    (forall g, g <> "FEAT-20260129-001" ->
               lookup_feature g w' = lookup_feature g sample_world_later) /\
    files w' = files sample_world_later.
Proof.
  split; [reflexivity|].
  exact (update_feature_status_then_get "FEAT-20260129-001" IN_PROGRESS DESIGN
           sample_world_later
           (mk_Feature 1 "FEAT-20260129-001" 1 "add login" DRAFT REQUIREMENTS
              sample_now) eq_refl).
Defined.

(** ** The project table *)

Lemma NoDup_snoc {A} (l : list A) (x : A) :
  NoDup l -> ~ In x l -> NoDup (l ++ [x]).
Proof.
  intros Hl Hx. apply NoDup_app. split; [exact Hl|]. split; [|apply NoDup_singleton].
  intros y Hy Hyx. apply list_elem_of_singleton in Hyx. subst y.
  apply Hx. now apply list_elem_of_In.
Qed.

Lemma find_named_none_notin name ps :
  find (named name) ps = None -> ~ In name (List.map project_name ps).
Proof.
  induction ps as [|r ps IH]; simpl; [tauto|].
  unfold named at 1. destruct (String.eqb_spec (project_name r) name) as [E|E];
    [discriminate|]. intros H [H'|H']; [contradiction | now apply IH].
Qed.

Lemma find_unique_id (ps : list Project) (r : Project) :
  NoDup (List.map project_id ps) -> In r ps ->
  find (fun x => Nat.eqb (project_id x) (project_id r)) ps = Some r.
Proof.
  induction ps as [|x ps IH]; simpl; intros Hnd Hin; [contradiction|].
  apply NoDup_cons in Hnd. destruct Hnd as [Hx Hnd].
  destruct Hin as [->|Hin]; [now rewrite Nat.eqb_refl|].
  destruct (Nat.eqb_spec (project_id x) (project_id r)) as [E|E]; [|now apply IH].
  exfalso. apply Hx. rewrite E. apply list_elem_of_In. now apply in_map.
Qed.

(** X11. [register_project] keeps the table [projects] well formed
    (distinct names, distinct ids, no id above the last rowid), never
    raises, and returns a project with the given name that [get_project]
    finds by this name and [get_project_by_id] by its id. *)
Theorem register_project_registered name path w :
  projects_wf w ->
  exists proj w',
    register_project name path w = (Return proj, w') /\
    projects_wf w' /\
    project_name proj = name /\
    get_project name w' = (Return (Some proj), w') /\
    get_project_by_id (project_id proj) w' = (Return (Some proj), w').
Proof.
  intros (Hnames & Hids & Hseq).
  destruct (find (named name) (projects w)) as [r|] eqn:Hfind.
  - exists r, w. split; [now apply register_project_existing|].
    split; [repeat split; assumption|].
    pose proof (find_some _ _ Hfind) as [Hin Hname].
    apply String.eqb_eq in Hname.
    split; [exact Hname|]. split.
    + unfold get_project, gets. fold (named name). now rewrite Hfind.
    + unfold get_project_by_id, gets. now rewrite (find_unique_id _ _ Hids Hin).
  - exists (mk_Project (S (projects_seq w)) name path ACTIVE).
    eexists. split.
    + unfold register_project, bind, gets. fold (named name). rewrite Hfind.
      reflexivity.
    + assert (Hfresh : ~ In (S (projects_seq w)) (List.map project_id (projects w))).
      { intros Hin. apply in_map_iff in Hin. destruct Hin as (r & E & Hin).
        rewrite List.Forall_forall in Hseq. specialize (Hseq r Hin). lia. }
      assert (Hwf : projects_wf
                (set_projects
                   (projects w ++ [mk_Project (S (projects_seq w)) name path ACTIVE])
                   (S (projects_seq w)) w)).
      { unfold projects_wf. simpl. rewrite !List.map_app. simpl.
        split; [apply NoDup_snoc; [assumption | now apply find_named_none_notin]|].
        split; [apply NoDup_snoc; assumption|].
        apply List.Forall_app. split.
        - eapply List.Forall_impl; [|exact Hseq]. simpl. intros; lia.
        - constructor; [simpl; lia | constructor]. }
      split; [exact Hwf|]. split; [reflexivity|]. split.
      * unfold get_project, gets. simpl. fold (named name).
        now rewrite (find_named_app_new name _ _ path Hfind).
      * unfold get_project_by_id, gets.
        destruct Hwf as (_ & Hids' & _).
        rewrite (find_unique_id _ (mk_Project (S (projects_seq w)) name path ACTIVE)
                   Hids'); [reflexivity|].
        simpl. apply in_app_iff. right. now left.
Qed.

Lemma empty_world_projects_wf : projects_wf (empty_world sample_now).
Proof. repeat split; constructor. Defined.

Lemma register_project_registered_witness :
  projects_wf (empty_world sample_now) /\
  exists proj w',
    register_project "demo" "/projects/demo" (empty_world sample_now)
      = (Return proj, w') /\
    projects_wf w' /\
    project_name proj = "demo" /\
    get_project "demo" w' = (Return (Some proj), w') /\
    get_project_by_id (project_id proj) w' = (Return (Some proj), w').
Proof.
  split; [exact empty_world_projects_wf|].
  exact (register_project_registered "demo" "/projects/demo"
           (empty_world sample_now) empty_world_projects_wf).
Defined.

(** ** Identifiers of successive calls *)

Lemma uint_of_string_zeros (k : nat) (s : string) (d : Decimal.uint) :
  NilEmpty.uint_of_string s = Some d ->
  NilEmpty.uint_of_string (zeros k +:+ s) = Some (Nat.iter k Decimal.D0 d).
Proof.
  intros H. induction k as [|k IH]; simpl; [exact H|]. now rewrite IH.
Qed.

Lemma of_uint_zeros (k : nat) (d : Decimal.uint) :
  N.of_uint (Nat.iter k Decimal.D0 d) = N.of_uint d.
Proof. induction k as [|k IH]; simpl; [reflexivity | exact IH]. Qed.

(** The number printed by [format_0d] can be read back, whatever the
    padding. *)
Lemma parse_decimal_format_0d (w : nat) (n : N) :
  parse_decimal (format_0d w n) = Some n.
Proof.
  unfold parse_decimal, format_0d, str_of_N. cbv zeta.
  rewrite (uint_of_string_zeros _ _ _ (NilEmpty.usu (N.to_uint n))). simpl.
  now rewrite of_uint_zeros, DecimalN.Unsigned.of_to.
Qed.

Lemma format_0d_inj (w : nat) (n m : N) : format_0d w n = format_0d w m -> n = m.
Proof.
  intros H. apply (f_equal parse_decimal) in H.
  rewrite !parse_decimal_format_0d in H. now injection H.
Qed.

(** X12. Two calls of [generate_feat_id] made one after the other both
    return, and they return different identifiers, also when the counter
    has passed 999. *)
Theorem generate_feat_id_distinct (w : World) :
  exists id1 w1 id2 w2,
    generate_feat_id w = (Return id1, w1) /\
    generate_feat_id w1 = (Return id2, w2) /\
    id1 <> id2.
Proof.
  assert (Hstep : forall w0, exists n w0',
             get_next_feature_number w0 = (Return n, w0') /\
             clock w0' = clock w0 /\
             feature_counter w0' !! strftime_Ymd (clock w0) = Some n /\
             (n <> 0)%N).
  { intros w0.
    destruct (feature_counter w0 !! strftime_Ymd (clock w0)) as [c|] eqn:Hc.
    - rewrite (get_next_feature_number_row w0 c Hc). eexists _, _.
      split; [reflexivity|]. simpl. rewrite lookup_insert_eq.
      repeat split. lia.
    - rewrite (get_next_feature_number_fresh w0 Hc). eexists _, _.
      split; [reflexivity|]. simpl. rewrite lookup_insert_eq.
      repeat split. lia. }
  destruct (Hstep w) as (n1 & w1 & E1 & C1 & R1 & _).
  rewrite <- C1 in R1.
  exists ("FEAT-" +:+ strftime_Ymd (clock w) +:+ "-" +:+ format_0d 3 n1), w1.
  exists ("FEAT-" +:+ strftime_Ymd (clock w) +:+ "-" +:+ format_0d 3 (n1 + 1)).
  eexists. split; [rewrite generate_feat_id_eq, E1; reflexivity|]. split.
  - rewrite generate_feat_id_eq, (get_next_feature_number_row w1 n1 R1), C1.
    reflexivity.
  - intros E. apply String.app_inj in E. apply String.app_inj in E.
    apply String.app_inj in E. apply format_0d_inj in E. lia.
Qed.

(** ** The log of a feature *)

Lemma log_message_full feat_id message level w :
  log_message feat_id message level w =
  (Return tt,
   mk_World (projects w) (projects_seq w) (features w) (features_seq w)
     (logs w ++ [mk_LogEntry (S (logs_seq w)) feat_id (clock w) message level])
     (S (logs_seq w)) (feature_counter w) (files w)
     (<[feat_id := default [] (log_queues w !! feat_id) ++ [(message, level)]]>
        (log_queues w))
     (clock w)).
Proof.
  unfold log_message, add_log, get_log_queue, queue_put, bind, utcnow, gets,
    modify, ret. simpl.
  destruct (log_queues w !! feat_id) as [q|] eqn:Hq; simpl;
    unfold set_log_queues, set_logs; simpl; do 2 f_equal.
  - apply map_eq. intros k. rewrite lookup_alter, lookup_insert.
    repeat case_decide; subst; try congruence; rewrite ?Hq; reflexivity.
  - apply map_eq. intros k. rewrite lookup_alter, !lookup_insert.
    repeat case_decide; subst; try congruence; reflexivity.
Qed.

(** X13. Two messages logged for a feature reach its queue in the order in
    which they were logged, behind what the queue already held (the queue
    is created on first use); the queues of the other features are
    untouched; the log table receives the two entries in the same order;
    specs and registry rows are untouched. *)
Theorem log_message_order feat_id m1 l1 m2 l2 w :
  exists w2,
    (log_message feat_id m1 l1 ;;; log_message feat_id m2 l2) w = (Return tt, w2) /\
    log_queues w2 !! feat_id =
      Some (default [] (log_queues w !! feat_id) ++ [(m1, l1); (m2, l2)]) /\
    (forall g, g <> feat_id -> log_queues w2 !! g = log_queues w !! g) /\
    logs w2 = logs w ++
      [mk_LogEntry (S (logs_seq w)) feat_id (clock w) m1 l1;
       mk_LogEntry (S (S (logs_seq w))) feat_id (clock w) m2 l2] /\
    files w2 = files w /\ features w2 = features w.
Proof.
  eexists. split.
  - rewrite (bind_eq _ _ _ _ _ (log_message_full feat_id m1 l1 w)).
    apply log_message_full.
  - simpl. split; [|split; [|split; [|split; reflexivity]]].
    + rewrite !lookup_insert_eq. simpl. now rewrite <- app_assoc.
    + intros g Hg. now rewrite !lookup_insert_ne by congruence.
    + now rewrite <- app_assoc.
Qed.

(** ** Phases and runs *)

Section RunProperties.

Variable kickoff : Agent -> string -> string -> outcome string.

(** X14. When the executor raises, [execute_phase] raises the same error
    having written one log entry and nothing else: no spec file is created
    or changed and the feature rows keep their status and phase. *)
Theorem execute_phase_failure feat_id project_name phase agent description
    context_content auto_approve e w :
  kickoff agent description
    ("Structured " +:+ WorkflowPhase_value phase +:+ " specification") = Raise e ->
  exists w',
    execute_phase kickoff feat_id project_name phase agent description
      context_content auto_approve w = (Raise e, w') /\
    files w' = files w /\ features w' = features w /\
    logs w' = logs w ++
      [mk_LogEntry (S (logs_seq w)) feat_id (clock w)
         ("Executing phase: " +:+ WorkflowPhase_value phase) "info"].
Proof.
  intros H. unfold execute_phase.
  rewrite (bind_eq _ _ _ _ _ (log_message_full _ _ _ w)).
  unfold bind at 1, run_crew. rewrite H.
  eexists. split; [reflexivity|]. repeat split.
Qed.

Lemma run_frame_refl feat_id w : run_frame feat_id w w.
Proof. repeat split. exists []. now rewrite app_nil_r. Qed.

Lemma run_frame_trans feat_id w1 w2 w3 :
  run_frame feat_id w1 w2 -> run_frame feat_id w2 w3 -> run_frame feat_id w1 w3.
Proof.
  intros (P1 & S1 & K1 & C1 & I1 & F1 & Q1 & (n1 & L1))
         (P2 & S2 & K2 & C2 & I2 & F2 & Q2 & (n2 & L2)).
  repeat split; try congruence.
  - intros g Hg. rewrite (F2 g Hg). now apply F1.
  - intros g Hg. rewrite (Q2 g Hg). now apply Q1.
  - exists (n1 ++ n2). rewrite L2, L1. now rewrite app_assoc.
Qed.

Lemma preserves_bind feat_id {A B} (c : M A) (k : A -> M B) :
  preserves (run_frame feat_id) c ->
  (forall a, preserves (run_frame feat_id) (k a)) ->
  preserves (run_frame feat_id) (bind c k).
Proof.
  intros Hc Hk w. unfold bind. specialize (Hc w).
  destruct (c w) as [[a|e] w1]; simpl in *; [|exact Hc].
  eapply run_frame_trans; [exact Hc | apply Hk].
Qed.

Lemma preserves_ret feat_id {A} (a : A) : preserves (run_frame feat_id) (ret a).
Proof. intros w. apply run_frame_refl. Qed.

Lemma preserves_log_message feat_id message level :
  preserves (run_frame feat_id) (log_message feat_id message level).
Proof.
  intros w. rewrite log_message_full. simpl. repeat split.
  - intros g Hg. simpl. now rewrite lookup_insert_ne by congruence.
  - eexists. reflexivity.
Qed.

Lemma preserves_update_feature_status feat_id status phase :
  preserves (run_frame feat_id) (update_feature_status feat_id status phase).
Proof.
  intros w. rewrite update_feature_status_eq. simpl. repeat split.
  - simpl. rewrite List.map_map. apply List.map_ext.
    intros f. apply update_where_feature_id.
  - intros g Hg. unfold lookup_feature. simpl. now apply lookup_feature_map_other.
  - exists []. simpl. now rewrite app_nil_r.
Qed.

Lemma preserves_write_phase_spec feat_id project_name phase content status deps :
  preserves (run_frame feat_id)
    (write_phase_spec project_name feat_id phase content status deps).
Proof. intros w. simpl. repeat split. exists []. simpl. now rewrite app_nil_r. Qed.

Lemma preserves_update_phase_status feat_id project_name phase status comment user :
  preserves (run_frame feat_id)
    (update_phase_status project_name feat_id phase status comment user).
Proof.
  intros w. unfold update_phase_status, bind.
  pose proof (read_phase_spec_pure project_name feat_id phase w) as Hw.
  destruct (read_phase_spec project_name feat_id phase w) as [[[spec|]|e] w1];
    simpl in Hw; subst w1; simpl; try apply run_frame_refl.
  repeat split. exists []. simpl. now rewrite app_nil_r.
Qed.

Lemma preserves_execute_phase feat_id project_name phase agent description
    context_content auto_approve :
  preserves (run_frame feat_id)
    (execute_phase kickoff feat_id project_name phase agent description
       context_content auto_approve).
Proof.
  unfold execute_phase.
  apply preserves_bind; [apply preserves_log_message | intros _].
  apply preserves_bind; [intros w; apply run_frame_refl | intros content].
  apply preserves_bind; [apply preserves_log_message | intros _].
  apply preserves_bind; [apply preserves_write_phase_spec | intros _].
  apply preserves_bind; [apply preserves_log_message | intros _].
  apply preserves_bind; [apply preserves_update_feature_status | intros _].
  apply preserves_bind; [|intros _; apply preserves_ret].
  destruct auto_approve; [|apply preserves_ret].
  apply preserves_bind; [apply preserves_update_phase_status | intros _].
  apply preserves_ret.
Qed.

Ltac frame_step :=
  first
    [ apply preserves_ret
    | apply preserves_log_message
    | apply preserves_update_feature_status
    | apply preserves_execute_phase
    | apply preserves_bind; [|intros ?] ].

(** X15. A run of the workflow for one feature, whether it succeeds or
    fails, leaves alone the projects, the day counters, the identifiers of
    all feature rows, the rows and the queues of every other feature; it
    only appends to the log table. *)
Theorem run_workflow_frame feat_id project_name description proj_id auto_approve w :
  run_frame feat_id w
    (snd (run_workflow kickoff feat_id project_name description proj_id
            auto_approve w)).
Proof.
  revert w. change (preserves (run_frame feat_id)
    (run_workflow kickoff feat_id project_name description proj_id auto_approve)).
  unfold run_workflow.
  apply preserves_bind; [apply preserves_log_message | intros _].
  assert (Hbody : preserves (run_frame feat_id)
            (run_workflow_body kickoff feat_id project_name description proj_id
               auto_approve)).
  { unfold run_workflow_body. cbv zeta. repeat frame_step. }
  assert (Hhandler : forall e, preserves (run_frame feat_id)
            (run_workflow_handler feat_id e)).
  { intros e. unfold run_workflow_handler. cbv zeta. repeat frame_step. }
  intros w. unfold try_except. specialize (Hbody w).
  destruct (run_workflow_body _ _ _ _ _ _ w) as [[r|e] w1]; simpl in *;
    [exact Hbody|].
  eapply run_frame_trans; [exact Hbody | apply Hhandler].
Qed.

End RunProperties.

Lemma execute_phase_failure_witness :
  failing_executor SoftwareArchitect "design it"
    ("Structured " +:+ WorkflowPhase_value DESIGN +:+ " specification")
    = Raise "LLM request failed" /\
  exists w',
    execute_phase failing_executor "FEAT-20260129-001" "demo" DESIGN
      SoftwareArchitect "design it" "" true sample_spec_world
      = (Raise "LLM request failed", w') /\
    files w' = files sample_spec_world /\
    features w' = features sample_spec_world /\
    logs w' = logs sample_spec_world ++
      [mk_LogEntry (S (logs_seq sample_spec_world)) "FEAT-20260129-001"
         (clock sample_spec_world)
         ("Executing phase: " +:+ WorkflowPhase_value DESIGN) "info"].
Proof.
  split; [reflexivity|].
  exact (execute_phase_failure failing_executor "FEAT-20260129-001" "demo" DESIGN
           SoftwareArchitect "design it" "" true "LLM request failed"
           sample_spec_world eq_refl).
Defined.

(** ** The workflow manager *)

Lemma dict_set_running (self : WorkflowManager) key project_name description g :
  In g (list_running self) ->
  In g (list_running
          (dict_set key (mk_workflow_marker "running" project_name description) self)).
Proof.
  unfold list_running. induction self as [|[k v] rest IH]; simpl; [tauto|].
  destruct (String.eqb k key) eqn:Ek; simpl.
  - destruct (String.eqb (marker_status v) "running"); simpl; tauto.
  - destruct (String.eqb (marker_status v) "running"); simpl; tauto.
Qed.

Lemma dict_set_listed (self : WorkflowManager) key project_name description :
  In key (list_running
            (dict_set key (mk_workflow_marker "running" project_name description) self)).
Proof.
  unfold list_running. induction self as [|[k v] rest IH]; simpl; [now left|].
  destruct (String.eqb_spec k key) as [->|Hk]; simpl; [now left|].
  destruct (String.eqb (marker_status v) "running"); simpl; tauto.
Qed.

(** X18. [WorkflowManager.start] lists the feature as running, keeps every
    feature that was listed as running, and hands to the thread exactly
    [run_workflow] with the arguments it was given. *)
Theorem manager_start_running kickoff (self : WorkflowManager)
    feat_id project_name description proj_id auto_approve :
  let (self', thread) :=
    manager_start kickoff self feat_id project_name description proj_id
      auto_approve in
  In feat_id (list_running self') /\
  (forall g, In g (list_running self) -> In g (list_running self')) /\
  thread = run_workflow kickoff feat_id project_name description proj_id
             auto_approve.
Proof.
  unfold manager_start. split; [apply dict_set_listed|].
  split; [|reflexivity]. intros g. apply dict_set_running.
Qed.

(** [get_status] answers from the registry alone, whatever was started. *)
Lemma get_status_registry feat_id w :
  get_status feat_id w =
  (Return
     (option_map
        (fun f => (feat_id, PhaseStatus_value (feature_status f),
                   WorkflowPhase_value (feature_current_phase f)))
        (lookup_feature feat_id w)), w).
Proof.
  unfold get_status, get_feature, bind, gets, lookup_feature.
  destruct (find _ (features w)); reflexivity.
Qed.

(** ** The approval endpoint *)

(** X19. For a registered feature of a registered project, an action
    "approve" or "reject" and a phase whose spec can be read, [approve_spec]
    answers with success; the spec then has the status APPROVED or REJECTED
    and one more approval record, by "dashboard" with the comment.  The
    feature rows keep their status and phase, the queue of the feature
    receives nothing, and the log table receives one entry. *)
Theorem approve_spec_updates feat_id phase action comment w f proj new_status spec :
  lookup_feature feat_id w = Some f ->
  find (fun r => Nat.eqb (project_id r) (feature_project_id f)) (projects w)
    = Some proj ->
  action_status action = Some new_status ->
  read_phase_spec (project_name proj) feat_id phase w = (Return (Some spec), w) ->
  exists w',
    approve_spec feat_id phase action comment w =
      (Return (Response (mk_ApproveSpecResponse true
                 ("Phase " +:+ WorkflowPhase_value phase +:+ " " +:+ action
                    +:+ "d successfully"))), w') /\
    read_phase_spec (project_name proj) feat_id phase w' =
      (Return (Some (mk_SpecPhase (spec_feature_id spec) (spec_phase spec)
                       new_status (spec_content spec)
                       (spec_approvals spec
                          ++ [mk_Approval "dashboard" (clock w) comment])
                       (spec_dependencies spec) (spec_created_at spec) (clock w))),
       w') /\
    features w' = features w /\
    log_queues w' = log_queues w /\
    logs w' = logs w ++
      [mk_LogEntry (S (logs_seq w)) feat_id (clock w)
         ("Phase " +:+ WorkflowPhase_value phase +:+ " " +:+ action +:+ "d: "
            +:+ comment) "info"].
Proof.
  intros Hf Hp Ha Hr.
  unfold approve_spec, get_project_by_id.
  rewrite (bind_eq _ _ _ _ _ (get_feature_eq feat_id w)), Hf.
  cbn [option_map Feature_of_row feature_project_id].
  unfold bind at 1, gets at 1. rewrite Hp. rewrite Ha.
  unfold update_phase_status. unfold bind at 1. unfold bind at 1. rewrite Hr.
  unfold bind, utcnow, gets, modify, ret, add_log. simpl.
  eexists. split; [reflexivity|]. simpl.
  split; [|repeat split].
  apply read_phase_spec_stored. simpl. apply lookup_insert_eq.
Qed.

Lemma sample_spec_world_feature :
  lookup_feature "FEAT-20260129-001" sample_spec_world =
  Some (mk_Feature 1 "FEAT-20260129-001" 1 "add login" DRAFT REQUIREMENTS sample_now).
Proof. reflexivity. Defined.

Lemma approve_spec_updates_witness :
  lookup_feature "FEAT-20260129-001" sample_spec_world =
    Some (mk_Feature 1 "FEAT-20260129-001" 1 "add login" DRAFT REQUIREMENTS sample_now) /\
  find (fun r => Nat.eqb (project_id r) 1) (projects sample_spec_world)
    = Some (mk_Project 1 "demo" "/projects/demo" ACTIVE) /\
  action_status "approve" = Some APPROVED /\
  read_phase_spec "demo" "FEAT-20260129-001" REQUIREMENTS sample_spec_world
    = (Return (Some sample_spec), sample_spec_world) /\
  exists w',
    approve_spec "FEAT-20260129-001" REQUIREMENTS "approve" "ok" sample_spec_world =
      (Return (Response (mk_ApproveSpecResponse true
                 ("Phase " +:+ WorkflowPhase_value REQUIREMENTS +:+ " " +:+ "approve"
                    +:+ "d successfully"))), w') /\
    read_phase_spec "demo" "FEAT-20260129-001" REQUIREMENTS w' =
      (Return (Some (mk_SpecPhase (spec_feature_id sample_spec)
                       (spec_phase sample_spec) APPROVED (spec_content sample_spec)
                       (spec_approvals sample_spec
                          ++ [mk_Approval "dashboard" (clock sample_spec_world) "ok"])
                       (spec_dependencies sample_spec) (spec_created_at sample_spec)
                       (clock sample_spec_world))), w') /\
    features w' = features sample_spec_world /\
    log_queues w' = log_queues sample_spec_world /\
    logs w' = logs sample_spec_world ++
      [mk_LogEntry (S (logs_seq sample_spec_world)) "FEAT-20260129-001"
         (clock sample_spec_world)
         ("Phase " +:+ WorkflowPhase_value REQUIREMENTS +:+ " " +:+ "approve"
            +:+ "d: " +:+ "ok") "info"].
Proof.
  split; [reflexivity|]. split; [reflexivity|]. split; [reflexivity|].
  split; [exact sample_spec_world_read|].
  exact (approve_spec_updates "FEAT-20260129-001" REQUIREMENTS "approve" "ok"
           sample_spec_world
           (mk_Feature 1 "FEAT-20260129-001" 1 "add login" DRAFT REQUIREMENTS
              sample_now)
           (mk_Project 1 "demo" "/projects/demo" ACTIVE) APPROVED sample_spec
           eq_refl eq_refl eq_refl sample_spec_world_read).
Defined.

(** X20. Whenever [approve_spec] answers with an [HTTPException], the
    status code is 404 or 400 and the world is exactly as it was: unknown
    feature, unknown project, invalid action and missing spec are all
    refused before anything is written. *)
Theorem approve_spec_refused feat_id phase action comment w code detail w' :
  approve_spec feat_id phase action comment w = (Return (HTTPException code detail), w') ->
  w' = w /\ (code = 404 \/ code = 400).
Proof.
  unfold approve_spec, get_project_by_id.
  rewrite (bind_eq _ _ _ _ _ (get_feature_eq feat_id w)).
  destruct (lookup_feature feat_id w) as [f|]; cbn [option_map];
    [|intros H; injection H as <- _ <-; tauto].
  unfold bind at 1, gets at 1.
  destruct (find _ (projects w)) as [proj|];
    [|intros H; injection H as <- _ <-; tauto].
  destruct (action_status action) as [st|];
    [|intros H; injection H as <- _ <-; tauto].
  unfold bind at 1.
  destruct (update_phase_status (project_name proj) feat_id phase st comment
              "dashboard" w) as [[[sp|]|e] w1] eqn:Hu.
  - unfold bind, add_log, utcnow, gets, modify, ret. simpl. discriminate.
  - intros H. injection H as <- _ <-. split; [|tauto].
    revert Hu. unfold update_phase_status, bind.
    pose proof (read_phase_spec_pure (project_name proj) feat_id phase w) as Hw.
    destruct (read_phase_spec (project_name proj) feat_id phase w)
      as [[[spec|]|e] w2]; simpl in Hw; subst w2; simpl; intros Hu;
      [discriminate Hu | now injection Hu | discriminate Hu].
  - discriminate.
Qed.

Lemma approve_spec_refused_witness :
  approve_spec "FEAT-20260129-001" DESIGN "approve" "ok" sample_spec_world
    = (Return (HTTPException 404 "Phase spec not found"), sample_spec_world) /\
  sample_spec_world = sample_spec_world /\ (404 = 404 \/ 404 = 400).
Proof.
  assert (H : approve_spec "FEAT-20260129-001" DESIGN "approve" "ok" sample_spec_world
              = (Return (HTTPException 404 "Phase spec not found"), sample_spec_world)).
  { unfold approve_spec, get_project_by_id.
    rewrite (bind_eq _ _ _ _ _
               (get_feature_eq "FEAT-20260129-001" sample_spec_world)).
    rewrite sample_spec_world_feature.
    cbn [option_map Feature_of_row feature_project_id].
    unfold bind at 1, gets at 1.
    change (find (fun r => Nat.eqb (project_id r) 1) (projects sample_spec_world))
      with (Some (mk_Project 1 "demo" "/projects/demo" ACTIVE)).
    change (action_status "approve") with (Some APPROVED). cbv iota beta.
    assert (Hnone : read_phase_spec "demo" "FEAT-20260129-001" DESIGN
                      sample_spec_world = (Return None, sample_spec_world)).
    { apply read_phase_spec_absent. simpl.
      rewrite lookup_insert_ne; [reflexivity|].
      intros E. apply get_phase_file_inj in E. discriminate E. }
    cbn [project_name]. unfold update_phase_status.
    unfold bind at 1. unfold bind at 1. rewrite Hnone. reflexivity. }
  split; [exact H|].
  exact (approve_spec_refused "FEAT-20260129-001" DESIGN "approve" "ok"
           sample_spec_world 404 "Phase spec not found" sample_spec_world H).
Defined.

(** ** Starting a workflow *)

Lemma generate_feat_id_next (w : World) :
  generate_feat_id w =
  (Return (next_feat_id w),
   set_feature_counter
     (<[strftime_Ymd (clock w) := next_number w]> (feature_counter w)) w).
Proof.
  rewrite generate_feat_id_eq. unfold next_feat_id, next_number.
  destruct (feature_counter w !! strftime_Ymd (clock w)) as [c|] eqn:Hc.
  - now rewrite (get_next_feature_number_row w c Hc).
  - now rewrite (get_next_feature_number_fresh w Hc).
Qed.

Section ServerProperties.

Variable kickoff : Agent -> string -> string -> outcome string.

(** What [start_workflow] does when the next identifier of the day has no
    feature row yet. *)
Lemma start_workflow_fresh (manager : WorkflowManager) project feature_desc
    auto_approve w :
  lookup_feature (next_feat_id w) w = None ->
  exists proj w1,
    start_workflow kickoff manager project feature_desc auto_approve w =
      (Return
         (dict_set (next_feat_id w)
            (mk_workflow_marker "running" project feature_desc) manager,
          run_workflow kickoff (next_feat_id w) project feature_desc
            (project_id proj) auto_approve,
          mk_StartWorkflowResponse (next_feat_id w)
            ("Workflow started for " +:+ project)), w1) /\
    project_name proj = project /\
    find (named project) (projects w1) = Some proj /\
    lookup_feature (next_feat_id w) w1 =
      Some (mk_Feature (S (features_seq w)) (next_feat_id w) (project_id proj)
              feature_desc DRAFT REQUIREMENTS (clock w)) /\
    feature_counter w1 !! strftime_Ymd (clock w) = Some (next_number w) /\
    files w1 = files w /\ clock w1 = clock w.
Proof.
  intros Hfresh.
  assert (Hproj : exists proj wa,
            match find (named project) (projects w) with
            | Some p => ret p
            | None => register_project project ("/projects/" +:+ project)
            end w = (Return proj, wa) /\
            project_name proj = project /\
            find (named project) (projects wa) = Some proj /\
            features wa = features w /\ features_seq wa = features_seq w /\
            feature_counter wa = feature_counter w /\ clock wa = clock w /\
            files wa = files w).
  { destruct (find (named project) (projects w)) as [p|] eqn:Hfind.
    - exists p, w. split; [reflexivity|].
      pose proof (find_some _ _ Hfind) as [_ Hname]. apply String.eqb_eq in Hname.
      repeat split; assumption.
    - eexists _, _. split.
      + unfold register_project, bind, gets. fold (named project). rewrite Hfind.
        reflexivity.
      + simpl. split; [reflexivity|].
        split; [now apply find_named_app_new | repeat split]. }
  destruct Hproj as (proj & wa & Ea & Hname & Hfind & Hfeat & Hseq & Hcount & Hclock & Hfiles).
  assert (Hid : next_feat_id wa = next_feat_id w).
  { unfold next_feat_id, next_number. now rewrite Hcount, Hclock. }
  exists proj. eexists. split.
  - unfold start_workflow, get_project. unfold bind at 1, gets at 1.
    fold (named project). rewrite (bind_eq _ _ _ _ _ Ea).
    rewrite (bind_eq _ _ _ _ _ (generate_feat_id_next wa)). rewrite Hid.
    unfold bind at 1. unfold create_feature, bind at 1, gets at 1. simpl.
    rewrite existsb_find, Hfeat. unfold lookup_feature in Hfresh. rewrite Hfresh.
    unfold bind, gets, utcnow, modify, ret. simpl. rewrite Hseq, Hclock.
    reflexivity.
  - simpl. split; [exact Hname|]. split; [exact Hfind|].
    split; [|split; [|split; [exact Hfiles | exact Hclock]]].
    + unfold lookup_feature. simpl. rewrite Hfeat, find_app_new.
      unfold lookup_feature in Hfresh. rewrite Hfresh. simpl.
      now rewrite String.eqb_refl.
    + rewrite lookup_insert_eq. unfold next_number.
      now rewrite Hcount, Hclock.
Qed.

(** X21. When the next identifier of the day has no feature row,
    [start_workflow] answers with that identifier; the project is then
    found by [get_project]; the feature row exists with status DRAFT, phase
    REQUIREMENTS and the id of that project; the thread receives
    [run_workflow] for this identifier and project id; the day counter
    holds the new number; the feature is listed as running; no spec file
    has been written yet. *)
Theorem start_workflow_creates (manager : WorkflowManager) project feature_desc
    auto_approve w :
  lookup_feature (next_feat_id w) w = None ->
  exists manager' thread proj w1,
    start_workflow kickoff manager project feature_desc auto_approve w =
      (Return (manager', thread,
               mk_StartWorkflowResponse (next_feat_id w)
                 ("Workflow started for " +:+ project)), w1) /\
    thread = run_workflow kickoff (next_feat_id w) project feature_desc
               (project_id proj) auto_approve /\
    In (next_feat_id w) (list_running manager') /\
    get_project project w1 = (Return (Some proj), w1) /\
    get_feature (next_feat_id w) w1 =
      (Return (Some (mk_Feature (S (features_seq w)) (next_feat_id w)
                       (project_id proj) feature_desc DRAFT REQUIREMENTS (clock w))),
       w1) /\
    feature_counter w1 !! strftime_Ymd (clock w) = Some (next_number w) /\
    files w1 = files w.
Proof.
  intros Hfresh.
  destruct (start_workflow_fresh manager project feature_desc auto_approve w Hfresh)
    as (proj & w1 & E & Hname & Hfind & Hfeat & Hcount & Hfiles & Hclock).
  eexists _, _, proj, w1. split; [exact E|]. split; [reflexivity|].
  split; [apply dict_set_listed|].
  split; [unfold get_project, gets; fold (named project); now rewrite Hfind|].
  split; [|split; assumption].
  rewrite get_feature_eq, Hfeat, Hclock. reflexivity.
Qed.

(** X22. From the request to the finished run: when [start_workflow] has
    answered and the run it handed to the thread, executed in the world the
    endpoint left, returns the success dictionary under auto-approval, the
    feature named in the answer has six COMPLETED specs, each with the two
    approval records by "system", and its row is COMPLETED in the phase
    REVIEW; the feature is still listed as running. *)
Theorem start_workflow_then_run (manager : WorkflowManager) project feature_desc w
    manager' thread response w1 fid status phases w2 :
  start_workflow kickoff manager project feature_desc true w =
    (Return (manager', thread, response), w1) ->
  thread w1 = (Return (WorkflowSuccess fid status phases), w2) ->
  run_completed project (response_feat_id response) COMPLETED
    (fun now => [mk_Approval "system" now "Auto-generated";
                 mk_Approval "system" now "Auto-approved"])
    w1 w2 /\
  In (response_feat_id response) (list_running manager').
Proof.
  intros Hstart Hrun.
  destruct (lookup_feature (next_feat_id w) w) as [f|] eqn:Hfresh.
  - exfalso. revert Hstart. unfold start_workflow, get_project.
    unfold bind at 1, gets at 1. fold (named project).
    assert (Hproj : exists proj wa,
              match find (named project) (projects w) with
              | Some p => ret p
              | None => register_project project ("/projects/" +:+ project)
              end w = (Return proj, wa) /\
              features wa = features w /\
              feature_counter wa = feature_counter w /\ clock wa = clock w).
    { destruct (find (named project) (projects w)) as [p|] eqn:Hfind.
      - exists p, w. repeat split.
      - eexists _, _. split.
        + unfold register_project, bind, gets. fold (named project).
          rewrite Hfind. reflexivity.
        + repeat split. }
    destruct Hproj as (proj & wa & Ea & Hfeat & Hcount & Hclock).
    rewrite (bind_eq _ _ _ _ _ Ea).
    rewrite (bind_eq _ _ _ _ _ (generate_feat_id_next wa)).
    assert (Hid : next_feat_id wa = next_feat_id w).
    { unfold next_feat_id, next_number. now rewrite Hcount, Hclock. }
    rewrite Hid. unfold bind at 1. unfold create_feature, bind at 1, gets at 1.
    simpl. rewrite existsb_find, Hfeat. unfold lookup_feature in Hfresh.
    rewrite Hfresh. unfold raise. discriminate.
  - destruct (start_workflow_fresh manager project feature_desc true w Hfresh)
      as (proj & w1' & E & _ & _ & Hfeat & _).
    rewrite E in Hstart. injection Hstart as <- <- <- <-.
    split; [|apply dict_set_listed].
    exact (successful_run_completed kickoff (next_feat_id w) project feature_desc
             (project_id proj) true w1' _ fid status phases w2 Hfeat Hrun).
Qed.

End ServerProperties.

Lemma start_workflow_creates_witness :
  lookup_feature (next_feat_id (empty_world sample_now)) (empty_world sample_now)
    = None /\
  exists manager' thread proj w1,
    start_workflow sample_executor new_manager "demo" "add login" true
      (empty_world sample_now) =
      (Return (manager', thread,
               mk_StartWorkflowResponse (next_feat_id (empty_world sample_now))
                 ("Workflow started for " +:+ "demo")), w1) /\
    thread = run_workflow sample_executor (next_feat_id (empty_world sample_now))
               "demo" "add login" (project_id proj) true /\
    In (next_feat_id (empty_world sample_now)) (list_running manager') /\
    get_project "demo" w1 = (Return (Some proj), w1) /\
    get_feature (next_feat_id (empty_world sample_now)) w1 =
      (Return (Some (mk_Feature (S (features_seq (empty_world sample_now)))
                       (next_feat_id (empty_world sample_now)) (project_id proj)
                       "add login" DRAFT REQUIREMENTS
                       (clock (empty_world sample_now)))), w1) /\
    feature_counter w1 !! strftime_Ymd (clock (empty_world sample_now))
      = Some (next_number (empty_world sample_now)) /\
    files w1 = files (empty_world sample_now).
Proof.
  split; [reflexivity|].
  exact (start_workflow_creates sample_executor new_manager "demo" "add login" true
           (empty_world sample_now) eq_refl).
Defined.

Lemma sample_started_eq :
  sample_started =
  (Return ([("FEAT-20260129-001", mk_workflow_marker "running" "demo" "add login")],
           run_workflow sample_executor "FEAT-20260129-001" "demo" "add login" 1 true,
           mk_StartWorkflowResponse "FEAT-20260129-001" "Workflow started for demo"),
   snd sample_started).
Proof.
  apply (eq_trans (surjective_pairing sample_started)).
  apply (f_equal (fun r => (r, snd sample_started))).
  reflexivity.
Defined.

Lemma sample_started_run_eq :
  sample_started_run =
  (Return (WorkflowSuccess "FEAT-20260129-001" "completed" (sample_phases "completed")),
   snd sample_started_run).
Proof.
  apply (eq_trans (surjective_pairing sample_started_run)).
  apply (f_equal (fun r => (r, snd sample_started_run))).
  vm_compute. reflexivity.
Defined.

Lemma start_workflow_then_run_witness :
  sample_started =
    (Return ([("FEAT-20260129-001", mk_workflow_marker "running" "demo" "add login")],
             run_workflow sample_executor "FEAT-20260129-001" "demo" "add login" 1 true,
             mk_StartWorkflowResponse "FEAT-20260129-001" "Workflow started for demo"),
     snd sample_started) /\
  sample_started_run =
    (Return (WorkflowSuccess "FEAT-20260129-001" "completed" (sample_phases "completed")),
     snd sample_started_run) /\
  run_completed "demo" "FEAT-20260129-001" COMPLETED
    (fun now => [mk_Approval "system" now "Auto-generated";
                 mk_Approval "system" now "Auto-approved"])
    (snd sample_started) (snd sample_started_run) /\
  In "FEAT-20260129-001"
    (list_running
       [("FEAT-20260129-001", mk_workflow_marker "running" "demo" "add login")]).
Proof.
  split; [exact sample_started_eq|]. split; [exact sample_started_run_eq|].
  exact (start_workflow_then_run sample_executor new_manager "demo" "add login"
           (empty_world sample_now)
           [("FEAT-20260129-001", mk_workflow_marker "running" "demo" "add login")]
           (run_workflow sample_executor "FEAT-20260129-001" "demo" "add login" 1 true)
           (mk_StartWorkflowResponse "FEAT-20260129-001" "Workflow started for demo")
           (snd sample_started) "FEAT-20260129-001" "completed"
           (sample_phases "completed") (snd sample_started_run)
           sample_started_eq sample_started_run_eq).
Defined.

(** ** Identifiers: validation and generation together *)

Section CodePointProperties.

Variable decimal_digit : N -> bool.

Ltac next_code_point H s :=
  destruct s as [|? s]; simpl in H; [discriminate H|];
  apply andb_true_iff in H; destruct H as [? H].

Lemma well_formed_of_code_points x1 x2 x3 x4 x5 x6 x7 x8 y1 y2 y3 :
  decimal_digit x1 = true -> decimal_digit x2 = true ->
  decimal_digit x3 = true -> decimal_digit x4 = true ->
  decimal_digit x5 = true -> decimal_digit x6 = true ->
  decimal_digit x7 = true -> decimal_digit x8 = true ->
  decimal_digit y1 = true -> decimal_digit y2 = true ->
  decimal_digit y3 = true ->
  CodePoints.well_formed_feature_id decimal_digit
    (CodePoints.code_points "FEAT-" ++ [x1; x2; x3; x4; x5; x6; x7; x8]
       ++ CodePoints.code_points "-" ++ [y1; y2; y3]).
Proof.
  intros H1 H2 H3 H4 H5 H6 H7 H8 K1 K2 K3.
  exists [x1; x2; x3; x4; x5; x6; x7; x8], [y1; y2; y3].
  cbn [forallb length].
  rewrite H1, H2, H3, H4, H5, H6, H7, H8, K1, K2, K3.
  repeat split.
Qed.

(** What [validate_feature_id] accepts among all sequences of code
    points. *)
Lemma validate_feature_id_accepts_code_points (s : list N) :
  CodePoints.validate_feature_id decimal_digit s = true <->
  CodePoints.well_formed_feature_id decimal_digit s \/
  exists s0, CodePoints.well_formed_feature_id decimal_digit s0 /\ s = s0 ++ [10%N].
Proof.
  split.
  - unfold CodePoints.validate_feature_id, CodePoints.re_match. intros H.
    simpl in H.
    do 5 next_code_point H s.
    repeat match goal with
           | E : N.eqb _ _ = true |- _ => apply N.eqb_eq in E; subst
           end.
    do 8 next_code_point H s.
    next_code_point H s.
    match goal with
    | E : N.eqb _ _ = true |- _ => apply N.eqb_eq in E; subst
    end.
    do 3 next_code_point H s.
    apply andb_true_iff in H. destruct H as [H _].
    pose proof (well_formed_of_code_points _ _ _ _ _ _ _ _ _ _ _
                  H0 H1 H2 H3 H4 H5 H6 H7 H8 H9 H10) as Hwf.
    destruct s as [|c [|c' s]]; simpl in H.
    + left. exact Hwf.
    + right. apply N.eqb_eq in H. subst c.
      eexists. split; [exact Hwf | reflexivity].
    + discriminate H.
  - assert (Hok : forall s0 tl,
                CodePoints.well_formed_feature_id decimal_digit s0 ->
                CodePoints.at_eol tl = true ->
                CodePoints.validate_feature_id decimal_digit (s0 ++ tl) = true).
    { intros s0 tl (date & seq & -> & Hd & Hdd & Hs & Hsd) Htl.
      do 9 (destruct date as [|? date]; try discriminate Hd).
      do 4 (destruct seq as [|? seq]; try discriminate Hs).
      simpl in Hdd, Hsd.
      repeat match goal with
             | E : _ && _ = true |- _ =>
                 apply andb_true_iff in E; destruct E as [? E]
             end.
      unfold CodePoints.validate_feature_id, CodePoints.re_match. simpl.
      repeat match goal with
             | E : decimal_digit _ = true |- _ => rewrite E; clear E
             end.
      simpl. rewrite Htl. reflexivity. }
    intros [Hwf | (s0 & Hwf & ->)].
    + rewrite <- (app_nil_r s). apply Hok; [assumption | reflexivity].
    + apply Hok; [assumption | reflexivity].
Qed.

(** X23. Over all strings, as sequences of code points, with [\d] matching
    the decimal digits of the Unicode database: [validate_feature_id]
    accepts exactly the strings made of [FEAT-], eight decimal digits, a
    dash and three decimal digits, and those strings followed by one
    newline; every other string is rejected. *)
Theorem validate_feature_id_characterised (s : list N) :
  CodePoints.validate_feature_id decimal_digit s = true <->
  CodePoints.well_formed_feature_id decimal_digit s \/
  exists s0, CodePoints.well_formed_feature_id decimal_digit s0 /\ s = s0 ++ [10%N].
Proof. exact (validate_feature_id_accepts_code_points s). Qed.

(** An identifier written with Arabic-Indic digits is accepted. *)
Lemma validate_feature_id_arabic_indic :
  (forall c, (1632 <= c <= 1641)%N -> decimal_digit c = true) ->
  CodePoints.validate_feature_id decimal_digit
    (CodePoints.code_points "FEAT-"
       ++ [1634; 1632; 1634; 1638; 1632; 1633; 1634; 1641]%N
       ++ CodePoints.code_points "-" ++ [1632; 1632; 1633]%N) = true.
Proof.
  intros H. apply validate_feature_id_accepts_code_points. left.
  apply well_formed_of_code_points; apply H; lia.
Qed.

Lemma code_points_cons (x : ascii) (s : string) :
  CodePoints.code_points (String x s) = N_of_ascii x :: CodePoints.code_points s.
Proof. reflexivity. Qed.

Lemma N_of_ascii_eqb (x c : ascii) :
  N.eqb (N_of_ascii x) (N_of_ascii c) = Ascii.eqb x c.
Proof.
  destruct (Ascii.eqb_spec x c) as [->|Hne].
  - apply N.eqb_refl.
  - apply N.eqb_neq. intros E. apply Hne.
    rewrite <- (ascii_N_embedding x), <- (ascii_N_embedding c). now rewrite E.
Qed.

(** On strings of 8-bit characters, where the only decimal digits are the
    ASCII digits, the matcher over code points is the matcher over
    [string]. *)
Lemma re_run_code_points (r : regex) :
  (forall c : ascii, decimal_digit (N_of_ascii c) = is_digit c) ->
  forall pos s k k',
    (forall p t, k' p (CodePoints.code_points t) = k p t) ->
    CodePoints.re_run decimal_digit r pos (CodePoints.code_points s) k'
    = re_run r pos s k.
Proof.
  intros Hd. induction r as [| c | | | | r1 IH1 r2 IH2 | n r IH];
    intros pos s k k' Hk.
  - simpl. apply Hk.
  - destruct s as [|x s]; [reflexivity|].
    rewrite code_points_cons. cbn [CodePoints.re_run re_run].
    now rewrite Hk, N_of_ascii_eqb.
  - destruct s as [|x s]; [reflexivity|].
    rewrite code_points_cons. cbn [CodePoints.re_run re_run].
    now rewrite Hk, Hd.
  - simpl. now rewrite Hk.
  - cbn [CodePoints.re_run re_run]. rewrite Hk. f_equal.
    destruct s as [|x [|y s]]; [reflexivity| |reflexivity].
    rewrite code_points_cons.
    change (CodePoints.at_eol (N_of_ascii x :: CodePoints.code_points ""))
      with (N.eqb (N_of_ascii x) (N_of_ascii newline)).
    apply N_of_ascii_eqb.
  - simpl. apply IH1. intros p t. now apply IH2.
  - simpl. revert pos s. induction n as [|n IHn]; intros pos s.
    + apply Hk.
    + apply IH. intros p t. apply IHn.
Qed.

Lemma validate_feature_id_code_points (s : string) :
  (forall c : ascii, decimal_digit (N_of_ascii c) = is_digit c) ->
  CodePoints.validate_feature_id decimal_digit (CodePoints.code_points s)
  = validate_feature_id s.
Proof.
  intros Hd. unfold CodePoints.validate_feature_id, CodePoints.re_match,
    validate_feature_id, re_match.
  now apply re_run_code_points.
Qed.

End CodePointProperties.

(** X24. On a valid date, while the counter of the day is below 999, the
    identifier that [generate_feat_id] returns ends in the new counter
    value padded to three digits, has seventeen characters and is accepted
    by [validate_feature_id]. *)
Theorem generate_feat_id_below_1000 (w : World) (c : N) :
  valid_date (clock w) ->
  feature_counter w !! strftime_Ymd (clock w) = Some c ->
  (c + 1 < 1000)%N ->
  exists feat_id w',
    generate_feat_id w = (Return feat_id, w') /\
    feat_id = "FEAT-" +:+ strftime_Ymd (clock w) +:+ "-" +:+ format_0d 3 (c + 1) /\
    String.length feat_id = 17 /\
    validate_feature_id feat_id = true.
Proof.
  intros Hdate Hrow Hc.
  destruct (generate_feat_id_well_formed w c Hdate Hrow Hc)
    as (feat_id & w' & E & Hid & _ & Hlen & Hval).
  exists feat_id, w'. repeat split; assumption.
Qed.

Lemma sample_now_valid : valid_date sample_now.
Proof. repeat split; vm_compute; discriminate. Defined.

Lemma generate_feat_id_below_1000_witness :
  valid_date (clock (counter_world 41)) /\
  feature_counter (counter_world 41) !! strftime_Ymd (clock (counter_world 41))
    = Some 41%N /\
  (41 + 1 < 1000)%N /\
  exists feat_id w',
    generate_feat_id (counter_world 41) = (Return feat_id, w') /\
    feat_id = "FEAT-" +:+ strftime_Ymd (clock (counter_world 41)) +:+ "-"
                +:+ format_0d 3 (41 + 1) /\
    String.length feat_id = 17 /\
    validate_feature_id feat_id = true.
Proof.
  split; [exact sample_now_valid|]. split; [reflexivity|]. split; [reflexivity|].
  exact (generate_feat_id_below_1000 (counter_world 41) 41%N sample_now_valid
           eq_refl eq_refl).
Defined.

(** X26. [get_next_feature_number] returns one more than the counter of
    the current day, or 1 when the day has no counter yet; it stores that
    number for the day and leaves the counters of all other days and every
    other table and file alone. *)
Theorem get_next_feature_number_per_day (w : World) :
  exists w',
    get_next_feature_number w = (Return (next_number w), w') /\
    feature_counter w' !! strftime_Ymd (clock w) = Some (next_number w) /\
    (forall day, day <> strftime_Ymd (clock w) ->
                 feature_counter w' !! day = feature_counter w !! day) /\
    features w' = features w /\ projects w' = projects w /\
    files w' = files w /\ logs w' = logs w.
Proof.
  unfold next_number.
  destruct (feature_counter w !! strftime_Ymd (clock w)) as [c|] eqn:Hc.
  - rewrite (get_next_feature_number_row w c Hc). eexists. split; [reflexivity|].
    simpl. rewrite lookup_insert_eq. split; [reflexivity|].
    split; [|repeat split]. intros day Hday. now rewrite lookup_insert_ne by congruence.
  - rewrite (get_next_feature_number_fresh w Hc). eexists. split; [reflexivity|].
    simpl. rewrite lookup_insert_eq. split; [reflexivity|].
    split; [|repeat split]. intros day Hday. now rewrite lookup_insert_ne by congruence.
Qed.

Section PhaseSuccess.

Variable kickoff : Agent -> string -> string -> outcome string.

(** X25. When the executor returns a content, [execute_phase] returns that
    content; the spec of the phase can then be read with this content, the
    status COMPLETED and two approvals by "system" under auto-approval, the
    status PENDING_APPROVAL and one approval otherwise; the rows of the
    feature are IN_PROGRESS in this phase; the spec files of the other
    phases are untouched. *)
Theorem execute_phase_success feat_id project_name phase agent description
    context_content auto_approve content w :
  kickoff agent description
    ("Structured " +:+ WorkflowPhase_value phase +:+ " specification")
    = Return content ->
  exists w',
    execute_phase kickoff feat_id project_name phase agent description
      context_content auto_approve w = (Return content, w') /\
    read_phase_spec project_name feat_id phase w' =
      (Return (Some (phase_spec auto_approve feat_id phase content (clock w))), w') /\
    features w' =
      List.map (update_where feat_id IN_PROGRESS (Some phase)) (features w) /\
    forall q, q <> phase ->
      files w' !! get_phase_file project_name feat_id q
        = files w !! get_phase_file project_name feat_id q.
Proof.
  intros H.
  destruct (execute_phase_cases kickoff feat_id project_name phase agent description
              context_content auto_approve w)
    as [(content' & w' & E & F & T & C) | (e & w' & E & K & _)];
    [|congruence].
  assert (Hc : content' = content).
  { revert E. unfold execute_phase.
    destruct (log_message_eq feat_id
                ("Executing phase: " +:+ WorkflowPhase_value phase) "info" w)
      as (w1 & E1 & _).
    rewrite (bind_eq _ _ _ _ _ E1). unfold bind at 1, run_crew. rewrite H.
    intros E.
    do 5 (apply bind_Return in E; destruct E as (? & ? & _ & E)).
    unfold ret in E. now injection E. }
  subst content'. exists w'. split; [exact E|].
  split; [apply read_phase_spec_stored; rewrite F; apply lookup_insert_eq|].
  split; [exact T|].
  intros q Hq. rewrite F. apply lookup_insert_ne.
  intros E'. apply get_phase_file_inj in E'. congruence.
Qed.

End PhaseSuccess.

Lemma execute_phase_success_witness :
  sample_executor RequirementsAnalyst "analyse"
    ("Structured " +:+ WorkflowPhase_value REQUIREMENTS +:+ " specification")
    = Return "Output: Structured requirements specification" /\
  exists w',
    execute_phase sample_executor "FEAT-20260129-001" "demo" REQUIREMENTS
      RequirementsAnalyst "analyse" "" false sample_world
      = (Return "Output: Structured requirements specification", w') /\
    read_phase_spec "demo" "FEAT-20260129-001" REQUIREMENTS w' =
      (Return (Some (phase_spec false "FEAT-20260129-001" REQUIREMENTS
                       "Output: Structured requirements specification"
                       (clock sample_world))), w') /\
    features w' =
      List.map (update_where "FEAT-20260129-001" IN_PROGRESS (Some REQUIREMENTS))
        (features sample_world) /\
    forall q, q <> REQUIREMENTS ->
      files w' !! get_phase_file "demo" "FEAT-20260129-001" q
        = files sample_world !! get_phase_file "demo" "FEAT-20260129-001" q.
Proof.
  split; [reflexivity|].
  exact (execute_phase_success sample_executor "FEAT-20260129-001" "demo"
           REQUIREMENTS RequirementsAnalyst "analyse" "" false
           "Output: Structured requirements specification" sample_world eq_refl).
Defined.
